(** * Solar analysis engine: a shallow embedding of [analyze.py]

    The analytics engine of [skills/analyze/scripts/analyze.py] is a pure
    function of the hourly records and the household configuration.  This
    development embeds the helpers ([median], [mean], [group_by], [enrich])
    and the analysis sections the specification makes claims about, and
    proves or refutes each claim on the embedding.

    Numbers.  The script computes with Python floats.  Here every energy,
    power, percentage and money value is a rational ([Q]): the arithmetic
    is the exact one, comparisons are the exact ones, and [round(x, d)] is
    rounding half to even of the exact value.  Binary rounding error of the
    floats is not modelled, and a decimal literal of the script ([0.3],
    [0.005], [0.9], ...) is the rational it denotes; equalities between
    computed numbers are stated with [==] ([Qeq]).

    Dictionaries.  A Python [dict] whose iteration order matters is an
    association list in insertion order; a [set] of day strings is a
    duplicate-free list.

    Text.  Two conversions of text are parameters of the definitions that
    use them: [month_num], the month number read off a month key in the
    annual projection, and [hour_of], the hour bucket read off the time of
    a reading in [process_hourly] of
    [soliscloud-export-hourly/scripts/process_month.py], which is embedded
    in [ProcessMonth]. *)

From Stdlib Require Import QArith Qround Qabs Lqa ZArith Lia.
From Stdlib Require Import List Bool String Ascii Arith.
From Stdlib Require Import Sorting.Sorted Sorting.Permutation.
Import ListNotations.

Local Open Scope Q_scope.

(** ** Python number helpers *)

Module Py.

(** [a < b] on floats, as a boolean. *)
Definition ltb (a b : Q) : bool := negb (Qle_bool b a).
Definition leb (a b : Q) : bool := Qle_bool a b.

(** [max(a, b)]: the first of the largest, so [b] only when [b > a]. *)
Definition max (a b : Q) : Q := if ltb a b then b else a.

(** [min(a, b)]: the first of the smallest, so [b] only when [b < a]. *)
Definition min (a b : Q) : Q := if ltb b a then b else a.

(** [abs(x)]. *)
Definition abs (x : Q) : Q := Qabs x.

(** [sum(values)]: a left fold from [0]. *)
Definition sum (values : list Q) : Q := fold_left Qplus values 0.

(** [len(values)] as a number. *)
Definition len {A} (values : list A) : Q :=
  inject_Z (Z.of_nat (List.length values)).

(** Rounding half to even to the nearest integer. *)
Definition round_half_even (x : Q) : Z :=
  let f := Qfloor x in
  let r := x - inject_Z f in
  if ltb r (1 # 2) then f
  else if ltb (1 # 2) r then (f + 1)%Z
  else if Z.even f then f else (f + 1)%Z.

Fixpoint pow10 (d : nat) : Q :=
  match d with
  | O => 1
  | S d' => 10 * pow10 d'
  end.

(** [round(x, d)]. *)
Definition round (x : Q) (d : nat) : Q :=
  inject_Z (round_half_even (x * pow10 d)) / pow10 d.

(** [x ** n] for a natural exponent. *)
Fixpoint pow (x : Q) (n : nat) : Q :=
  match n with
  | O => 1
  | S n' => x * pow x n'
  end.

End Py.

(** ** Helpers of the script *)

(** Insertion of [x] into a list sorted by [leb], after the elements that
    are not larger: the sort built on it is stable, as [sorted] is. *)
Fixpoint insert_sorted {A} (leb : A -> A -> bool) (x : A) (l : list A) : list A :=
  match l with
  | [] => [x]
  | y :: l' => if leb y x then y :: insert_sorted leb x l' else x :: l
  end.

(** [sorted(values, key=...)] with [leb a b] standing for [key a <= key b]. *)
Definition sorted {A} (leb : A -> A -> bool) (values : list A) : list A :=
  fold_left (fun acc x => insert_sorted leb x acc) values [].

(** [median(values)]. *)
Definition median (values : list Q) : Q :=
  match values with
  | [] => 0
  | _ =>
    let s := sorted Py.leb values in
    let n := List.length s in
    if Nat.eqb (n mod 2) 1 then nth (n / 2) s 0
    else (nth (n / 2 - 1) s 0 + nth (n / 2) s 0) / 2
  end.

(** [mean(values)]. *)
Definition mean (values : list Q) : Q :=
  match values with
  | [] => 0
  | _ => Py.sum values / Py.len values
  end.

(** ** Records *)

(** A row of the hourly CSV as [load_csv_files] returns it: [Date] and
    [Hour] stay strings, every other column is a number. *)
Record raw_row := mk_raw_row {
  raw_Date : string;
  raw_Hour : string;
  raw_Avg_PV_W : Q;
  raw_Avg_Battery_W : Q;
  raw_Avg_Grid_W : Q;
  raw_Avg_GridLoad_W : Q;
  raw_Avg_BackupLoad_W : Q;
  raw_Avg_SOC_Pct : Q;
  raw_Min_SOC_Pct : Q;
  raw_Max_SOC_Pct : Q;
  raw_PV_Energy_kWh : Q;
  raw_Battery_Energy_kWh : Q;
  raw_Grid_Energy_kWh : Q;
  raw_GridLoad_Energy_kWh : Q;
  raw_BackupLoad_Energy_kWh : Q
}.

(** The same row after [enrich] has added the derived keys. *)
Record row := mk_row {
  raw : raw_row;
  Load_kWh : Q;
  Load_W : Q;
  Grid_Import_kWh : Q;
  Grid_Export_kWh : Q;
  Battery_Charge_kWh : Q;
  Battery_Discharge_kWh : Q
}.

Definition Date (r : row) := raw_Date (raw r).
Definition Hour (r : row) := raw_Hour (raw r).
Definition Avg_PV_W (r : row) := raw_Avg_PV_W (raw r).
Definition Avg_SOC_Pct (r : row) := raw_Avg_SOC_Pct (raw r).
Definition Min_SOC_Pct (r : row) := raw_Min_SOC_Pct (raw r).
Definition Max_SOC_Pct (r : row) := raw_Max_SOC_Pct (raw r).
Definition PV_Energy_kWh (r : row) := raw_PV_Energy_kWh (raw r).
Definition Battery_Energy_kWh (r : row) := raw_Battery_Energy_kWh (raw r).
Definition Grid_Energy_kWh (r : row) := raw_Grid_Energy_kWh (raw r).

(** [enrich(r)]. *)
Definition enrich (r : raw_row) : row :=
  {| raw := r;
     Load_kWh := raw_GridLoad_Energy_kWh r + raw_BackupLoad_Energy_kWh r;
     Load_W := raw_Avg_GridLoad_W r + raw_Avg_BackupLoad_W r;
     Grid_Import_kWh := Py.abs (Py.min 0 (raw_Grid_Energy_kWh r));
     Grid_Export_kWh := Py.max 0 (raw_Grid_Energy_kWh r);
     Battery_Charge_kWh := Py.max 0 (raw_Battery_Energy_kWh r);
     Battery_Discharge_kWh := Py.abs (Py.min 0 (raw_Battery_Energy_kWh r)) |}.

(** ** Grouping *)

(** [groups[k].append(r)] on an insertion-ordered [defaultdict(list)]. *)
Fixpoint group_append {A} (k : string) (r : A) (groups : list (string * list A))
  : list (string * list A) :=
  match groups with
  | [] => [(k, [r])]
  | (k', rs) :: groups' =>
    if String.eqb k' k then (k', rs ++ [r]) :: groups'
    else (k', rs) :: group_append k r groups'
  end.

(** [group_by(rows, key_fn)]. *)
Definition group_by {A} (rows : list A) (key_fn : A -> string)
  : list (string * list A) :=
  fold_left (fun groups r => group_append (key_fn r) r groups) rows [].

(** [r["Date"][:7]]. *)
Definition row_month (r : row) : string := substring 0 7 (Date r).

(** [r["Date"][:10]]. *)
Definition row_day (r : row) : string := substring 0 10 (Date r).

Definition row_hour (r : row) : string := Hour r.

(** [d in day_set]. *)
Definition mem (d : string) (day_set : list string) : bool :=
  existsb (String.eqb d) day_set.

(** [groups[k]] of a [dict]; [None] when the key is absent. *)
Fixpoint lookup {A} (k : string) (d : list (string * A)) : option A :=
  match d with
  | [] => None
  | (k', v) :: d' => if String.eqb k' k then Some v else lookup k d'
  end.

(** [d[k]] for a key the script knows to be present; [0] stands for the
    [KeyError] that cannot happen there. *)
Definition dict_get (k : string) (d : list (string * Q)) : Q :=
  match lookup k d with
  | Some v => v
  | None => 0
  end.

(** [d.get(k, default)]. *)
Definition get {A} (k : string) (default : A) (d : list (string * A)) : A :=
  match lookup k d with
  | Some v => v
  | None => default
  end.

(** [sorted(d.items())] and [sorted(d.keys())]: keys are distinct, so the
    order is the order of the keys. *)
Definition sorted_items {A} (d : list (string * A)) : list (string * A) :=
  sorted (fun a b => String.leb (fst a) (fst b)) d.

Definition sorted_keys (keys : list string) : list string :=
  sorted String.leb keys.

(** [l[a:b]] for [0 <= a] and [0 <= b]. *)
Definition slice {A} (a b : nat) (l : list A) : list A := skipn a (firstn b l).

(** [len(set(row_day(r) for r in mrows))]. *)
Definition count_days (mrows : list row) : nat :=
  List.length (nodup string_dec (map row_day mrows)).

(** ** 3a. Monthly totals *)

Record month_totals := mk_month_totals {
  total_pv : Q;
  total_load : Q;
  grid_export : Q;
  grid_import : Q;
  battery_charge : Q;
  battery_discharge : Q;
  self_consumed : Q;
  self_consumption_rate : Q;
  self_sufficiency : option Q;
  days : nat
}.

(** The body of the loop over the months. *)
Definition month_totals_of (mrows : list row) : month_totals :=
  let total_pv := Py.sum (map PV_Energy_kWh mrows) in
  let total_load := Py.sum (map Load_kWh mrows) in
  let grid_export := Py.sum (map Grid_Export_kWh mrows) in
  let grid_import := Py.sum (map Grid_Import_kWh mrows) in
  let battery_charge := Py.sum (map Battery_Charge_kWh mrows) in
  let battery_discharge := Py.sum (map Battery_Discharge_kWh mrows) in
  let self_consumed := total_load - grid_import in
  let sc_rate :=
    if Py.ltb 0 total_pv then self_consumed / total_pv * 100 else 0 in
  let ss :=
    if Py.ltb 0 total_load then Some ((1 - grid_import / total_load) * 100)
    else None in
  {| total_pv := Py.round total_pv 1;
     total_load := Py.round total_load 1;
     grid_export := Py.round grid_export 1;
     grid_import := Py.round grid_import 1;
     battery_charge := Py.round battery_charge 1;
     battery_discharge := Py.round battery_discharge 1;
     self_consumed := Py.round self_consumed 1;
     self_consumption_rate := Py.round sc_rate 1;
     self_sufficiency := option_map (fun v => Py.round v 1) ss;
     days := count_days mrows |}.

Definition compute_monthly_totals (rows : list row)
  : list (string * month_totals) :=
  map (fun '(m, mrows) => (m, month_totals_of mrows))
      (sorted_items (group_by rows row_month)).

(** ** 3b. EV day detection *)

(** A value of the [info] dictionary. *)
Inductive jval :=
| JNum (q : Q)
| JInt (n : nat)
| JStrs (l : list string).

(** [daily_loads]: the total load of every day with more than 20 rows. *)
Definition daily_loads_of (by_day : list (string * list row))
  : list (string * Q) :=
  flat_map (fun '(day, drows) =>
              if 20 <? List.length drows
              then [(day, Py.sum (map Load_kWh drows))] else [])
           by_day.

Definition ev_threshold (avg_load : Q) : Q := Py.max 8 (avg_load * (3 # 10)).

Definition detect_ev_days (rows : list row)
  : list string * list string * list (string * jval) :=
  let by_day := group_by rows row_day in
  let daily_loads := daily_loads_of by_day in
  match daily_loads with
  | [] => ([], [], [])
  | _ =>
    let avg_load := mean (map snd daily_loads) in
    let threshold := ev_threshold avg_load in
    let ev_days :=
      map fst (filter (fun dl => Py.ltb (avg_load + threshold) (snd dl))
                      daily_loads) in
    let non_ev_days :=
      map fst (filter (fun dl => negb (Py.ltb (avg_load + threshold) (snd dl)))
                      daily_loads) in
    let info :=
      [ ("avg_daily_load", JNum (Py.round avg_load 1));
        ("threshold", JNum (Py.round threshold 1));
        ("ev_day_count", JInt (List.length ev_days));
        ("non_ev_day_count", JInt (List.length non_ev_days));
        ("total_full_days", JInt (List.length daily_loads));
        ("ev_dates", JStrs (sorted_keys ev_days)) ]%string in
    let info :=
      match ev_days with
      | [] => info
      | _ => info ++
             [ ("ev_avg_load",
                JNum (Py.round
                        (mean (map (fun d => dict_get d daily_loads) ev_days))
                        1)) ]%string
      end in
    let info :=
      match non_ev_days with
      | [] => info
      | _ => info ++
             [ ("non_ev_avg_load",
                JNum (Py.round
                        (mean (map (fun d => dict_get d daily_loads)
                                   non_ev_days)) 1)) ]%string
      end in
    (ev_days, non_ev_days, info)
  end.

(** Step 3b of [main]: the classifier runs only when [has_ev] is set. *)
Definition main_ev_detection (has_ev : bool) (rows : list row)
  : list string * list string * list (string * jval) :=
  if has_ev then detect_ev_days rows
  else
    let by_day := group_by rows row_day in
    let all_days :=
      map fst (filter (fun dr => 20 <? List.length (snd dr)) by_day) in
    ([], all_days,
     [ ("ev_day_count", JInt 0);
       ("non_ev_day_count", JInt (List.length all_days));
       ("total_full_days", JInt (List.length all_days)) ]%string).

(** ** 3d. System sizing *)

(** [max(values)] of a non-empty sequence; [None] is the [ValueError] on an
    empty one. *)
Definition max_of (values : list Q) : option Q :=
  match values with
  | [] => None
  | v :: vs => Some (fold_left Py.max vs v)
  end.

(** [sum(1 for r in rows if p r)]. *)
Definition count_if {A} (p : A -> bool) (rows : list A) : nat :=
  List.length (filter p rows).

Record month_sizing := mk_month_sizing {
  ms_avg_daily_pv : Q;
  ms_peak_sun_hours : Q;
  ms_capacity_factor : Q;
  ms_grid_dependence : Q
}.

Record sizing := mk_sizing {
  sz_avg_daily_pv : Q;
  sz_capacity_factor : Q;
  sz_peak_sun_hours : Q;
  sz_max_pv_w : Q;
  sz_nameplate_w : Q;
  sz_inverter_ac_w : Q;
  sz_inverter_kw : Q;
  sz_dc_ac_ratio : Q;
  sz_max_pv_pct_nameplate : Q;
  sz_max_pv_pct_inverter : Q;
  sz_panel_clip_hours : nat;
  sz_inverter_clip_hours : nat;
  sz_inverter_limited : bool;
  sz_pv_load_ratio : Q;
  sz_monthly : list (string * month_sizing)
}.

(** [daily_pv]: the PV energy of every day of [by_day], in its order. *)
Definition daily_pv_of (by_day : list (string * list row)) : list Q :=
  map (fun dr => Py.sum (map PV_Energy_kWh (snd dr))) by_day.

(** The body of the per-month loop of [compute_system_sizing]. *)
Definition month_sizing_of (pv_kwp : Q) (mrows : list row) : month_sizing :=
  let m_by_day := group_by mrows row_day in
  let m_daily_pv := daily_pv_of m_by_day in
  let m_avg := mean m_daily_pv in
  let m_total_load := Py.sum (map Load_kWh mrows) in
  let m_total_import := Py.sum (map Grid_Import_kWh mrows) in
  let grid_dep :=
    if Py.ltb 0 m_total_load then m_total_import / m_total_load * 100 else 0 in
  {| ms_avg_daily_pv := Py.round m_avg 1;
     ms_peak_sun_hours := Py.round (m_avg / pv_kwp) 1;
     ms_capacity_factor := Py.round (m_avg / (pv_kwp * 24) * 100) 1;
     ms_grid_dependence := Py.round grid_dep 0 |}.

(** [compute_system_sizing]; [None] stands for the exception the script
    raises on an empty [rows] ([max] of nothing) and on a zero [pv_kwp] or
    [inverter_kw] (division by zero). *)
Definition compute_system_sizing (rows : list row) (pv_kwp inverter_kw : Q)
           (non_ev_days ev_days : list string) : option sizing :=
  let by_day := group_by rows row_day in
  let daily_pv := daily_pv_of by_day in
  let avg_daily_pv := mean daily_pv in
  if Qeq_bool pv_kwp 0 then None else
  let capacity_factor := avg_daily_pv / (pv_kwp * 24) in
  let peak_sun_hours := avg_daily_pv / pv_kwp in
  match max_of (map Avg_PV_W rows) with
  | None => None
  | Some max_pv_w =>
    let nameplate_w := pv_kwp * 1000 in
    let inverter_ac_w := inverter_kw * 1000 in
    let panel_clip_hours :=
      count_if (fun r => Py.ltb (nameplate_w * (85 # 100)) (Avg_PV_W r)) rows in
    let inverter_clip_hours :=
      count_if (fun r => Py.ltb inverter_ac_w (Avg_PV_W r)) rows in
    let inverter_limited := Py.leb (inverter_ac_w * (95 # 100)) max_pv_w in
    let non_ev_rows := filter (fun r => mem (row_day r) non_ev_days) rows in
    let non_ev_by_day := group_by non_ev_rows row_day in
    let non_ev_daily_pv := daily_pv_of non_ev_by_day in
    let non_ev_daily_load :=
      map (fun dr => Py.sum (map Load_kWh (snd dr))) non_ev_by_day in
    let pv_load_ratio :=
      match non_ev_daily_load with
      | [] => 0
      | _ => if Py.ltb 0 (mean non_ev_daily_load)
             then mean non_ev_daily_pv / mean non_ev_daily_load else 0
      end in
    let monthly_sizing :=
      map (fun '(m, mrows) => (m, month_sizing_of pv_kwp mrows))
          (sorted_items (group_by rows row_month)) in
    if Qeq_bool inverter_kw 0 then None else
    Some {| sz_avg_daily_pv := Py.round avg_daily_pv 2;
            sz_capacity_factor := Py.round (capacity_factor * 100) 1;
            sz_peak_sun_hours := Py.round peak_sun_hours 2;
            sz_max_pv_w := Py.round max_pv_w 0;
            sz_nameplate_w := nameplate_w;
            sz_inverter_ac_w := Py.round inverter_ac_w 0;
            sz_inverter_kw := inverter_kw;
            sz_dc_ac_ratio := Py.round (pv_kwp / inverter_kw) 2;
            sz_max_pv_pct_nameplate := Py.round (max_pv_w / nameplate_w * 100) 0;
            sz_max_pv_pct_inverter :=
              Py.round (max_pv_w / inverter_ac_w * 100) 0;
            sz_panel_clip_hours := panel_clip_hours;
            sz_inverter_clip_hours := inverter_clip_hours;
            sz_inverter_limited := inverter_limited;
            sz_pv_load_ratio := Py.round pv_load_ratio 2;
            sz_monthly := monthly_sizing |}
  end.

(** ** 3e. Battery analysis: usable capacity *)

(** The three variables the scan keeps, and its position [i]. *)
Record scan_state := mk_scan {
  scan_i : nat;
  best_start : nat;
  best_end : nat;
  best_drop : Q
}.

(** [while j < len(soc_vals) - 1 and soc_vals[j] >= soc_vals[j + 1]: j += 1].
    On naturals [len - 1] is [0] for the empty list, where the script has
    [-1]; the test [j < len - 1] is false for both.  [None]: out of fuel. *)
Fixpoint extend_run (fuel : nat) (soc_vals : list Q) (j : nat) : option nat :=
  match fuel with
  | O => None
  | S fuel' =>
    if (j <? List.length soc_vals - 1)
       && Py.leb (nth (j + 1) soc_vals 0) (nth j soc_vals 0)
    then extend_run fuel' soc_vals (j + 1)
    else Some j
  end.

(** The outer [while i < len(soc_vals) - 1] loop. *)
Fixpoint scan_runs (fuel : nat) (soc_vals : list Q) (st : scan_state)
  : option scan_state :=
  match fuel with
  | O => None
  | S fuel' =>
    let i := scan_i st in
    if i <? List.length soc_vals - 1 then
      if Py.ltb (nth (i + 1) soc_vals 0) (nth i soc_vals 0) then
        match extend_run (S (List.length soc_vals)) soc_vals (i + 1) with
        | None => None
        | Some j =>
          let drop := nth i soc_vals 0 - nth j soc_vals 0 in
          if Py.ltb (best_drop st) drop
          then scan_runs fuel' soc_vals
                 {| scan_i := j; best_start := i; best_end := j;
                    best_drop := drop |}
          else scan_runs fuel' soc_vals
                 {| scan_i := j; best_start := best_start st;
                    best_end := best_end st; best_drop := best_drop st |}
        end
      else scan_runs fuel' soc_vals
             {| scan_i := i + 1; best_start := best_start st;
                best_end := best_end st; best_drop := best_drop st |}
    else Some st
  end.

(** The scan of one day from [best_start = best_end = 0], [best_drop = 0]
    and [i = 0]. *)
Definition deepest_run (soc_vals : list Q) : option scan_state :=
  scan_runs (S (List.length soc_vals)) soc_vals
            {| scan_i := 0; best_start := 0; best_end := 0; best_drop := 0 |}.

(** The body of the loop over the days: what the day appends to
    [usable_estimates] ([[]] or one estimate). *)
Definition day_estimates (drows : list row) : option (list Q) :=
  let drows_sorted := sorted (fun a b => String.leb (Hour a) (Hour b)) drows in
  let soc_vals := map Avg_SOC_Pct drows_sorted in
  let discharge_vals := map Battery_Discharge_kWh drows_sorted in
  match deepest_run soc_vals with
  | None => None
  | Some st =>
    if Py.ltb 30 (best_drop st) then
      let discharge_in_window :=
        Py.sum (slice (best_start st) (best_end st + 1) discharge_vals) in
      if Py.ltb 0 (best_drop st) && Py.ltb 0 discharge_in_window
      then Some [discharge_in_window / (best_drop st / 100)]
      else Some []
    else Some []
  end.

(** [usable_estimates] after the loop over [by_day.items()]. *)
Fixpoint usable_estimates_of (by_day : list (string * list row))
  : option (list Q) :=
  match by_day with
  | [] => Some []
  | (_, drows) :: by_day' =>
    match day_estimates drows, usable_estimates_of by_day' with
    | Some e, Some es => Some (e ++ es)
    | _, _ => None
    end
  end.

Definition usable_estimates (rows : list row) : option (list Q) :=
  usable_estimates_of (group_by rows row_day).

(** [estimated_usable]. *)
Definition estimated_usable (rows : list row) (nominal_kwh : Q) : option Q :=
  match usable_estimates rows with
  | None => None
  | Some [] => Some (nominal_kwh * (9 # 10))
  | Some es => Some (median es)
  end.

(** ** 3h. Anomaly detection *)

Record pv_anomaly := mk_pv_anomaly {
  pa_date : string;
  pa_daily_pv : Q;
  pa_expected : Q;
  pa_deviation_pct : Q
}.

Record battery_anomaly := mk_battery_anomaly {
  ba_date : string;
  ba_efficiency : Q;
  ba_charge : Q;
  ba_discharge : Q
}.

(** [daily_pv] of [compute_anomalies]: one entry per key of [by_day]. *)
Definition anomaly_daily_pv (by_day : list (string * list row))
  : list (string * Q) :=
  map (fun '(d, drows) => (d, Py.sum (map PV_Energy_kWh drows))) by_day.

(** [sorted_days[window_start:i]] for the day of index [i]. *)
Definition pv_window_days (sorted_days : list string) (i : nat) : list string :=
  let window_start := Nat.max 0 (i - 14) in
  slice window_start i sorted_days.

(** [ref_mean] for the day of index [i]: the rolling-mean baseline. *)
Definition pv_ref_mean (daily_pv : list (string * Q)) (sorted_days : list string)
           (i : nat) : Q :=
  mean (map (fun d => dict_get d daily_pv) (pv_window_days sorted_days i)).

(** The PV detector: the loop over [enumerate(sorted_days)]. *)
Definition pv_anomalies (rows : list row) : list pv_anomaly :=
  let by_day := group_by rows row_day in
  let sorted_days := sorted_keys (map fst by_day) in
  let daily_pv := anomaly_daily_pv by_day in
  flat_map
    (fun i =>
       let day := nth i sorted_days EmptyString in
       if i <? 3 then []
       else
         let ref_mean := pv_ref_mean daily_pv sorted_days i in
         if Py.ltb 0 ref_mean
            && Py.ltb (dict_get day daily_pv) (ref_mean * (6 # 10))
         then [ {| pa_date := day;
                   pa_daily_pv := Py.round (dict_get day daily_pv) 1;
                   pa_expected := Py.round ref_mean 1;
                   pa_deviation_pct :=
                     Py.round ((dict_get day daily_pv - ref_mean)
                               / ref_mean * 100) 0 |} ]
         else [])
    (seq 0 (List.length sorted_days)).

(** [non_ev_loads]: the sample the load detector takes its mean and
    standard deviation from. *)
Definition non_ev_loads (rows : list row) (non_ev_days : list string) : list Q :=
  let by_day := group_by rows row_day in
  flat_map
    (fun d =>
       match lookup d by_day with
       | Some drows =>
         if 20 <? List.length drows then [Py.sum (map Load_kWh drows)] else []
       | None => []
       end)
    non_ev_days.

(** The battery detector: the loop over [by_day.items()]. *)
Definition battery_anomalies (rows : list row) : list battery_anomaly :=
  let by_day := group_by rows row_day in
  flat_map
    (fun '(day, drows) =>
       let drows_sorted :=
         sorted (fun a b => String.leb (Hour a) (Hour b)) drows in
       if List.length drows_sorted <? 20 then []
       else
         match drows_sorted, rev drows_sorted with
         | first :: _, last :: _ =>
           let start_soc := Avg_SOC_Pct first in
           let end_soc := Avg_SOC_Pct last in
           if Py.ltb 5 (Py.abs (start_soc - end_soc)) then []
           else
             let ch := Py.sum (map Battery_Charge_kWh drows_sorted) in
             let dis := Py.sum (map Battery_Discharge_kWh drows_sorted) in
             if Py.ltb 1 ch then
               let eff := dis / ch * 100 in
               if Py.ltb eff 80
               then [ {| ba_date := day;
                         ba_efficiency := Py.round eff 1;
                         ba_charge := Py.round ch 1;
                         ba_discharge := Py.round dis 1 |} ]
               else []
             else []
         | _, _ => []
         end)
    by_day.

(** ** 3i. Bill impact *)

(** A threshold of a tier: a number, or [float("inf")]. *)
Inductive ext :=
| Fin (q : Q)
| Inf.

(** One entry of [tariff["tiers"]]; a missing key is [None]. *)
Record tier := mk_tier {
  tier_threshold : option Q;
  tier_rate : option Q
}.

Record tou_config := mk_tou {
  tou_peak_hours : option (list string);
  tou_peak_rate : option Q;
  tou_offpeak_rate : option Q
}.

(** The [tariff] dictionary; a missing key is [None]. *)
Record tariff := mk_tariff {
  tariff_type_key : option string;
  tariff_import_rate : option Q;
  tariff_tiers : option (list tier);
  tariff_tou : option tou_config
}.

Definition opt_default {A} (o : option A) (default : A) : A :=
  match o with
  | Some v => v
  | None => default
  end.

Definition tariff_type (t : tariff) : string :=
  opt_default (tariff_type_key t) "flat"%string.

Definition import_rate (t : tariff) : Q := opt_default (tariff_import_rate t) 0.

Definition calc_flat (t : tariff) (kwh : Q) : Q := kwh * import_rate t.

(** [min(remaining, width)] where the width of a tier may be infinite. *)
Definition min_ext (remaining : Q) (width : ext) : Q :=
  match width with
  | Fin w => Py.min remaining w
  | Inf => remaining
  end.

(** [thresh - prev_thresh]. *)
Definition ext_sub (thresh : ext) (prev_thresh : Q) : ext :=
  match thresh with
  | Fin q => Fin (q - prev_thresh)
  | Inf => Inf
  end.

Definition tier_thresh (tr : tier) : ext :=
  match tier_threshold tr with
  | Some q => Fin q
  | None => Inf
  end.

(** The [for i, tier in enumerate(tiers)] loop of [calc_tiered] from index
    [i] on; [prev] is [tiers[i - 1]] when [i > 0].  It returns [cost] and
    [remaining] at the end of the loop or at its [break]. *)
Fixpoint tier_loop (rate0 : Q) (prev : option tier) (todo : list tier)
         (cost remaining : Q) : Q * Q :=
  match todo with
  | [] => (cost, remaining)
  | tr :: todo' =>
    let thresh := tier_thresh tr in
    let rate := opt_default (tier_rate tr) rate0 in
    let tier_kwh :=
      match prev with
      | None => min_ext remaining thresh
      | Some p =>
        let prev_thresh := opt_default (tier_threshold p) 0 in
        min_ext remaining (ext_sub thresh prev_thresh)
      end in
    let cost := cost + tier_kwh * rate in
    let remaining := remaining - tier_kwh in
    if Py.leb remaining 0 then (cost, remaining)
    else tier_loop rate0 (Some tr) todo' cost remaining
  end.

Definition calc_tiered (t : tariff) (kwh : Q) : Q :=
  let tiers := opt_default (tariff_tiers t) [] in
  match tiers with
  | [] => kwh * import_rate t
  | _ =>
    let '(cost, remaining) := tier_loop (import_rate t) None tiers 0 kwh in
    if Py.ltb 0 remaining
    then cost + remaining
                * opt_default
                    (tier_rate (last tiers (mk_tier None None)))
                    (import_rate t)
    else cost
  end.

Definition calc_tou_monthly (t : tariff) (mrows : list row) (rate_fn : row -> Q)
  : Q :=
  let tou := opt_default (tariff_tou t) (mk_tou None None None) in
  let peak_hours := opt_default (tou_peak_hours tou) [] in
  let peak_rate := opt_default (tou_peak_rate tou) (import_rate t) in
  let offpeak_rate := opt_default (tou_offpeak_rate tou) (import_rate t) in
  fold_left
    (fun cost r =>
       let kwh := rate_fn r in
       if mem (Hour r) peak_hours then cost + kwh * peak_rate
       else cost + kwh * offpeak_rate)
    mrows 0.

(** [{"flat": calc_flat, "tiered": calc_tiered}.get(tariff_type, calc_flat)]. *)
Definition calc_fn (t : tariff) : Q -> Q :=
  if String.eqb (tariff_type t) "flat" then calc_flat t
  else if String.eqb (tariff_type t) "tiered" then calc_tiered t
  else calc_flat t.

Record month_bill := mk_month_bill {
  without_solar : Q;
  with_solar : Q;
  feedin_credit : Q;
  net_savings : Q;
  bill_days : nat;
  without_tier : option nat;
  with_tier : option nat
}.

(** The [for i, t in enumerate(tiers)] search with its [else] branch: the
    1-based index of the first tier whose threshold is not below [kwh], or
    [len(tiers) + 1]. *)
Fixpoint tier_index (tiers : list tier) (kwh : Q) (i : nat) : nat :=
  match tiers with
  | [] => i + 1
  | tr :: tiers' =>
    match tier_thresh tr with
    | Inf => i + 1
    | Fin th => if Py.leb kwh th then i + 1 else tier_index tiers' kwh (i + 1)
    end
  end.

(** The body of the loop over the months of [compute_bill_impact]. *)
Definition month_bill_of (t : tariff) (feedin_ratio : Q)
           (monthly_totals : list (string * month_totals))
           (m : string) (mrows : list row) : month_bill :=
  let total_load := Py.sum (map Load_kWh mrows) in
  let grid_import := Py.sum (map Grid_Import_kWh mrows) in
  let grid_export := Py.sum (map Grid_Export_kWh mrows) in
  let '(without_solar, with_solar) :=
    if String.eqb (tariff_type t) "tou"
    then (calc_tou_monthly t mrows Load_kWh,
          calc_tou_monthly t mrows Grid_Import_kWh)
    else (calc_fn t total_load, calc_fn t grid_import) in
  let feedin_credit := grid_export * import_rate t * feedin_ratio in
  let net_savings := without_solar - with_solar + feedin_credit in
  let days :=
    match lookup m monthly_totals with
    | Some mt => days mt
    | None => 30%nat
    end in
  let tiers := opt_default (tariff_tiers t) [] in
  let tiered :=
    String.eqb (tariff_type t) "tiered"
    && negb (Nat.eqb (List.length tiers) 0) in
  {| without_solar := Py.round without_solar 0;
     with_solar := Py.round with_solar 0;
     feedin_credit := Py.round feedin_credit 0;
     net_savings := Py.round net_savings 0;
     bill_days := days;
     without_tier := if tiered then Some (tier_index tiers total_load 0) else None;
     with_tier := if tiered then Some (tier_index tiers grid_import 0) else None |}.

Record bill_impact := mk_bill_impact {
  bi_tariff_type : string;
  bi_monthly : list (string * month_bill);
  annual_without_solar : Q;
  annual_with_solar : Q;
  annual_feedin_credit : Q;
  annual_savings : Q;
  annual_reduction_pct : Q
}.

Definition compute_bill_impact (rows : list row) (t : tariff) (feedin_ratio : Q)
           (monthly_totals : list (string * month_totals)) : bill_impact :=
  let monthly_bill :=
    map (fun '(m, mrows) => (m, month_bill_of t feedin_ratio monthly_totals m mrows))
        (sorted_items (group_by rows row_month)) in
  let total_days :=
    inject_Z (Z.of_nat (fold_left Nat.add (map (fun v => bill_days (snd v)) monthly_bill) 0%nat)) in
  let total_without := Py.sum (map (fun v => without_solar (snd v)) monthly_bill) in
  let total_with := Py.sum (map (fun v => with_solar (snd v)) monthly_bill) in
  let total_credit := Py.sum (map (fun v => feedin_credit (snd v)) monthly_bill) in
  let total_savings := Py.sum (map (fun v => net_savings (snd v)) monthly_bill) in
  let annual x := if Py.ltb 0 total_days then x / total_days * 365 else 0 in
  let annual_without := annual total_without in
  let annual_with := annual total_with in
  let annual_credit := annual total_credit in
  let annual_savings := annual total_savings in
  {| bi_tariff_type := tariff_type t;
     bi_monthly := monthly_bill;
     annual_without_solar := Py.round annual_without 0;
     annual_with_solar := Py.round annual_with 0;
     annual_feedin_credit := Py.round annual_credit 0;
     annual_savings := Py.round annual_savings 0;
     annual_reduction_pct :=
       Py.round (if Py.ltb 0 annual_without
                 then annual_savings / annual_without * 100 else 0) 0 |}.

(** ** 3j. ROI with panel degradation *)

(** The state of the [for n in range(26)] loop. *)
Record roi_state := mk_roi_state {
  cumulative : Q;
  payback_year : option Q;
  yearly_savings : list Q
}.

(** [annual_savings * (1 - 0.005) ** n]. *)
Definition year_savings_of (annual_savings : Q) (n : nat) : Q :=
  annual_savings * Py.pow (1 - (5 # 1000)) n.

(** One iteration of the loop, for year [n]. *)
Definition roi_step (annual_savings total_cost : Q) (st : roi_state) (n : nat)
  : roi_state :=
  let year_savings := year_savings_of annual_savings n in
  let yearly := yearly_savings st ++ [Py.round year_savings 0] in
  let cumulative := cumulative st + year_savings in
  let payback :=
    match payback_year st with
    | None =>
      if Py.leb total_cost cumulative then
        let prev_cum := cumulative - year_savings in
        let fraction :=
          if Py.ltb 0 year_savings
          then (total_cost - prev_cum) / year_savings else 0 in
        Some (inject_Z (Z.of_nat n) + fraction)
      else None
    | Some p => Some p
    end in
  {| cumulative := cumulative; payback_year := payback;
     yearly_savings := yearly |}.

Definition roi_loop (annual_savings total_cost : Q) : roi_state :=
  fold_left (roi_step annual_savings total_cost) (seq 0 26)
            {| cumulative := 0; payback_year := None; yearly_savings := [] |}.

Record roi_report := mk_roi_report {
  roi_total_cost : Q;
  roi_system_age_years : Q;
  daily_savings : Q;
  annual_savings_year1 : Q;
  simple_payback : option Q;
  remaining_payback : option Q;
  lifetime_savings_25yr : Q;
  year_1 : Q;
  year_10 : Q;
  year_25 : Q
}.

(** What [compute_roi] returns when it returns a dictionary. *)
Inductive roi_result :=
| RoiError (error : string)
| RoiReport (report : roi_report).

(** Truth value of a number: [0] is false. *)
Definition truthy (x : Q) : bool := negb (Qeq_bool x 0).

(** [annual_savings_override or bill_impact.get("annual_savings", 0)]. *)
Definition roi_annual_savings (bill_impact : list (string * Q))
           (annual_savings_override : option Q) : Q :=
  match annual_savings_override with
  | Some v => if truthy v then v else get "annual_savings" 0 bill_impact
  | None => get "annual_savings" 0 bill_impact
  end.

(** [compute_roi(bill_impact, roi_config, annual_savings_override)].
    [roi_config] is [None] or a dictionary of numbers; [bill_impact] enters
    only through [bill_impact.get("annual_savings", 0)] and is given as the
    dictionary of its numeric keys.  The result [None] is Python's [None]. *)
Definition compute_roi (bill_impact : list (string * Q))
           (roi_config : option (list (string * Q)))
           (annual_savings_override : option Q) : option roi_result :=
  match roi_config with
  | None => None
  | Some [] => None
  | Some cfg =>
    let total_cost := get "total_cost" 0 cfg in
    let system_age := get "system_age_years" 0 cfg in
    let annual_savings := roi_annual_savings bill_impact annual_savings_override in
    if Py.leb annual_savings 0 then Some (RoiError "No savings to compute ROI")
    else
      let st := roi_loop annual_savings total_cost in
      let lifetime_savings_25 :=
        Py.sum (map (year_savings_of annual_savings) (seq 0 25)) in
      let daily := annual_savings / 365 in
      let reported (f : Q -> Q) : option Q :=
        match payback_year st with
        | Some p => if truthy p then Some (Py.round (f p) 1) else None
        | None => None
        end in
      Some (RoiReport
        {| roi_total_cost := total_cost;
           roi_system_age_years := system_age;
           daily_savings := Py.round daily 1;
           annual_savings_year1 := Py.round annual_savings 0;
           simple_payback := reported (fun p => p);
           remaining_payback := reported (fun p => Py.max 0 (p - system_age));
           lifetime_savings_25yr := Py.round lifetime_savings_25 0;
           year_1 := nth 0 (yearly_savings st) 0;
           year_10 := nth 9 (yearly_savings st) 0;
           year_25 := nth 24 (yearly_savings st) 0 |})
  end.

(** ** 3l. Battery health *)

Record month_efficiency := mk_month_efficiency {
  me_efficiency : Q;
  me_charge : Q;
  me_discharge : Q
}.

(** The keys of [battery_analysis] that [compute_battery_health] reads. *)
Record battery_analysis := mk_battery_analysis {
  estimated_usable_kwh : Q;
  usable_pct : Q;
  nominal_kwh : Q;
  avg_discharge : Q;
  monthly_efficiency : list (string * month_efficiency)
}.

Record battery_health := mk_battery_health {
  bh_usable_kwh : Q;
  bh_usable_pct : Q;
  bh_nominal_kwh : Q;
  daily_equiv_cycles : Q;
  annual_cycles : Q;
  cycles_used : Q;
  remaining_cycle_years : option Q;
  bh_monthly_efficiency : list (string * month_efficiency)
}.

Definition compute_battery_health (ba : battery_analysis) (system_age_years : Q)
  : battery_health :=
  let usable := estimated_usable_kwh ba in
  let avg_discharge := avg_discharge ba in
  let daily_cycles := if Py.ltb 0 usable then avg_discharge / usable else 0 in
  let annual_cycles := daily_cycles * 365 in
  let cycles_used := annual_cycles * system_age_years in
  let remaining_cycles := Py.max 0 (6000 - cycles_used) in
  let remaining_years :=
    if Py.ltb 0 annual_cycles then Fin (remaining_cycles / annual_cycles)
    else Inf in
  {| bh_usable_kwh := estimated_usable_kwh ba;
     bh_usable_pct := usable_pct ba;
     bh_nominal_kwh := nominal_kwh ba;
     daily_equiv_cycles := Py.round daily_cycles 2;
     annual_cycles := Py.round annual_cycles 0;
     cycles_used := Py.round cycles_used 0;
     remaining_cycle_years :=
       match remaining_years with
       | Fin y => Some (Py.round y 0)
       | Inf => None
       end;
     bh_monthly_efficiency := monthly_efficiency ba |}.

(** ** Vocabulary of the specification *)

(** Exactly one of two energies is non-zero. *)
Definition exactly_one_nonzero (a b : Q) : Prop :=
  (~ a == 0 /\ b == 0) \/ (a == 0 /\ ~ b == 0).

(** The distinct keys of a sequence, in order of first appearance: the key
    order of the dictionary [group_by] builds. *)
Definition distinct_keys (keys : list string) : list string :=
  fold_left (fun acc k => if mem k acc then acc else acc ++ [k]) keys [].

(** The rows of calendar day [day]. *)
Definition rows_of_day (rows : list row) (day : string) : list row :=
  filter (fun r => String.eqb (row_day r) day) rows.

(** The rows of month [m]. *)
Definition rows_of_month (rows : list row) (m : string) : list row :=
  filter (fun r => String.eqb (row_month r) m) rows.

(** A day is full when it has more than 20 hourly records. *)
Definition is_full_day (rows : list row) (day : string) : bool :=
  20 <? List.length (rows_of_day rows day).

(** The calendar days of the input, and the full ones among them. *)
Definition all_days (rows : list row) : list string :=
  distinct_keys (map row_day rows).

Definition full_days (rows : list row) : list string :=
  filter (is_full_day rows) (all_days rows).

(** The input without the records of the days that are not full. *)
Definition full_rows (rows : list row) : list row :=
  filter (fun r => is_full_day rows (row_day r)) rows.

(** Total load and total PV energy of a day. *)
Definition day_load (rows : list row) (day : string) : Q :=
  Py.sum (map Load_kWh (rows_of_day rows day)).

Definition day_pv (rows : list row) (day : string) : Q :=
  Py.sum (map PV_Energy_kWh (rows_of_day rows day)).

(** The mean of the total loads of the full days. *)
Definition avg_full_day_load (rows : list row) : Q :=
  mean (map (day_load rows) (full_days rows)).

(** ** Sample inputs *)

(** A record of the given day and hour; every number not given is [0]. *)
Definition sample_row (date hour : string)
           (pv_kwh battery_kwh grid_kwh grid_load_kwh backup_load_kwh soc : Q)
  : raw_row :=
  {| raw_Date := date; raw_Hour := hour;
     raw_Avg_PV_W := 0; raw_Avg_Battery_W := 0; raw_Avg_Grid_W := 0;
     raw_Avg_GridLoad_W := 0; raw_Avg_BackupLoad_W := 0;
     raw_Avg_SOC_Pct := soc; raw_Min_SOC_Pct := soc; raw_Max_SOC_Pct := soc;
     raw_PV_Energy_kWh := pv_kwh;
     raw_Battery_Energy_kWh := battery_kwh;
     raw_Grid_Energy_kWh := grid_kwh;
     raw_GridLoad_Energy_kWh := grid_load_kwh;
     raw_BackupLoad_Energy_kWh := backup_load_kwh |}.

(** An hour in which the grid meter and the battery are both idle. *)
Definition idle_row : raw_row :=
  sample_row "2026-01-01" "03:00" 0 0 0 (4 # 10) (1 # 10) 50.

(** An hour that imports from the grid and discharges the battery. *)
Definition importing_row : raw_row :=
  sample_row "2026-01-01" "19:00" 0 (- (3 # 10)) (- (5 # 10)) (8 # 10) (2 # 10) 60.

(** The battery summary of a 14.3 kWh battery with 13 kWh usable that
    discharges 7.5 kWh a day, and the same battery never discharged. *)
Definition sample_battery : battery_analysis :=
  {| estimated_usable_kwh := 13; usable_pct := 91; nominal_kwh := 143 # 10;
     avg_discharge := 75 # 10; monthly_efficiency := [] |}.

Definition unused_battery : battery_analysis :=
  {| estimated_usable_kwh := 13; usable_pct := 91; nominal_kwh := 143 # 10;
     avg_discharge := 0; monthly_efficiency := [] |}.

(** Degraded savings accumulated over the first [n] years (years [0] to
    [n - 1]) at 0.5% degradation a year. *)
Definition cum_savings (annual_savings : Q) (n : nat) : Q :=
  Py.sum (map (year_savings_of annual_savings) (seq 0 n)).

(** The ROI inputs of a system that cost 400000 and saves 90000 a year, of
    one that cost nothing, and of one too expensive to pay back. *)
Definition sample_bill : list (string * Q) := [("annual_savings"%string, 90000)].

Definition sample_roi_config : list (string * Q) :=
  [("total_cost"%string, 400000); ("system_age_years"%string, 1 # 4)].

Definition free_roi_config : list (string * Q) :=
  [("total_cost"%string, 0); ("system_age_years"%string, 1)].

Definition costly_roi_config : list (string * Q) :=
  [("total_cost"%string, 10000000); ("system_age_years"%string, 1)].

(** A midday hour with 2 kWh of PV, 2 kWh of load and 0.5 kWh imported. *)
Definition midday_row : raw_row :=
  sample_row "2026-01-01" "12:00" 2 (1 # 2) (- (1 # 2)) (16 # 10) (4 # 10) 70.

(** An hour in which the battery is charged from PV and from the grid
    while the house draws little: 1 kWh of PV and 1 kWh of import feed
    0.2 kWh of load and 1.8 kWh of charge. *)
Definition grid_charging_row : raw_row :=
  sample_row "2026-01-01" "12:00" 1 (18 # 10) (- 1) (2 # 10) 0 50.

(** The hour labels of the CSV, ["00:00"] to ["23:00"]. *)
Definition hour_labels : list string :=
  [ "00:00"; "01:00"; "02:00"; "03:00"; "04:00"; "05:00"; "06:00"; "07:00";
    "08:00"; "09:00"; "10:00"; "11:00"; "12:00"; "13:00"; "14:00"; "15:00";
    "16:00"; "17:00"; "18:00"; "19:00"; "20:00"; "21:00"; "22:00";
    "23:00" ]%string.

(** The first [n] hours of day [date], each with [pv_kwh] of PV energy and
    [load_kwh] of load, already enriched. *)
Definition sample_day (date : string) (n : nat) (pv_kwh load_kwh : Q)
  : list row :=
  map (fun hour => enrich (sample_row date hour pv_kwh 0 0 load_kwh 0 50))
      (firstn n hour_labels).

(** Ten hours of a single day: no full day at all. *)
Definition short_rows : list row := sample_day "2026-01-01" 10 0 (6 # 10).

(** Three full days of 21 hours with daily loads of 10.5, 10.5 and 42 kWh. *)
Definition three_days : list row :=
  sample_day "2026-01-01" 21 0 (1 # 2)
  ++ sample_day "2026-01-02" 21 0 (1 # 2)
  ++ sample_day "2026-01-03" 21 0 2.

(** Full days of 21 hours, one per entry: the date and the load of each of
    its hours. *)
Definition sample_days (days : list (string * Q)) : list row :=
  flat_map (fun d => sample_day (fst d) 21 0 (snd d)) days.

(** Two full days with the same load. *)
Definition identical_days : list row :=
  sample_days [ ("2026-01-01", 1 # 2); ("2026-01-02", 1 # 2) ]%string.

(** Eight full days of 21 kWh and a ninth of 48 kWh, twice the average of
    the nine (24 kWh). *)
Definition doubled_day_high : list row :=
  sample_days
    [ ("2026-01-01", 1); ("2026-01-02", 1); ("2026-01-03", 1);
      ("2026-01-04", 1); ("2026-01-05", 1); ("2026-01-06", 1);
      ("2026-01-07", 1); ("2026-01-08", 1); ("2026-01-09", 48 # 21) ]%string.

(** A full day of 21 hours: the first 20 with [load_kwh] of load each and
    the hour 20:00 with [last_kwh]. *)
Definition sample_day_uneven (date : string) (load_kwh last_kwh : Q)
  : list row :=
  sample_day date 20 0 load_kwh
  ++ [ enrich (sample_row date "20:00" 0 0 0 last_kwh 0 50) ].

(** Eight full days of 7 kWh (20 hours of 0.25 kWh and one of 2 kWh) and
    a ninth of 16 kWh (20 hours of 0.5 kWh and one of 6 kWh), twice the
    average of the nine (8 kWh).  Every hourly load is a binary fraction,
    so the floats of the script hold these values and their sums exactly. *)
Definition doubled_day_low : list row :=
  flat_map (fun date => sample_day_uneven date (1 # 4) 2)
           [ "2026-01-01"; "2026-01-02"; "2026-01-03"; "2026-01-04";
             "2026-01-05"; "2026-01-06"; "2026-01-07"; "2026-01-08" ]%string
  ++ sample_day_uneven "2026-01-09" (1 # 2) 6.

(** Eight full days of 5.25 kWh and a ninth of 10.5 kWh, twice the average
    of the other eight. *)
Definition doubled_day_others : list row :=
  sample_days
    [ ("2026-01-01", 1 # 4); ("2026-01-02", 1 # 4); ("2026-01-03", 1 # 4);
      ("2026-01-04", 1 # 4); ("2026-01-05", 1 # 4); ("2026-01-06", 1 # 4);
      ("2026-01-07", 1 # 4); ("2026-01-08", 1 # 4);
      ("2026-01-09", 1 # 2) ]%string.

(** The mean load of the full days other than [day]. *)
Definition avg_other_days_load (rows : list row) (day : string) : Q :=
  (Py.sum (map (day_load rows) (full_days rows)) - day_load rows day)
  / (Py.len (full_days rows) - 1).

(** Four full days and, second in the calendar, a day with a single
    record.  The full days have 21, 21, 21 and 12 kWh of PV, the partial
    day 1 kWh. *)
Definition days_with_partial : list row :=
  sample_day "2026-01-01" 21 1 (1 # 2)
  ++ sample_day "2026-01-02" 1 1 (1 # 2)
  ++ sample_day "2026-01-03" 21 1 (1 # 2)
  ++ sample_day "2026-01-04" 21 1 (1 # 2)
  ++ sample_day "2026-01-05" 21 (4 # 7) (1 # 2).

(** A flat tariff of the given rate. *)
Definition flat_tariff (rate : Q) : tariff :=
  {| tariff_type_key := Some "flat"%string; tariff_import_rate := Some rate;
     tariff_tiers := None; tariff_tou := None |}.

(** An evening hour that imports 1 kWh for 1 kWh of load. *)
Definition evening_row : raw_row :=
  sample_row "2026-01-01" "20:00" 0 0 (- 1) (8 # 10) (2 # 10) 40.

(** [soc_vals] does not rise anywhere between the indices [a] and [b]. *)
Definition nonincreasing_on (soc_vals : list Q) (a b : nat) : Prop :=
  forall k, (a <= k < b)%nat -> nth (k + 1) soc_vals 0 <= nth k soc_vals 0.

(** The scan found the deepest non-increasing run: no contiguous
    non-increasing stretch drops by more than [best_drop], and a positive
    [best_drop] is the drop of the stretch from [best_start] to
    [best_end]. *)
Definition is_deepest_run (soc_vals : list Q) (st : scan_state) : Prop :=
  0 <= best_drop st /\
  (forall a b,
      (a <= b < List.length soc_vals)%nat ->
      nonincreasing_on soc_vals a b ->
      nth a soc_vals 0 - nth b soc_vals 0 <= best_drop st) /\
  (0 < best_drop st ->
   (best_start st < best_end st < List.length soc_vals)%nat /\
   nonincreasing_on soc_vals (best_start st) (best_end st) /\
   best_drop st
   == nth (best_start st) soc_vals 0 - nth (best_end st) soc_vals 0).

(** The records of a day in hour order, and the two sequences the scan
    reads off them. *)
Definition hour_sorted (drows : list row) : list row :=
  sorted (fun a b => String.leb (Hour a) (Hour b)) drows.

Definition day_soc (drows : list row) : list Q :=
  map Avg_SOC_Pct (hour_sorted drows).

Definition day_discharge (drows : list row) : list Q :=
  map Battery_Discharge_kWh (hour_sorted drows).

(** The estimates a day contributes, [[]] if its scan failed. *)
Definition day_contribution (drows : list row) : list Q :=
  match day_estimates drows with
  | Some e => e
  | None => []
  end.

(** The first 21 hours of a day on which the battery drains steadily from
    100% to 40%, discharging [discharge_kwh] in each hour. *)
Definition draining_day (date : string) (discharge_kwh : Q) : list row :=
  map (fun h =>
         enrich (sample_row date (nth h hour_labels EmptyString) 0
                            (- discharge_kwh) 0 (1 # 2) 0
                            (100 - 3 * inject_Z (Z.of_nat h))))
      (seq 0 21).

(** Two evening hours of a day: the battery falls from 90% to 40% and
    discharges 2 and 3 kWh. *)
Definition two_hour_drain : list row :=
  [ enrich (sample_row "2026-01-01" "18:00" 0 (- 2) 0 (1 # 2) 0 90);
    enrich (sample_row "2026-01-01" "19:00" 0 (- 3) 0 (1 # 2) 0 40) ].

(** Eight full days of 21 kWh and a ninth of 42 kWh, twice the average of
    the other eight. *)
Definition doubled_day_others_high : list row :=
  sample_days
    [ ("2026-01-01", 1); ("2026-01-02", 1); ("2026-01-03", 1);
      ("2026-01-04", 1); ("2026-01-05", 1); ("2026-01-06", 1);
      ("2026-01-07", 1); ("2026-01-08", 1); ("2026-01-09", 2) ]%string.

(** A bill impact without savings. *)
Definition no_savings_bill : list (string * Q) := [("annual_savings"%string, 0)].

(** A noon hour with an average PV power of 5200 W. *)
Definition bright_row : raw_row :=
  {| raw_Date := "2026-01-01"; raw_Hour := "12:00";
     raw_Avg_PV_W := 5200; raw_Avg_Battery_W := 1000; raw_Avg_Grid_W := 3200;
     raw_Avg_GridLoad_W := 800; raw_Avg_BackupLoad_W := 200;
     raw_Avg_SOC_Pct := 80; raw_Min_SOC_Pct := 78; raw_Max_SOC_Pct := 82;
     raw_PV_Energy_kWh := 52 # 10;
     raw_Battery_Energy_kWh := 1;
     raw_Grid_Energy_kWh := 32 # 10;
     raw_GridLoad_Energy_kWh := 8 # 10;
     raw_BackupLoad_Energy_kWh := 2 # 10 |}.

(** A tiered tariff of three bands: 8 up to 200 kWh, 12 up to 400 kWh,
    16 up to 800 kWh and beyond. *)
Definition three_tiers : tariff :=
  {| tariff_type_key := Some "tiered"%string; tariff_import_rate := Some 10;
     tariff_tiers :=
       Some [ mk_tier (Some 200) (Some 8); mk_tier (Some 400) (Some 12);
              mk_tier (Some 800) (Some 16) ];
     tariff_tou := None |}.

(** A tiered tariff whose bands all carry the rate 9. *)
Definition level_tiers : tariff :=
  {| tariff_type_key := Some "tiered"%string; tariff_import_rate := Some 9;
     tariff_tiers := Some [ mk_tier (Some 200) (Some 9); mk_tier (Some 100) None ];
     tariff_tou := None |}.

(** The peak hours and the two rates [calc_tou_monthly] reads off the
    tariff. *)
Definition tou_peak_hours_of (t : tariff) : list string :=
  opt_default (tou_peak_hours (opt_default (tariff_tou t) (mk_tou None None None)))
              [].

Definition tou_peak_rate_of (t : tariff) : Q :=
  opt_default (tou_peak_rate (opt_default (tariff_tou t) (mk_tou None None None)))
              (import_rate t).

Definition tou_offpeak_rate_of (t : tariff) : Q :=
  opt_default
    (tou_offpeak_rate (opt_default (tariff_tou t) (mk_tou None None None)))
    (import_rate t).

(** The part of [kwh] that falls between the thresholds [lo] and [hi]. *)
Definition band_energy (lo hi kwh : Q) : Q := Py.max 0 (Py.min kwh hi - lo).

(** The bill of the bands of [tiers], the first one starting at [lo]:
    each band's energy at the band's rate. *)
Fixpoint bands_cost (rate0 lo : Q) (tiers : list tier) (kwh : Q) : Q :=
  match tiers with
  | [] => 0
  | tr :: rest =>
    let hi := opt_default (tier_threshold tr) 0 in
    band_energy lo hi kwh * opt_default (tier_rate tr) rate0
    + bands_cost rate0 hi rest kwh
  end.

(** Every tier has a threshold, and the thresholds do not decrease from
    [lo] on. *)
Fixpoint thresholds_from (lo : Q) (tiers : list tier) : Prop :=
  match tiers with
  | [] => True
  | tr :: rest =>
    match tier_threshold tr with
    | Some hi => lo <= hi /\ thresholds_from hi rest
    | None => False
    end
  end.

(** The last threshold of [tiers], [lo] when there is no tier. *)
Fixpoint last_threshold (lo : Q) (tiers : list tier) : Q :=
  match tiers with
  | [] => lo
  | tr :: rest => last_threshold (opt_default (tier_threshold tr) 0) rest
  end.

(** Twenty hours of a day at a constant 50% SOC: ten hours charging
    0.2 kWh each, then ten hours discharging 0.1 kWh each. *)
Definition cycling_day : list row :=
  map (fun h =>
         enrich (sample_row "2026-01-01" (nth h hour_labels EmptyString) 0
                            (if h <? 10 then 2 # 10 else - (1 # 10)) 0
                            (1 # 2) 0 50))
      (seq 0 20).

(** ** 3f. Additional panels *)

Record panels_report := mk_panels_report {
  pr_additional_kwp : Q;
  pr_total_kwp : Q;
  extra_self_consumed_total : Q;
  extra_exported_total : Q;
  extra_self_consumed_daily : Q;
  extra_exported_daily : Q;
  extra_daily_savings : Q
}.

(** The body of the loop over the rows: the pair is
    [(extra_self_consumed, extra_exported)]. *)
Definition panels_step (scale : Q) (acc : Q * Q) (r : row) : Q * Q :=
  let extra_pv := PV_Energy_kWh r * (scale - 1) in
  if Py.ltb 0 (Grid_Import_kWh r) then
    let offset := Py.min extra_pv (Grid_Import_kWh r) in
    (fst acc + offset, snd acc + (extra_pv - offset))
  else (fst acc, snd acc + extra_pv).

Definition panels_extra (rows : list row) (scale : Q) : Q * Q :=
  fold_left (panels_step scale) rows (0, 0).

(** [len([d for d, drows in by_day.items() if len(drows) > 20])]. *)
Definition count_full_days (rows : list row) : nat :=
  List.length (filter (fun dr : string * list row => 20 <? List.length (snd dr))
                      (group_by rows row_day)).

(** [compute_additional_panels].  The outer [None] is the division by a
    zero [current_kwp]; [Some None] is the [None] the function returns
    when no capacity is added. *)
Definition compute_additional_panels (rows : list row)
           (current_kwp additional_kwp feedin_ratio import_rate : Q)
  : option (option panels_report) :=
  if Py.leb additional_kwp 0 then Some None
  else
    let total_kwp := current_kwp + additional_kwp in
    if Qeq_bool current_kwp 0 then None
    else
      let scale := total_kwp / current_kwp in
      let extra := panels_extra rows scale in
      let extra_self_consumed := fst extra in
      let extra_exported := snd extra in
      let num_days := count_full_days rows in
      let nd := inject_Z (Z.of_nat num_days) in
      Some (Some
        {| pr_additional_kwp := additional_kwp;
           pr_total_kwp := total_kwp;
           extra_self_consumed_total := Py.round extra_self_consumed 1;
           extra_exported_total := Py.round extra_exported 1;
           extra_self_consumed_daily :=
             if (0 <? num_days)%nat then Py.round (extra_self_consumed / nd) 1
             else 0;
           extra_exported_daily :=
             if (0 <? num_days)%nat then Py.round (extra_exported / nd) 1
             else 0;
           extra_daily_savings :=
             Py.round (if (0 <? num_days)%nat
                       then extra_self_consumed / nd * import_rate
                            + extra_exported / nd * import_rate * feedin_ratio
                       else 0) 1 |}).

(** ** 3n. Best and worst days *)

Record day_stats := mk_day_stats {
  ds_pv : Q;
  ds_load : Q;
  ds_grid_import : Q;
  ds_grid_export : Q;
  ds_peak_soc : Q;
  ds_self_sufficiency : Q;
  ds_is_ev : bool
}.

(** [stats]: one entry per day with more than 20 rows.  A day without
    rows has no [max] of SOC, and has no entry either way. *)
Definition best_worst_stats (rows : list row) (ev_days : list string)
  : list (string * day_stats) :=
  flat_map
    (fun '(day, drows) =>
       if List.length drows <=? 20 then []
       else
         match max_of (map Max_SOC_Pct drows) with
         | None => []
         | Some peak_soc =>
           let pv := Py.sum (map PV_Energy_kWh drows) in
           let load := Py.sum (map Load_kWh drows) in
           let imp := Py.sum (map Grid_Import_kWh drows) in
           let exp := Py.sum (map Grid_Export_kWh drows) in
           let ss := if Py.ltb 0 load then (1 - imp / load) * 100 else 0 in
           [ (day,
              {| ds_pv := Py.round pv 1;
                 ds_load := Py.round load 1;
                 ds_grid_import := Py.round imp 1;
                 ds_grid_export := Py.round exp 1;
                 ds_peak_soc := Py.round peak_soc 0;
                 ds_self_sufficiency := Py.round ss 0;
                 ds_is_ev := mem day ev_days |}) ]
         end)
    (group_by rows row_day).

(** [max(items, key=key)] and [min(items, key=key)] from a first item on:
    the first of the largest and the first of the smallest. *)
Definition max_by {A} (key : A -> Q) (first : A) (items : list A) : A :=
  fold_left (fun best x => if Py.ltb (key best) (key x) then x else best)
            items first.

Definition min_by {A} (key : A -> Q) (first : A) (items : list A) : A :=
  fold_left (fun best x => if Py.ltb (key x) (key best) then x else best)
            items first.

(** [compute_best_worst_days]: [None], or the pair of the best and the
    worst day, each with its date. *)
Definition compute_best_worst_days (rows : list row) (ev_days : list string)
  : option ((string * day_stats) * (string * day_stats)) :=
  match best_worst_stats rows ev_days with
  | [] => None
  | first :: others =>
    let key := fun ds : string * day_stats => ds_self_sufficiency (snd ds) in
    Some (max_by key first others, min_by key first others)
  end.

(** ** 3e. Battery analysis: the report *)

(** [min(values)] of a non-empty sequence; [None] is the [ValueError] on an
    empty one. *)
Definition min_of (values : list Q) : option Q :=
  match values with
  | [] => None
  | v :: vs => Some (fold_left Py.min vs v)
  end.

Record day_battery := mk_day_battery {
  db_charge : Q;
  db_discharge : Q;
  db_max_soc : Q;
  db_min_soc : Q;
  db_cycle_depth : Q
}.

(** [daily_batt]: the loop over [by_day.items()]. *)
Fixpoint daily_batt_of (estimated_usable : Q) (by_day : list (string * list row))
  : option (list (string * day_battery)) :=
  match by_day with
  | [] => Some []
  | (day, drows) :: by_day' =>
    let ch := Py.sum (map Battery_Charge_kWh drows) in
    let dis := Py.sum (map Battery_Discharge_kWh drows) in
    match max_of (map Max_SOC_Pct drows), min_of (map Min_SOC_Pct drows),
          daily_batt_of estimated_usable by_day' with
    | Some mx_soc, Some mn_soc, Some rest =>
      Some ((day,
             {| db_charge := ch;
                db_discharge := dis;
                db_max_soc := mx_soc;
                db_min_soc := mn_soc;
                db_cycle_depth :=
                  if Py.ltb 0 estimated_usable
                  then dis / estimated_usable * 100 else 0 |}) :: rest)
    | _, _, _ => None
    end
  end.

Record type_stat := mk_type_stat {
  ts_avg_charge : Q;
  ts_avg_discharge : Q;
  ts_avg_cycle_depth : Q
}.

(** The per-type statistics: the loop over [("non_ev", non_ev_days)] and
    [("ev", ev_days)]. *)
Definition type_stats_of (daily_batt : list (string * day_battery))
           (ev_days non_ev_days : list string) : list (string * type_stat) :=
  flat_map
    (fun '(label, day_set) =>
       let subset := filter (fun dv : string * day_battery => mem (fst dv) day_set)
                            daily_batt in
       match subset with
       | [] => []
       | _ =>
         [ (label,
            {| ts_avg_charge :=
                 Py.round (mean (map (fun v => db_charge (snd v)) subset)) 1;
               ts_avg_discharge :=
                 Py.round (mean (map (fun v => db_discharge (snd v)) subset)) 1;
               ts_avg_cycle_depth :=
                 Py.round (mean (map (fun v => db_cycle_depth (snd v)) subset))
                          0 |}) ]
       end)
    [ ("non_ev"%string, non_ev_days); ("ev"%string, ev_days) ].

(** Monthly round-trip efficiency. *)
Definition month_efficiency_of (mrows : list row) : month_efficiency :=
  let ch := Py.sum (map Battery_Charge_kWh mrows) in
  let dis := Py.sum (map Battery_Discharge_kWh mrows) in
  let eff := if Py.ltb 0 ch then dis / ch * 100 else 0 in
  {| me_efficiency := Py.round eff 1;
     me_charge := Py.round ch 1;
     me_discharge := Py.round dis 1 |}.

Definition monthly_efficiency_of (rows : list row)
  : list (string * month_efficiency) :=
  map (fun '(m, mrows) => (m, month_efficiency_of mrows))
      (sorted_items (group_by rows row_month)).

(** What one day adds to [avoidable_total]. *)
Definition day_avoidable (drows : list row) : Q :=
  let day_import := Py.sum (map Grid_Import_kWh drows) in
  let day_load := Py.sum (map Load_kWh drows) in
  let day_pv := Py.sum (map PV_Energy_kWh drows) in
  let theoretical_min := Py.max 0 (day_load - day_pv) in
  Py.max 0 (day_import - theoretical_min).

(** [avoidable_total] after the loop over [by_day.items()]. *)
Definition avoidable_total_of (by_day : list (string * list row)) : Q :=
  fold_left (fun total dr => total + day_avoidable (snd dr)) by_day 0.

Record battery_report := mk_battery_report {
  br_nominal_kwh : Q;
  br_estimated_usable_kwh : Q;
  br_usable_pct : Q;
  br_usable_estimate_days : nat;
  br_avg_charge : Q;
  br_avg_discharge : Q;
  br_avg_cycle_depth : Q;
  br_avg_min_soc : Q;
  br_avg_max_soc : Q;
  br_type_stats : list (string * type_stat);
  br_monthly_efficiency : list (string * month_efficiency);
  br_avoidable_import_total : Q;
  br_avg_avoidable_per_day : Q
}.

(** [compute_battery_analysis]; [None] stands for the exception the script
    raises on a zero [nominal_kwh]. *)
Definition compute_battery_analysis (rows : list row) (nominal_kwh : Q)
           (ev_days non_ev_days : list string) : option battery_report :=
  let by_day := group_by rows row_day in
  match usable_estimates rows with
  | None => None
  | Some usable_estimates =>
    let estimated_usable :=
      match usable_estimates with
      | [] => nominal_kwh * (9 # 10)
      | _ => median usable_estimates
      end in
    if Qeq_bool nominal_kwh 0 then None
    else
      let usable_pct := estimated_usable / nominal_kwh * 100 in
      match daily_batt_of estimated_usable by_day with
      | None => None
      | Some daily_batt =>
        let all_charges := map (fun d => db_charge (snd d)) daily_batt in
        let all_discharges := map (fun d => db_discharge (snd d)) daily_batt in
        let all_depths := map (fun d => db_cycle_depth (snd d)) daily_batt in
        let all_min_soc := map (fun d => db_min_soc (snd d)) daily_batt in
        let all_max_soc := map (fun d => db_max_soc (snd d)) daily_batt in
        let avoidable_total := avoidable_total_of by_day in
        let num_days := count_full_days rows in
        let avg_avoidable :=
          if (0 <? num_days)%nat
          then avoidable_total / inject_Z (Z.of_nat num_days) else 0 in
        Some
          {| br_nominal_kwh := Py.round nominal_kwh 1;
             br_estimated_usable_kwh := Py.round estimated_usable 1;
             br_usable_pct := Py.round usable_pct 0;
             br_usable_estimate_days := List.length usable_estimates;
             br_avg_charge := Py.round (mean all_charges) 1;
             br_avg_discharge := Py.round (mean all_discharges) 1;
             br_avg_cycle_depth := Py.round (mean all_depths) 0;
             br_avg_min_soc := Py.round (mean all_min_soc) 0;
             br_avg_max_soc := Py.round (mean all_max_soc) 0;
             br_type_stats := type_stats_of daily_batt ev_days non_ev_days;
             br_monthly_efficiency := monthly_efficiency_of rows;
             br_avoidable_import_total := Py.round avoidable_total 1;
             br_avg_avoidable_per_day := Py.round avg_avoidable 1 |}
      end
  end.

(** The keys of the report that [compute_battery_health] reads. *)
Definition battery_analysis_of (r : battery_report) : battery_analysis :=
  {| estimated_usable_kwh := br_estimated_usable_kwh r;
     usable_pct := br_usable_pct r;
     nominal_kwh := br_nominal_kwh r;
     avg_discharge := br_avg_discharge r;
     monthly_efficiency := br_monthly_efficiency r |}.

(** ** 3k. Month-over-month trends *)

Record trend := mk_trend {
  trend_from : string;
  trend_to : string;
  t_avg_daily_pv : Q * Q;
  t_avg_daily_pv_change_pct : Q;
  t_avg_daily_load : Q * Q;
  t_avg_daily_load_change_pct : Q;
  t_self_sufficiency : option Q * option Q;
  t_self_sufficiency_change_pp : Q;
  t_grid_dependence : Q * Q;
  t_grid_dependence_change_pp : Q;
  t_battery_efficiency : Q * Q;
  t_battery_efficiency_change_pp : Q
}.

(** The body of the loop of [compute_trends] for the months [m1] and
    [m2]; [None] is the division by a day count of zero. *)
Definition trend_of (m1 m2 : string) (d1 d2 : month_totals) (eff1 eff2 : Q)
  : option trend :=
  if Nat.eqb (days d1) 0 || Nat.eqb (days d2) 0 then None
  else
    let n1 := inject_Z (Z.of_nat (days d1)) in
    let n2 := inject_Z (Z.of_nat (days d2)) in
    let avg_pv1 := total_pv d1 / n1 in
    let avg_pv2 := total_pv d2 / n2 in
    let avg_load1 := total_load d1 / n1 in
    let avg_load2 := total_load d2 / n2 in
    let gd1 := if Py.ltb 0 (total_load d1)
               then grid_import d1 / total_load d1 * 100 else 0 in
    let gd2 := if Py.ltb 0 (total_load d2)
               then grid_import d2 / total_load d2 * 100 else 0 in
    Some
      {| trend_from := m1;
         trend_to := m2;
         t_avg_daily_pv := (Py.round avg_pv1 1, Py.round avg_pv2 1);
         t_avg_daily_pv_change_pct :=
           if Py.ltb 0 avg_pv1
           then Py.round ((avg_pv2 - avg_pv1) / avg_pv1 * 100) 0 else 0;
         t_avg_daily_load := (Py.round avg_load1 1, Py.round avg_load2 1);
         t_avg_daily_load_change_pct :=
           if Py.ltb 0 avg_load1
           then Py.round ((avg_load2 - avg_load1) / avg_load1 * 100) 0 else 0;
         t_self_sufficiency := (self_sufficiency d1, self_sufficiency d2);
         t_self_sufficiency_change_pp :=
           Py.round (opt_default (self_sufficiency d2) 0
                     - opt_default (self_sufficiency d1) 0) 0;
         t_grid_dependence := (Py.round gd1 0, Py.round gd2 0);
         t_grid_dependence_change_pp := Py.round (gd2 - gd1) 0;
         t_battery_efficiency := (eff1, eff2);
         t_battery_efficiency_change_pp := Py.round (eff2 - eff1) 1 |}.

(** [monthly_efficiency.get(m, {}).get("efficiency", 0)]. *)
Definition efficiency_of (monthly_efficiency : list (string * month_efficiency))
           (m : string) : Q :=
  match lookup m monthly_efficiency with
  | Some e => me_efficiency e
  | None => 0
  end.

(** The loop [for i in range(1, len(months))] from the pair that starts
    with [m1]; a [None] is an exception. *)
Fixpoint trends_from (monthly_totals : list (string * month_totals))
         (monthly_efficiency : list (string * month_efficiency))
         (m1 : string) (rest : list string) : option (list trend) :=
  match rest with
  | [] => Some []
  | m2 :: rest' =>
    match lookup m1 monthly_totals, lookup m2 monthly_totals with
    | Some d1, Some d2 =>
      match trend_of m1 m2 d1 d2 (efficiency_of monthly_efficiency m1)
                     (efficiency_of monthly_efficiency m2),
            trends_from monthly_totals monthly_efficiency m2 rest' with
      | Some t, Some ts => Some (t :: ts)
      | _, _ => None
      end
    | _, _ => None
    end
  end.

(** [compute_trends]; the outer [None] is an exception, [Some None] the
    [None] returned for fewer than two months. *)
Definition compute_trends (monthly_totals : list (string * month_totals))
           (monthly_efficiency : list (string * month_efficiency))
  : option (option (list trend)) :=
  match sorted_keys (map fst monthly_totals) with
  | m1 :: ((_ :: _) as rest) =>
    option_map Some (trends_from monthly_totals monthly_efficiency m1 rest)
  | _ => Some None
  end.

(** Records of January and of February 2026. *)
Definition two_months : list row :=
  sample_day "2026-01-30" 21 1 (1 # 2)
  ++ sample_day "2026-01-31" 21 1 (1 # 2)
  ++ sample_day "2026-02-01" 21 (4 # 7) (1 # 2).

(** ** 3g. Peak demand *)

Definition Avg_Grid_W (r : row) := raw_Avg_Grid_W (raw r).

Record peak_demand := mk_peak_demand {
  peak_grid_draw_w : Q;
  peak_grid_draw_kw : Q;
  peak_grid_date : string;
  peak_grid_hour : string;
  peak_grid_is_ev : bool;
  avg_daily_peak_grid : list (string * Q);
  peak_pv_w : Q;
  peak_pv_kw : Q;
  peak_pv_date : string;
  peak_pv_hour : string;
  peak_pv_pct_inverter : Q
}.

(** [[r for r in rows if r["Grid_Energy_kWh"] < 0]]. *)
Definition importing (rows : list row) : list row :=
  filter (fun r => Py.ltb (Grid_Energy_kWh r) 0) rows.

(** [day_peaks] of one day set: for each of its days present in [by_day]
    with an importing record, the largest grid draw of the day. *)
Definition day_peaks_of (by_day : list (string * list row))
           (day_set : list string) : list Q :=
  flat_map
    (fun day =>
       match lookup day by_day with
       | Some drows =>
         match max_of (map (fun r => Py.abs (Avg_Grid_W r)) (importing drows)) with
         | Some peak => [peak]
         | None => []
         end
       | None => []
       end)
    day_set.

(** [compute_peak_demand]; [None] stands for the [ValueError] of [max] on
    an input without records. *)
Definition compute_peak_demand (rows : list row) (ev_days non_ev_days : list string)
           (inverter_ac_w : Q) : option peak_demand :=
  let grid :=
    match importing rows with
    | first :: others =>
      let peak_import_row :=
        max_by (fun r => Py.abs (Avg_Grid_W r)) first others in
      (Py.abs (Avg_Grid_W peak_import_row), Date peak_import_row,
       Hour peak_import_row, mem (row_day peak_import_row) ev_days)
    | [] => (0, EmptyString, EmptyString, false)
    end in
  let peak_grid_draw_w := fst (fst (fst grid)) in
  let by_day := group_by rows row_day in
  let avg_peaks :=
    flat_map
      (fun '(label, day_set) =>
         match day_peaks_of by_day day_set with
         | [] => []
         | day_peaks => [(label, Py.round (mean day_peaks) 0)]
         end)
      [ ("non_ev"%string, non_ev_days); ("ev"%string, ev_days) ] in
  match rows with
  | [] => None
  | first :: others =>
    let peak_pv_row := max_by Avg_PV_W first others in
    let peak_pv_w := Avg_PV_W peak_pv_row in
    Some
      {| peak_grid_draw_w := Py.round peak_grid_draw_w 0;
         peak_grid_draw_kw := Py.round (peak_grid_draw_w / 1000) 1;
         peak_grid_date := snd (fst (fst grid));
         peak_grid_hour := snd (fst grid);
         peak_grid_is_ev := snd grid;
         avg_daily_peak_grid := avg_peaks;
         peak_pv_w := Py.round peak_pv_w 0;
         peak_pv_kw := Py.round (peak_pv_w / 1000) 1;
         peak_pv_date := Date peak_pv_row;
         peak_pv_hour := Hour peak_pv_row;
         peak_pv_pct_inverter :=
           if Py.ltb 0 inverter_ac_w
           then Py.round (peak_pv_w / inverter_ac_w * 100) 0 else 0 |}
  end.

(** ** 3m. Annual generation projection *)

Record month_deseason := mk_month_deseason {
  dm_avg_daily : Q;
  dm_factor : Q;
  dm_deseasonalized : Q
}.

Record projection := mk_projection {
  months_count : nat;
  confidence : string;
  baseline_daily_pv : Q;
  projected_annual_pv : Q;
  projected_annual_self_consumed : Q;
  projected_annual_export : Q;
  projected_annual_pv_year10 : Q;
  projected_annual_pv_year25 : Q;
  deseasonalized_months : list (string * month_deseason)
}.

(** [str(m) for m in range(1, 13)]. *)
Definition calendar_months : list string :=
  [ "1"; "2"; "3"; "4"; "5"; "6"; "7"; "8"; "9"; "10"; "11"; "12" ]%string.

Section Projection.

(** [month_num m] stands for [str(int(m.split("-")[1]))], the month number
    read off a month key; [None] is the [IndexError] or [ValueError] it
    raises. *)
Variable month_num : string -> option string.

(** [seasonal_factors.get(str(int(m.split("-")[1])), 1.0)]. *)
Definition factor_of (seasonal_factors : list (string * Q)) (m : string)
  : option Q :=
  option_map (fun k => get k 1 seasonal_factors) (month_num m).

(** [monthly_totals[m]["total_pv"] / monthly_totals[m]["days"]]; [None] is
    the [ZeroDivisionError] (or the [KeyError] of a month that is no key). *)
Definition avg_daily_of (monthly_totals : list (string * month_totals))
           (m : string) : option Q :=
  match lookup m monthly_totals with
  | Some t =>
    if (days t =? 0)%nat then None
    else Some (total_pv t / inject_Z (Z.of_nat (days t)))
  | None => None
  end.

(** One pass of the loop over the months. *)
Definition deseasonalized_of (monthly_totals : list (string * month_totals))
           (seasonal_factors : list (string * Q)) (m : string) : option Q :=
  match factor_of seasonal_factors m with
  | Some factor =>
    match avg_daily_of monthly_totals m with
    | Some avg_daily =>
      if Qeq_bool factor 0 then None else Some (avg_daily / factor)
    | None => None
    end
  | None => None
  end.

(** The loop over the months: [None] as soon as one pass raises. *)
Fixpoint deseasonalize (monthly_totals : list (string * month_totals))
         (seasonal_factors : list (string * Q)) (months : list string)
  : option (list Q) :=
  match months with
  | [] => Some []
  | m :: rest =>
    match deseasonalized_of monthly_totals seasonal_factors m with
    | Some d =>
      match deseasonalize monthly_totals seasonal_factors rest with
      | Some ds => Some (d :: ds)
      | None => None
      end
    | None => None
    end
  end.

(** The sum over the twelve calendar months. *)
Definition projected_pv_of (seasonal_factors : list (string * Q))
           (baseline_daily : Q) : Q :=
  Py.sum (map (fun k => baseline_daily * get k 1 seasonal_factors * (3044 # 100))
              calendar_months).

(** [compute_annual_projection]; [monthly_efficiency] is not read.  The
    entries of [deseasonalized_months] recompute what the loop has already
    computed without raising, so the defaults [0] and [1] are never used. *)
Definition compute_annual_projection
           (monthly_totals : list (string * month_totals))
           (seasonal_factors : list (string * Q))
           (monthly_efficiency : list (string * Q)) (sc_rate : Q)
  : option projection :=
  let months := sorted_keys (map fst monthly_totals) in
  match deseasonalize monthly_totals seasonal_factors months with
  | None => None
  | Some deseasonalized =>
    let baseline_daily := mean deseasonalized in
    let projected_annual_pv := projected_pv_of seasonal_factors baseline_daily in
    let projected_self_consumed :=
      if Py.ltb 0 sc_rate then projected_annual_pv * (sc_rate / 100) else 0 in
    let projected_export := projected_annual_pv - projected_self_consumed in
    let confidence :=
      if (List.length months <? 3)%nat then "low"%string
      else if (List.length months <? 6)%nat then "moderate"%string
           else "high"%string in
    let year10 := projected_annual_pv * Py.pow (1 - (5 # 1000)) 10 in
    let year25 := projected_annual_pv * Py.pow (1 - (5 # 1000)) 25 in
    Some
      {| months_count := List.length months;
         confidence := confidence;
         baseline_daily_pv := Py.round baseline_daily 1;
         projected_annual_pv := Py.round projected_annual_pv 0;
         projected_annual_self_consumed := Py.round projected_self_consumed 0;
         projected_annual_export := Py.round projected_export 0;
         projected_annual_pv_year10 := Py.round year10 0;
         projected_annual_pv_year25 := Py.round year25 0;
         deseasonalized_months :=
           map (fun '(m, d) =>
                  (m, {| dm_avg_daily :=
                           Py.round (opt_default (avg_daily_of monthly_totals m) 0) 1;
                         dm_factor :=
                           opt_default (factor_of seasonal_factors m) 1;
                         dm_deseasonalized := Py.round d 1 |}))
               (combine months deseasonalized) |}
  end.

End Projection.

(** The month number of the month keys of January to March 2026, for the
    sample inputs. *)
Definition sample_month_num (m : string) : option string :=
  lookup m [ ("2026-01", "1"); ("2026-02", "2"); ("2026-03", "3") ]%string.

(** ** 3o. Carbon offset *)

Record carbon_offset := mk_carbon_offset {
  co_grid_emission_factor : Q;
  annual_co2_avoided_kg : Q;
  annual_co2_avoided_tonnes : Q;
  equiv_trees : Q;
  equiv_km_driving : Q
}.

Definition compute_carbon_offset (projected_self_consumed grid_emission_factor : Q)
  : carbon_offset :=
  let co2_kg := projected_self_consumed * grid_emission_factor in
  {| co_grid_emission_factor := grid_emission_factor;
     annual_co2_avoided_kg := Py.round co2_kg 0;
     annual_co2_avoided_tonnes := Py.round (co2_kg / 1000) 1;
     equiv_trees := Py.round (co2_kg / 22) 0;
     equiv_km_driving := Py.round (co2_kg / (21 # 100)) 0 |}.

(** The totals of a January of 31 days with 155 kWh of PV energy, and
    seasonal factors that halve January. *)
Definition january_totals : list (string * month_totals) :=
  [ ("2026-01"%string,
     {| total_pv := 155; total_load := 400; grid_export := 10;
        grid_import := 255; battery_charge := 60; battery_discharge := 50;
        self_consumed := 145; self_consumption_rate := 93 + (5 # 10);
        self_sufficiency := Some (36 + (3 # 10)); days := 31 |}) ].

Definition half_january : list (string * Q) := [ ("1"%string, 1 # 2) ].

(** ** 3c. Hourly patterns *)

Definition Avg_Battery_W (r : row) := raw_Avg_Battery_W (raw r).

Record hour_profile := mk_hour_profile {
  avg_pv_w : Q;
  avg_load_w : Q;
  avg_battery_w : Q;
  avg_grid_w : Q;
  avg_soc : Q;
  avg_grid_import : Q;
  avg_grid_export : Q
}.

Record soc_drain_entry := mk_soc_drain_entry {
  evening_soc : Q;
  morning_soc : Q;
  drain : Q
}.

Record hourly_patterns := mk_hourly_patterns {
  hourly : list (string * list (string * hour_profile));
  peak_pv_hours : list string;
  export_hours : list string;
  ev_charging_hours : list string;
  soc_drain : list (string * soc_drain_entry)
}.

(** The two labelled day sets, in the order of the loops. *)
Definition day_sets (ev_days non_ev_days : list string)
  : list (string * list string) :=
  [ ("non_ev"%string, non_ev_days); ("ev"%string, ev_days) ].

(** [[r for r in rows if row_day(r) in day_set]]. *)
Definition subset_of (rows : list row) (day_set : list string) : list row :=
  filter (fun r => mem (row_day r) day_set) rows.

(** The hourly profile of one subset. *)
Definition hourly_of (subset : list row) : list (string * hour_profile) :=
  map (fun '(h, hrows) =>
         (h, {| avg_pv_w := Py.round (mean (map Avg_PV_W hrows)) 0;
                avg_load_w := Py.round (mean (map Load_W hrows)) 0;
                avg_battery_w := Py.round (mean (map Avg_Battery_W hrows)) 0;
                avg_grid_w := Py.round (mean (map Avg_Grid_W hrows)) 0;
                avg_soc := Py.round (mean (map Avg_SOC_Pct hrows)) 1;
                avg_grid_import := Py.round (mean (map Grid_Import_kWh hrows)) 3;
                avg_grid_export := Py.round (mean (map Grid_Export_kWh hrows)) 3 |}))
      (sorted_items (group_by subset row_hour)).

(** [result]: a profile for each label whose subset is not empty. *)
Definition hourly_result (rows : list row) (ev_days non_ev_days : list string)
  : list (string * list (string * hour_profile)) :=
  flat_map (fun '(label, day_set) =>
              match subset_of rows day_set with
              | [] => []
              | subset => [(label, hourly_of subset)]
              end)
           (day_sets ev_days non_ev_days).

(** [{h: mean([r[column] for r in hrs]) for h, hrs in all_by_hour.items()}]. *)
Definition hourly_mean (column : row -> Q) (rows : list row)
  : list (string * Q) :=
  map (fun '(h, hrs) => (h, mean (map column hrs))) (group_by rows row_hour).

(** [sorted([h for h, v in d.items() if v > bound])]. *)
Definition hours_above (d : list (string * Q)) (bound : Q) : list string :=
  sorted_keys (map fst (filter (fun '(h, v) => Py.ltb bound v) d)).

Definition peak_pv_hours_of (rows : list row) : list string :=
  let pv_hourly := hourly_mean Avg_PV_W rows in
  let max_pv :=
    match max_of (map snd pv_hourly) with
    | Some v => v
    | None => 0
    end in
  hours_above pv_hourly (max_pv * (5 # 10)).

Definition export_hours_of (rows : list row) : list string :=
  hours_above (hourly_mean Grid_Export_kWh rows) (5 # 100).

(** The hours whose rounded mean load on EV days exceeds that of the other
    days by more than 500 W. *)
Definition ev_charging_hours_of
           (result : list (string * list (string * hour_profile)))
  : list string :=
  match lookup "ev"%string result, lookup "non_ev"%string result with
  | Some ev, Some non_ev =>
    flat_map (fun h =>
                match lookup h ev, lookup h non_ev with
                | Some e, Some n =>
                  if Py.ltb 500 (avg_load_w e - avg_load_w n) then [h] else []
                | _, _ => []
                end)
             (sorted_keys (map fst ev))
  | _, _ => []
  end.

Definition soc_drain_of (rows : list row) (ev_days non_ev_days : list string)
  : list (string * soc_drain_entry) :=
  flat_map (fun '(label, day_set) =>
              let subset := subset_of rows day_set in
              let evening :=
                filter (fun r => mem (Hour r) [ "18:00"; "19:00"; "20:00" ]%string)
                       subset in
              let morning :=
                filter (fun r => mem (Hour r) [ "05:00"; "06:00" ]%string)
                       subset in
              match evening, morning with
              | _ :: _, _ :: _ =>
                let eve_soc := mean (map Max_SOC_Pct evening) in
                let morn_soc := mean (map Min_SOC_Pct morning) in
                [(label, {| evening_soc := Py.round eve_soc 0;
                            morning_soc := Py.round morn_soc 0;
                            drain := Py.round (eve_soc - morn_soc) 0 |})]
              | _, _ => []
              end)
           (day_sets ev_days non_ev_days).

Definition compute_hourly_patterns (rows : list row)
           (ev_days non_ev_days : list string) : hourly_patterns :=
  let result := hourly_result rows ev_days non_ev_days in
  {| hourly := result;
     peak_pv_hours := peak_pv_hours_of rows;
     export_hours := export_hours_of rows;
     ev_charging_hours := ev_charging_hours_of result;
     soc_drain := soc_drain_of rows ev_days non_ev_days |}.

(** The records of hour [h], and the mean of a column over them. *)
Definition rows_of_hour (rows : list row) (h : string) : list row :=
  filter (fun r => String.eqb (row_hour r) h) rows.

Definition hour_mean (column : row -> Q) (rows : list row) (h : string) : Q :=
  mean (map column (rows_of_hour rows h)).

(** * The monthly export: [process_month.py] *)

Module ProcessMonth.

(** A 5-minute reading of the sheet: its [Time] text as
    [str(row.get("Time", "")).strip()] gives it, and its cells by column
    header, each already converted by [to_float]. *)
Record reading := mk_reading {
  Time : string;
  cells : list (string * Q)
}.

(** [to_float(r.get(col, 0))]. *)
Definition cell (col : string) (r : reading) : Q := get col 0 (cells r).

(** The columns of [power_cols], each with its [col_key], the header
    without ["(W)"] and without blanks. *)
Definition power_cols : list (string * string) :=
  [ ("PV(W)", "PV"); ("Battery(W)", "Battery"); ("Grid(W)", "Grid");
    ("Grid Load(W)", "GridLoad"); ("Backup Load(W)", "BackupLoad") ]%string.

(** The two figures of a power column: [Avg_<col_key>_W] and
    [<col_key>_Energy_kWh]. *)
Record column := mk_column {
  Avg_W : Q;
  Energy_kWh : Q
}.

Record entry := mk_entry {
  Hour : string;
  Readings : nat;
  powers : list (string * column);
  Avg_SOC_Pct : Q;
  Min_SOC_Pct : Z;
  Max_SOC_Pct : Z
}.

(** [int(x)] of a float: truncation towards zero. *)
Definition int (x : Q) : Z := Z.quot (Qnum x) (Zpos (Qden x)).

(** The two figures from the values of a column over the [n] readings of
    an hour. *)
Definition column_of (values : list Q) (n : nat) : column :=
  let avg := if (n =? 0)%nat then 0 else Py.sum values / inject_Z (Z.of_nat n) in
  {| Avg_W := Py.round avg 1;
     Energy_kWh := Py.round (avg * inject_Z (Z.of_nat n) * 5 / 60 / 1000) 3 |}.

(** The body of the loop over the hours. *)
Definition entry_of (hour : string) (readings : list reading) : entry :=
  let n := List.length readings in
  let soc_values := map (cell "SOC(%)") readings in
  {| Hour := hour ++ ":00";
     Readings := n;
     powers :=
       map (fun '(col, col_key) => (col_key, column_of (map (cell col) readings) n))
           power_cols;
     Avg_SOC_Pct :=
       if (n =? 0)%nat then 0
       else Py.round (Py.sum soc_values / inject_Z (Z.of_nat n)) 1;
     Min_SOC_Pct :=
       match min_of soc_values with
       | Some v => int v
       | None => 0%Z
       end;
     Max_SOC_Pct :=
       match max_of soc_values with
       | Some v => int v
       | None => 0%Z
       end |}.

Section Hours.

(** [hour_of t] stands for the bucket of a reading with time text [t]:
    [t.split(":")[0].zfill(2)], or [None] when the reading is skipped
    because [t] is empty or has no colon. *)
Variable hour_of : string -> option string.

(** The readings that are not skipped, each with its bucket. *)
Definition keyed (rows : list reading) : list (string * reading) :=
  flat_map (fun r =>
              match hour_of (Time r) with
              | Some hour => [(hour, r)]
              | None => []
              end)
           rows.

(** [hourly]: the readings by bucket, buckets in order of first
    appearance. *)
Definition hourly_of (rows : list reading) : list (string * list reading) :=
  map (fun '(hour, krs) => (hour, map snd krs)) (group_by (keyed rows) fst).

(** [process_hourly(rows)]. *)
Definition process_hourly (rows : list reading) : list entry :=
  let hourly := hourly_of rows in
  map (fun hour => entry_of hour (get hour [] hourly))
      (sorted_keys (map fst hourly)).

(** The readings of bucket [hour], in input order. *)
Definition readings_of (rows : list reading) (hour : string) : list reading :=
  filter (fun r =>
            match hour_of (Time r) with
            | Some h => String.eqb h hour
            | None => false
            end)
         rows.

End Hours.

(** The buckets of a few times of the form [H:MM] and [HH:MM]. *)
Definition sample_hour_of (t : string) : option string :=
  lookup t [ ("7:00", "07"); ("7:05", "07"); ("07:10", "07"); ("12:00", "12") ]%string.

(** Two readings of the hour 07 and one without a time. *)
Definition sample_readings : list reading :=
  [ {| Time := "7:00"; cells := [ ("PV(W)", 1200); ("SOC(%)", 40 + (5 # 10)) ]%string |};
    {| Time := ""; cells := [ ("PV(W)", 900) ]%string |};
    {| Time := "7:05"; cells := [ ("PV(W)", 2400); ("SOC(%)", 42) ]%string |} ].

End ProcessMonth.

(** * Properties *)

(** ** Numbers *)

Lemma ltb_lt (a b : Q) : Py.ltb a b = true <-> a < b.
Proof.
  unfold Py.ltb. rewrite negb_true_iff.
  split; intro H.
  - apply Qnot_le_lt. intro Hle. apply Qle_bool_iff in Hle. congruence.
  - destruct (Qle_bool b a) eqn:E; [|reflexivity].
    apply Qle_bool_iff in E. exfalso. apply (Qlt_not_le _ _ H E).
Qed.

Lemma ltb_ge (a b : Q) : Py.ltb a b = false <-> b <= a.
Proof.
  unfold Py.ltb. rewrite negb_false_iff. apply Qle_bool_iff.
Qed.

Lemma leb_le (a b : Q) : Py.leb a b = true <-> a <= b.
Proof. apply Qle_bool_iff. Qed.

Lemma leb_gt (a b : Q) : Py.leb a b = false <-> b < a.
Proof.
  unfold Py.leb. split; intro H.
  - apply Qnot_le_lt. intro Hle. apply Qle_bool_iff in Hle. congruence.
  - destruct (Qle_bool a b) eqn:E; [|reflexivity].
    apply Qle_bool_iff in E. exfalso. apply (Qlt_not_le _ _ H E).
Qed.

Lemma max_spec (a b : Q) :
  (a < b /\ Py.max a b = b) \/ (b <= a /\ Py.max a b = a).
Proof.
  unfold Py.max. destruct (Py.ltb a b) eqn:E.
  - left. split; [now apply ltb_lt | reflexivity].
  - right. split; [now apply ltb_ge | reflexivity].
Qed.

Lemma min_spec (a b : Q) :
  (b < a /\ Py.min a b = b) \/ (a <= b /\ Py.min a b = a).
Proof.
  unfold Py.min. destruct (Py.ltb b a) eqn:E.
  - left. split; [now apply ltb_lt | reflexivity].
  - right. split; [now apply ltb_ge | reflexivity].
Qed.

(** The sign-based split of a signed net energy [x] into
    [abs(min(0, x))] and [max(0, x)]. *)
Lemma sign_split (x : Q) :
  let neg := Py.abs (Py.min 0 x) in
  let pos := Py.max 0 x in
  0 <= neg /\ 0 <= pos /\ pos - neg == x /\
  (neg == 0 \/ pos == 0) /\
  (exactly_one_nonzero neg pos <-> ~ x == 0).
Proof.
  cbv zeta. unfold exactly_one_nonzero, Py.abs.
  destruct (min_spec 0 x) as [[Hlt ->] | [Hle ->]];
    destruct (max_spec 0 x) as [[Hlt' ->] | [Hle' ->]].
  - lra.
  - rewrite (Qabs_neg x) by lra.
    split; [lra|]. split; [lra|]. split; [lra|]. split; [right; lra|].
    split; [lra|]. intros _. left. split; lra.
  - rewrite Qabs_pos by lra.
    split; [lra|]. split; [lra|]. split; [lra|]. split; [left; lra|].
    split; [lra|]. intros _. right. split; lra.
  - assert (x == 0) by lra. rewrite Qabs_pos by lra.
    split; [lra|]. split; [lra|]. split; [lra|]. split; [left; lra|].
    split; [|intro; contradiction]. intros [[Hn _] | [_ Hn]]; lra.
Qed.

(** ** Enrichment (C4) *)

(** C4, as the code has it.  For every enriched record the import/export
    pair and the charge/discharge pair are the sign-based split of the
    signed net grid and battery energy: both members are non-negative,
    their difference is the net value, at most one of them is non-zero, and
    exactly one is non-zero precisely when the net value is not zero.  The
    load is non-negative whenever the two measured load energies are. *)
Theorem enrich_sign_split (r : raw_row) :
  let e := enrich r in
  (0 <= Grid_Import_kWh e /\ 0 <= Grid_Export_kWh e /\
   Grid_Export_kWh e - Grid_Import_kWh e == raw_Grid_Energy_kWh r /\
   (Grid_Import_kWh e == 0 \/ Grid_Export_kWh e == 0) /\
   (exactly_one_nonzero (Grid_Import_kWh e) (Grid_Export_kWh e)
    <-> ~ raw_Grid_Energy_kWh r == 0)) /\
  (0 <= Battery_Discharge_kWh e /\ 0 <= Battery_Charge_kWh e /\
   Battery_Charge_kWh e - Battery_Discharge_kWh e
   == raw_Battery_Energy_kWh r /\
   (Battery_Discharge_kWh e == 0 \/ Battery_Charge_kWh e == 0) /\
   (exactly_one_nonzero (Battery_Discharge_kWh e) (Battery_Charge_kWh e)
    <-> ~ raw_Battery_Energy_kWh r == 0)) /\
  (0 <= raw_GridLoad_Energy_kWh r -> 0 <= raw_BackupLoad_Energy_kWh r ->
   0 <= Load_kWh e).
Proof.
  cbv zeta. unfold enrich. cbn [Grid_Import_kWh Grid_Export_kWh
    Battery_Charge_kWh Battery_Discharge_kWh Load_kWh].
  split; [exact (sign_split (raw_Grid_Energy_kWh r))|].
  split; [exact (sign_split (raw_Battery_Energy_kWh r))|].
  intros Hg Hb. lra.
Qed.

(** The theorem at an hour that imports 0.5 kWh and discharges 0.3 kWh. *)
Lemma enrich_sign_split_witness :
  exactly_one_nonzero (Grid_Import_kWh (enrich importing_row))
                      (Grid_Export_kWh (enrich importing_row)) /\
  exactly_one_nonzero (Battery_Discharge_kWh (enrich importing_row))
                      (Battery_Charge_kWh (enrich importing_row)) /\
  0 <= Load_kWh (enrich importing_row).
Proof.
  destruct (enrich_sign_split importing_row) as [Hg [Hb Hl]].
  split; [|split].
  - apply Hg. vm_compute. discriminate.
  - apply Hb. vm_compute. discriminate.
  - apply Hl; vm_compute; discriminate.
Defined.

(** C4 as stated fails on an idle hour: with a net grid energy and a net
    battery energy of zero, all four derived energies are zero, so neither
    pair has exactly one non-zero member. *)
Lemma enrich_idle_counterexample :
  Grid_Import_kWh (enrich idle_row) == 0 /\
  Grid_Export_kWh (enrich idle_row) == 0 /\
  Battery_Charge_kWh (enrich idle_row) == 0 /\
  Battery_Discharge_kWh (enrich idle_row) == 0 /\
  ~ exactly_one_nonzero (Grid_Import_kWh (enrich idle_row))
                        (Grid_Export_kWh (enrich idle_row)) /\
  ~ exactly_one_nonzero (Battery_Charge_kWh (enrich idle_row))
                        (Battery_Discharge_kWh (enrich idle_row)).
Proof.
  repeat split; try (vm_compute; reflexivity);
    intros [[Hn _] | [_ Hn]]; apply Hn; vm_compute; reflexivity.
Qed.

(** ** Rounding *)

Lemma round_half_even_bound (x : Q) :
  x - (1 # 2) <= inject_Z (Py.round_half_even x) <= x + (1 # 2).
Proof.
  unfold Py.round_half_even.
  pose proof (Qfloor_le x) as Hlo.
  pose proof (Qlt_floor x) as Hhi.
  rewrite inject_Z_plus in Hhi. change (inject_Z 1) with 1 in Hhi.
  destruct (Py.ltb (x - inject_Z (Qfloor x)) (1 # 2)) eqn:E1.
  - apply ltb_lt in E1. lra.
  - apply ltb_ge in E1.
    destruct (Py.ltb (1 # 2) (x - inject_Z (Qfloor x))) eqn:E2.
    + rewrite inject_Z_plus. change (inject_Z 1) with 1. lra.
    + apply ltb_ge in E2. destruct (Z.even (Qfloor x)).
      * lra.
      * rewrite inject_Z_plus. change (inject_Z 1) with 1. lra.
Qed.

Lemma round_half_even_Z (z : Z) : Py.round_half_even (inject_Z z) = z.
Proof.
  unfold Py.round_half_even. rewrite Qfloor_Z.
  assert (E : Py.ltb (inject_Z z - inject_Z z) (1 # 2) = true)
    by (apply ltb_lt; lra).
  now rewrite E.
Qed.

Lemma pow10_pos (d : nat) : 0 < Py.pow10 d.
Proof. induction d; cbn [Py.pow10]; lra. Qed.

#[local] Instance ltb_proper : Proper (Qeq ==> Qeq ==> eq) Py.ltb.
Proof. intros a a' Ha b b' Hb. unfold Py.ltb. now rewrite Ha, Hb. Qed.

#[local] Instance leb_proper : Proper (Qeq ==> Qeq ==> eq) Py.leb.
Proof. intros a a' Ha b b' Hb. unfold Py.leb. now rewrite Ha, Hb. Qed.

#[local] Instance round_half_even_proper :
  Proper (Qeq ==> eq) Py.round_half_even.
Proof.
  intros a a' Ha. unfold Py.round_half_even.
  rewrite (Qfloor_comp _ _ Ha).
  assert (E : a - inject_Z (Qfloor a') == a' - inject_Z (Qfloor a'))
    by now rewrite Ha.
  now rewrite (ltb_proper _ _ E _ _ (Qeq_refl _)),
              (ltb_proper _ _ (Qeq_refl _) _ _ E).
Qed.

#[local] Instance round_proper : Proper (Qeq ==> eq ==> Qeq) Py.round.
Proof.
  intros a a' Ha d d' <-. unfold Py.round.
  assert (E : a * Py.pow10 d == a' * Py.pow10 d) by now rewrite Ha.
  now rewrite (round_half_even_proper _ _ E).
Qed.

Lemma round_zero (d : nat) : Py.round 0 d == 0.
Proof.
  unfold Py.round.
  assert (E : 0 * Py.pow10 d == inject_Z 0) by (change (inject_Z 0) with 0; lra).
  rewrite (round_half_even_proper _ _ E), round_half_even_Z.
  pose proof (pow10_pos d). change (inject_Z 0) with 0. field. lra.
Qed.

(** A rounded value is within half a unit of the last kept digit. *)
Lemma round_bound (x : Q) (d : nat) :
  - (1 # 2) <= (Py.round x d - x) * Py.pow10 d <= 1 # 2.
Proof.
  unfold Py.round. pose proof (pow10_pos d) as Hp.
  pose proof (round_half_even_bound (x * Py.pow10 d)) as Hb.
  assert (E : (inject_Z (Py.round_half_even (x * Py.pow10 d)) / Py.pow10 d - x)
              * Py.pow10 d
              == inject_Z (Py.round_half_even (x * Py.pow10 d)) - x * Py.pow10 d)
    by (field; lra).
  rewrite E. lra.
Qed.

Lemma round1_bound (x : Q) :
  - (1 # 20) <= Py.round x 1 - x <= 1 # 20.
Proof. pose proof (round_bound x 1) as H. cbn [Py.pow10] in H. lra. Qed.

Lemma round0_bound (x : Q) :
  - (1 # 2) <= Py.round x 0 - x <= 1 # 2.
Proof. pose proof (round_bound x 0) as H. cbn [Py.pow10] in H. lra. Qed.

(** Rounding keeps the sign of a non-negative number. *)
Lemma round_nonneg (x : Q) (d : nat) : 0 <= x -> 0 <= Py.round x d.
Proof.
  intro Hx. unfold Py.round. pose proof (pow10_pos d) as Hp.
  assert (Hz : (0 <= Py.round_half_even (x * Py.pow10 d))%Z).
  { assert (Hm : 0 <= x * Py.pow10 d) by (apply Qmult_le_0_compat; lra).
    pose proof (round_half_even_bound (x * Py.pow10 d)) as [Hlo _].
    destruct (Z_lt_le_dec (Py.round_half_even (x * Py.pow10 d)) 0) as [Hneg|]; [|assumption].
    exfalso.
    assert (Hle : (Py.round_half_even (x * Py.pow10 d) <= -1)%Z) by lia.
    rewrite Zle_Qle in Hle. change (inject_Z (-1)) with (-1) in Hle. lra. }
  rewrite Zle_Qle in Hz. change (inject_Z 0) with 0 in Hz.
  apply Qle_shift_div_l; lra.
Qed.

(** ** Battery health (C9) *)

(** C9.  The battery health section assumes a lifetime of 6000 cycles.  With
    a positive usable capacity it reports (rounded to 2, 0 and 0 decimals)
    the daily cycles [avg_discharge / usable], the annual cycles
    [daily * 365] and the cycles used [annual * age]; the remaining years
    are [max(0, 6000 - used) / annual] (rounded to 0 decimals) when the
    annual cycles are positive and null when they are not.  With a usable
    capacity of zero (or below) the three counts are 0 and the remaining
    years are null. *)
Theorem battery_health_cycles (ba : battery_analysis) (age : Q) :
  let h := compute_battery_health ba age in
  let usable := estimated_usable_kwh ba in
  let avg := avg_discharge ba in
  (0 < usable ->
   let daily := avg / usable in
   let annual := daily * 365 in
   let used := annual * age in
   daily_equiv_cycles h = Py.round daily 2 /\
   annual_cycles h = Py.round annual 0 /\
   cycles_used h = Py.round used 0 /\
   (0 < annual ->
    remaining_cycle_years h
    = Some (Py.round (Py.max 0 (6000 - used) / annual) 0)) /\
   (annual <= 0 -> remaining_cycle_years h = None)) /\
  (usable <= 0 ->
   daily_equiv_cycles h == 0 /\ annual_cycles h == 0 /\ cycles_used h == 0 /\
   remaining_cycle_years h = None).
Proof.
  cbv zeta. unfold compute_battery_health.
  cbn [daily_equiv_cycles annual_cycles cycles_used remaining_cycle_years].
  split.
  - intro Hu. apply ltb_lt in Hu. rewrite Hu.
    split; [reflexivity|]. split; [reflexivity|]. split; [reflexivity|].
    split.
    + intro Ha. apply ltb_lt in Ha. now rewrite Ha.
    + intro Ha. apply ltb_ge in Ha. now rewrite Ha.
  - intro Hu. apply ltb_ge in Hu. rewrite Hu.
    assert (E : Py.ltb 0 (0 * 365) = false) by (apply ltb_ge; lra).
    rewrite E.
    assert (E1 : 0 * 365 == 0) by lra.
    assert (E2 : 0 * 365 * age == 0) by lra.
    split; [apply round_zero|].
    split; [rewrite (round_proper _ _ E1 _ _ eq_refl); apply round_zero|].
    split; [rewrite (round_proper _ _ E2 _ _ eq_refl); apply round_zero|].
    reflexivity.
Qed.

(** The theorem at a battery cycled 7.5 kWh a day for a quarter of a year,
    and at one that was never discharged. *)
Lemma battery_health_cycles_witness :
  remaining_cycle_years (compute_battery_health sample_battery (1 # 4))
  = Some 28 /\
  remaining_cycle_years (compute_battery_health unused_battery 1) = None.
Proof.
  split.
  - destruct (battery_health_cycles sample_battery (1 # 4)) as [H _].
    destruct H as (_ & _ & _ & H & _); [reflexivity|].
    rewrite H; reflexivity.
  - destruct (battery_health_cycles unused_battery 1) as [H _].
    destruct H as (_ & _ & _ & _ & H); [reflexivity|].
    apply H. vm_compute. discriminate.
Defined.

(** ** Sums *)

Lemma sum_snoc (l : list Q) (x : Q) : Py.sum (l ++ [x]) = Py.sum l + x.
Proof. unfold Py.sum. now rewrite fold_left_app. Qed.

Lemma fold_plus_shift (l : list Q) (a : Q) :
  fold_left Qplus l a == a + fold_left Qplus l 0.
Proof.
  revert a. induction l as [|x l IH]; intro a; simpl.
  - lra.
  - rewrite (IH (a + x)), (IH (0 + x)). lra.
Qed.

Lemma sum_cons (x : Q) (l : list Q) : Py.sum (x :: l) == x + Py.sum l.
Proof. unfold Py.sum. simpl. rewrite fold_plus_shift. lra. Qed.

Lemma sum_nonneg (l : list Q) : (forall x, In x l -> 0 <= x) -> 0 <= Py.sum l.
Proof.
  induction l as [|x l IH]; intro H.
  - unfold Py.sum. simpl. lra.
  - rewrite sum_cons.
    assert (0 <= x) by (apply H; now left).
    assert (0 <= Py.sum l) by (apply IH; intros y Hy; apply H; now right).
    lra.
Qed.

(** ** ROI (C7, C10) *)

Lemma pow_pos (x : Q) (n : nat) : 0 < x -> 0 < Py.pow x n.
Proof.
  intro Hx. induction n; cbn [Py.pow]; [lra|].
  apply Qmult_lt_0_compat; assumption.
Qed.

Lemma year_savings_pos (s : Q) (n : nat) : 0 < s -> 0 < year_savings_of s n.
Proof.
  intro Hs. unfold year_savings_of.
  apply Qmult_lt_0_compat; [assumption|]. apply pow_pos. lra.
Qed.

Lemma cum_savings_S (s : Q) (n : nat) :
  cum_savings s (S n) = cum_savings s n + year_savings_of s n.
Proof.
  unfold cum_savings. rewrite seq_S, map_app. cbn [map Nat.add].
  now rewrite sum_snoc.
Qed.

Lemma cum_savings_mono (s : Q) (m k : nat) :
  0 < s -> (m <= k)%nat -> cum_savings s m <= cum_savings s k.
Proof.
  intros Hs Hmk. induction Hmk as [|k Hmk IH]; [lra|].
  rewrite cum_savings_S. pose proof (year_savings_pos s k Hs). lra.
Qed.

Lemma cum_savings_pos (s : Q) (m : nat) :
  0 < s -> (1 <= m)%nat -> 0 < cum_savings s m.
Proof.
  intros Hs Hm.
  pose proof (cum_savings_mono s 1 m Hs Hm) as H.
  rewrite cum_savings_S in H. pose proof (year_savings_pos s 0 Hs).
  change (cum_savings s 0) with 0 in H. lra.
Qed.

(** What the payback loop holds after the years [0 .. k - 1]. *)
Lemma roi_loop_invariant (s c : Q) (k : nat) :
  0 < s ->
  let st :=
    fold_left (roi_step s c) (seq 0 k)
              {| cumulative := 0; payback_year := None; yearly_savings := [] |} in
  cumulative st = cum_savings s k /\
  List.length (yearly_savings st) = k /\
  match payback_year st with
  | None => forall m, (1 <= m <= k)%nat -> cum_savings s m < c
  | Some p =>
    exists n, (n < k)%nat /\ c <= cum_savings s (S n) /\
              (forall m, (1 <= m <= n)%nat -> cum_savings s m < c) /\
              p == inject_Z (Z.of_nat n)
                   + (c - cum_savings s n) / year_savings_of s n
  end.
Proof.
  intro Hs. cbv zeta. induction k as [|k IH].
  - cbn. split; [reflexivity|]. split; [reflexivity|]. intros m Hm. lia.
  - rewrite seq_S, fold_left_app. cbn [fold_left Nat.add].
    destruct IH as (Hcum & Hlen & Hpb).
    set (st := fold_left (roi_step s c) (seq 0 k) _) in *.
    unfold roi_step.
    cbn [cumulative payback_year yearly_savings].
    split; [now rewrite cum_savings_S, Hcum|].
    split; [rewrite length_app, Hlen; cbn; lia|].
    pose proof (year_savings_pos s k Hs) as Hy.
    destruct (payback_year st) as [p|].
    + destruct Hpb as (n & Hn & Hreach & Hbelow & Hp).
      exists n. repeat split; try assumption. lia.
    + rewrite Hcum.
      destruct (Py.leb c (cum_savings s k + year_savings_of s k)) eqn:E.
      * apply leb_le in E. exists k.
        split; [lia|]. split; [now rewrite cum_savings_S|].
        split; [intros m Hm; apply Hpb; lia|].
        assert (Ey : Py.ltb 0 (year_savings_of s k) = true) by now apply ltb_lt.
        rewrite Ey.
        assert (E0 : c - (cum_savings s k + year_savings_of s k
                          - year_savings_of s k)
                     == c - cum_savings s k) by lra.
        now rewrite E0.
      * apply leb_gt in E. intros m Hm.
        destruct (Nat.eq_dec m (S k)) as [->|Hne].
        -- now rewrite cum_savings_S.
        -- apply Hpb. lia.
Qed.

Lemma roi_loop_26 (s c : Q) :
  0 < s ->
  cumulative (roi_loop s c) = cum_savings s 26 /\
  List.length (yearly_savings (roi_loop s c)) = 26%nat /\
  match payback_year (roi_loop s c) with
  | None => forall m, (1 <= m <= 26)%nat -> cum_savings s m < c
  | Some p =>
    exists n, (n < 26)%nat /\ c <= cum_savings s (S n) /\
              (forall m, (1 <= m <= n)%nat -> cum_savings s m < c) /\
              p == inject_Z (Z.of_nat n)
                   + (c - cum_savings s n) / year_savings_of s n
  end.
Proof. intro Hs. exact (roi_loop_invariant s c 26 Hs). Qed.

(** The report [compute_roi] builds once it is past its two early returns. *)
Lemma compute_roi_report (bi cfg : list (string * Q)) (ov : option Q) :
  cfg <> [] ->
  0 < roi_annual_savings bi ov ->
  exists rep,
    compute_roi bi (Some cfg) ov = Some (RoiReport rep) /\
    simple_payback rep
    = match payback_year (roi_loop (roi_annual_savings bi ov)
                                   (get "total_cost" 0 cfg)) with
      | Some p => if truthy p then Some (Py.round p 1) else None
      | None => None
      end /\
    remaining_payback rep
    = match payback_year (roi_loop (roi_annual_savings bi ov)
                                   (get "total_cost" 0 cfg)) with
      | Some p =>
        if truthy p
        then Some (Py.round (Py.max 0 (p - get "system_age_years" 0 cfg)) 1)
        else None
      | None => None
      end.
Proof.
  intros Hcfg Hs. unfold compute_roi.
  destruct cfg as [|kv cfg']; [congruence|].
  assert (E : Py.leb (roi_annual_savings bi ov) 0 = false) by now apply leb_gt.
  rewrite E. eexists. split; [reflexivity|].
  cbn [simple_payback remaining_payback]. split; reflexivity.
Qed.

(** C10.  With positive annual savings the payback search accumulates the
    degraded savings of the 26 years 0 to 25 and no more.  When the cost is
    not reached by then, and also when the payback year found is exactly 0
    (which is what a cost of 0 gives), [simple_payback] and
    [remaining_payback] are null; a cost reached within the 26 years does
    give a payback year. *)
Theorem roi_horizon (bi cfg : list (string * Q)) (ov : option Q) :
  let s := roi_annual_savings bi ov in
  let c := get "total_cost" 0 cfg in
  cfg <> [] ->
  0 < s ->
  exists rep,
    compute_roi bi (Some cfg) ov = Some (RoiReport rep) /\
    cumulative (roi_loop s c) = cum_savings s 26 /\
    List.length (yearly_savings (roi_loop s c)) = 26%nat /\
    (cum_savings s 26 < c ->
     payback_year (roi_loop s c) = None /\
     simple_payback rep = None /\ remaining_payback rep = None) /\
    (c <= cum_savings s 26 -> payback_year (roi_loop s c) <> None) /\
    (forall p, payback_year (roi_loop s c) = Some p -> p == 0 ->
               simple_payback rep = None /\ remaining_payback rep = None) /\
    (c == 0 ->
     (exists p, payback_year (roi_loop s c) = Some p /\ p == 0) /\
     simple_payback rep = None /\ remaining_payback rep = None).
Proof.
  cbv zeta. intros Hcfg Hs.
  destruct (compute_roi_report bi cfg ov Hcfg Hs) as (rep & Hrep & Hsp & Hrp).
  destruct (roi_loop_26 (roi_annual_savings bi ov) (get "total_cost" 0 cfg) Hs)
    as (Hcum & Hlen & Hpb).
  set (s := roi_annual_savings bi ov) in *.
  set (c := get "total_cost" 0 cfg) in *.
  assert (Hzero : forall p, payback_year (roi_loop s c) = Some p -> p == 0 ->
                            simple_payback rep = None /\
                            remaining_payback rep = None).
  { intros p Hp Hp0. rewrite Hsp, Hrp, Hp. unfold truthy.
    apply Qeq_eq_bool in Hp0. rewrite Hp0. split; reflexivity. }
  exists rep. split; [assumption|]. split; [assumption|]. split; [assumption|].
  split; [|split; [|split; [assumption|]]].
  - intro Hfar. destruct (payback_year (roi_loop s c)) as [p|] eqn:Ep.
    + destruct Hpb as (n & Hn & Hreach & _).
      pose proof (cum_savings_mono s (S n) 26 Hs ltac:(lia)). lra.
    + rewrite Hsp, Hrp. repeat split.
  - intros Hnear Ep. rewrite Ep in Hpb.
    specialize (Hpb 26%nat ltac:(lia)). lra.
  - intro Hc0. destruct (payback_year (roi_loop s c)) as [p|] eqn:Ep.
    + destruct Hpb as (n & Hn & Hreach & Hbelow & Hp).
      assert (Hn0 : n = 0%nat).
      { destruct n as [|n]; [reflexivity|]. exfalso.
        specialize (Hbelow 1%nat ltac:(lia)).
        pose proof (cum_savings_pos s 1 Hs ltac:(lia)). lra. }
      subst n.
      assert (Hp0 : p == 0).
      { rewrite Hp. change (cum_savings s 0) with 0.
        change (inject_Z (Z.of_nat 0)) with 0.
        pose proof (year_savings_pos s 0 Hs). rewrite Hc0. field. lra. }
      split; [exists p; split; [reflexivity | assumption]|].
      now apply (Hzero p).
    + exfalso. specialize (Hpb 1%nat ltac:(lia)).
      pose proof (cum_savings_pos s 1 Hs ltac:(lia)). lra.
Qed.

(** The theorem at a system too expensive to pay back in 26 years and at a
    system that cost nothing. *)
Lemma roi_horizon_witness :
  (exists rep,
      compute_roi sample_bill (Some costly_roi_config) None
      = Some (RoiReport rep) /\
      simple_payback rep = None /\ remaining_payback rep = None) /\
  (exists rep,
      compute_roi sample_bill (Some free_roi_config) None
      = Some (RoiReport rep) /\
      simple_payback rep = None /\ remaining_payback rep = None).
Proof.
  split.
  - destruct (roi_horizon sample_bill costly_roi_config None)
      as (rep & Hrep & _ & _ & Hfar & _); [discriminate | reflexivity |].
    exists rep. split; [exact Hrep|]. apply Hfar. vm_compute. reflexivity.
  - destruct (roi_horizon sample_bill free_roi_config None)
      as (rep & Hrep & _ & _ & _ & _ & _ & Hfree); [discriminate | reflexivity |].
    exists rep. split; [exact Hrep|]. apply Hfree. reflexivity.
Defined.

(** C7, as the code has it.  Without an ROI configuration (none, or an
    empty one) nothing is returned.  With one, annual savings of zero or
    less give the "no savings" error.  Otherwise, for a positive cost [c]
    reached within the 26 accumulated years, the payback year [p] is
    [n + f] with [n] whole years and a fraction [0 < f <= 1] such that the
    savings of the first [n] years plus the fraction [f] of year [n] are
    exactly [c], no shorter whole number of years reaching [c]; the report
    gives [simple_payback] as [p] and [remaining_payback] as
    [max(0, p - system_age)], each rounded to one decimal. *)
Theorem roi_payback (bi : list (string * Q)) (ov : option Q) :
  compute_roi bi None ov = None /\
  compute_roi bi (Some []) ov = None /\
  forall cfg,
    cfg <> [] ->
    let s := roi_annual_savings bi ov in
    let c := get "total_cost" 0 cfg in
    let age := get "system_age_years" 0 cfg in
    (s <= 0 ->
     compute_roi bi (Some cfg) ov
     = Some (RoiError "No savings to compute ROI")) /\
    (0 < s -> 0 < c -> c <= cum_savings s 26 ->
     exists rep p n f,
       compute_roi bi (Some cfg) ov = Some (RoiReport rep) /\
       payback_year (roi_loop s c) = Some p /\
       (n < 26)%nat /\ 0 < f /\ f <= 1 /\
       p == inject_Z (Z.of_nat n) + f /\
       cum_savings s n + f * year_savings_of s n == c /\
       (forall m, (m <= n)%nat -> cum_savings s m < c) /\
       simple_payback rep = Some (Py.round p 1) /\
       remaining_payback rep = Some (Py.round (Py.max 0 (p - age)) 1) /\
       - (1 # 20) <= Py.round p 1 - p <= 1 # 20).
Proof.
  split; [reflexivity|]. split; [reflexivity|].
  intros cfg Hcfg. cbv zeta. split.
  - intro Hs. unfold compute_roi.
    destruct cfg as [|kv cfg']; [congruence|].
    apply leb_le in Hs. now rewrite Hs.
  - intros Hs Hc Hreach.
    destruct (compute_roi_report bi cfg ov Hcfg Hs) as (rep & Hrep & Hsp & Hrp).
    destruct (roi_loop_26 (roi_annual_savings bi ov) (get "total_cost" 0 cfg) Hs)
      as (_ & _ & Hpb).
    set (s := roi_annual_savings bi ov) in *.
    set (c := get "total_cost" 0 cfg) in *.
    destruct (payback_year (roi_loop s c)) as [p|] eqn:Ep.
    + destruct Hpb as (n & Hn & Hcross & Hbelow & Hp).
      pose proof (year_savings_pos s n Hs) as Hy.
      assert (Hprev : forall m, (m <= n)%nat -> cum_savings s m < c).
      { intros m Hm. destruct m as [|m].
        - change (cum_savings s 0) with 0. exact Hc.
        - apply Hbelow. lia. }
      pose proof (Hprev n (Nat.le_refl n)) as Hlt.
      rewrite cum_savings_S in Hcross.
      set (f := (c - cum_savings s n) / year_savings_of s n) in *.
      assert (Hfy : f * year_savings_of s n == c - cum_savings s n)
        by (unfold f; field; lra).
      assert (Hf0 : 0 < f).
      { unfold f. apply Qlt_shift_div_l; lra. }
      assert (Hf1 : f <= 1).
      { unfold f. apply Qle_shift_div_r; lra. }
      assert (Htruthy : truthy p = true).
      { unfold truthy. apply negb_true_iff.
        destruct (Qeq_bool p 0) eqn:E; [|reflexivity].
        apply Qeq_bool_eq in E. exfalso.
        assert (0 <= inject_Z (Z.of_nat n)).
        { change 0 with (inject_Z 0). rewrite <- Zle_Qle. lia. }
        lra. }
      rewrite Htruthy in Hsp, Hrp.
      exists rep, p, n, f.
      split; [assumption|]. split; [reflexivity|]. split; [assumption|].
      split; [assumption|]. split; [assumption|]. split; [assumption|].
      split; [lra|]. split; [assumption|]. split; [assumption|].
      split; [assumption|]. apply round1_bound.
    + exfalso. specialize (Hpb 26%nat ltac:(lia)). lra.
Qed.

(** The theorem at a system that cost 400000 and saves 90000 a year: it
    pays back in the fifth year; and at a bill without savings. *)
Lemma roi_payback_witness :
  (exists rep p,
      compute_roi sample_bill (Some sample_roi_config) None
      = Some (RoiReport rep) /\
      simple_payback rep = Some (Py.round p 1) /\ 4 < p /\ p <= 5) /\
  compute_roi no_savings_bill (Some sample_roi_config) None
  = Some (RoiError "No savings to compute ROI").
Proof.
  split.
  - destruct (roi_payback sample_bill None) as (_ & _ & H).
    destruct (H sample_roi_config ltac:(discriminate)) as [_ Hpay].
    destruct Hpay as (rep & p & n & f & Hrep & Hp & Hn & Hf0 & Hf1 & Hnf & Hcum
                      & Hprev & Hsp & _).
    + reflexivity.
    + reflexivity.
    + vm_compute. discriminate.
    + exists rep, p. split; [exact Hrep|]. split; [exact Hsp|].
      assert (Hv : payback_year
                     (roi_loop (roi_annual_savings sample_bill None)
                               (get "total_cost" 0 sample_roi_config))
                   = Some p) by exact Hp.
      vm_compute in Hv. injection Hv as <-.
      split; vm_compute; [reflexivity | discriminate].
  - destruct (roi_payback no_savings_bill None) as (_ & _ & H).
    destruct (H sample_roi_config ltac:(discriminate)) as [Herr _].
    apply Herr. vm_compute. discriminate.
Defined.

(** C7 as stated fails for a cost of zero, which is also the default when
    the configuration has no [total_cost]: the cost is reached in year 0,
    the payback year computed is 0, and the report gives null for both
    paybacks instead of 0. *)
Lemma roi_free_system_counterexample :
  get "total_cost" 0 free_roi_config <= cum_savings 90000 26 /\
  cum_savings 90000 0 == get "total_cost" 0 free_roi_config /\
  (exists p, payback_year (roi_loop 90000 0) = Some p /\ p == 0) /\
  exists rep,
    compute_roi sample_bill (Some free_roi_config) None = Some (RoiReport rep) /\
    simple_payback rep = None /\ remaining_payback rep = None.
Proof.
  split; [vm_compute; discriminate|].
  split; [reflexivity|].
  split; [eexists; split; [vm_compute; reflexivity | reflexivity]|].
  eexists. split; [vm_compute; reflexivity|].
  split; reflexivity.
Qed.

(** ** Grouping *)

Lemma mem_In (d : string) (l : list string) : mem d l = true <-> In d l.
Proof.
  unfold mem. rewrite existsb_exists. split.
  - intros (x & Hx & E). apply String.eqb_eq in E. now subst.
  - intro H. exists d. split; [assumption | apply String.eqb_refl].
Qed.

Lemma mem_false (d : string) (l : list string) : mem d l = false <-> ~ In d l.
Proof.
  rewrite <- mem_In. destruct (mem d l); split; congruence.
Qed.

Lemma distinct_keys_snoc (l : list string) (k : string) :
  distinct_keys (l ++ [k])
  = if mem k (distinct_keys l) then distinct_keys l else distinct_keys l ++ [k].
Proof. unfold distinct_keys. now rewrite fold_left_app. Qed.

Lemma distinct_keys_In (l : list string) (k : string) :
  In k (distinct_keys l) <-> In k l.
Proof.
  induction l as [|x l IH] using rev_ind.
  - reflexivity.
  - rewrite distinct_keys_snoc, in_app_iff.
    destruct (mem x (distinct_keys l)) eqn:E.
    + apply mem_In in E. rewrite IH. split; [tauto|].
      intros [H | [<- | []]]; [assumption | now apply IH].
    + rewrite in_app_iff, IH. reflexivity.
Qed.

Lemma distinct_keys_NoDup (l : list string) : NoDup (distinct_keys l).
Proof.
  induction l as [|x l IH] using rev_ind.
  - constructor.
  - rewrite distinct_keys_snoc.
    destruct (mem x (distinct_keys l)) eqn:E; [assumption|].
    apply mem_false in E.
    apply NoDup_app; [assumption | repeat constructor; intros [] |].
    intros y Hy [<- | []]. contradiction.
Qed.

Section Grouping.

Context {A : Type} (key_fn : A -> string).

(** The rows of key [k]. *)
Let rows_of (rows : list A) (k : string) : list A :=
  filter (fun r => String.eqb (key_fn r) k) rows.

Let group_of (rows : list A) (k : string) : string * list A :=
  (k, rows_of rows k).

Lemma group_by_snoc (rows : list A) (r : A) :
  group_by (rows ++ [r]) key_fn
  = group_append (key_fn r) r (group_by rows key_fn).
Proof. unfold group_by. now rewrite fold_left_app. Qed.

Lemma rows_of_snoc (rows : list A) (r : A) (k : string) :
  rows_of (rows ++ [r]) k
  = rows_of rows k ++ (if String.eqb (key_fn r) k then [r] else []).
Proof. unfold rows_of. now rewrite filter_app. Qed.

Lemma group_of_other (rows : list A) (r : A) (ks : list string) :
  ~ In (key_fn r) ks ->
  map (group_of (rows ++ [r])) ks = map (group_of rows) ks.
Proof.
  intro Hn. apply map_ext_in. intros k Hk. unfold group_of.
  rewrite rows_of_snoc.
  destruct (String.eqb_spec (key_fn r) k) as [E|_].
  - exfalso. apply Hn. now rewrite E.
  - now rewrite app_nil_r.
Qed.

Lemma group_append_groups (rows : list A) (r : A) (ks : list string) :
  NoDup ks ->
  group_append (key_fn r) r (map (group_of rows) ks)
  = if mem (key_fn r) ks then map (group_of (rows ++ [r])) ks
    else map (group_of rows) ks ++ [(key_fn r, [r])].
Proof.
  induction ks as [|k ks IH]; intro Hnd.
  - reflexivity.
  - inversion Hnd as [|? ? Hk Hnd']; subst.
    cbn [map group_append group_of mem existsb].
    rewrite (String.eqb_sym (key_fn r) k).
    destruct (String.eqb_spec k (key_fn r)) as [->|Hne].
    + cbn [orb]. fold (group_of rows). rewrite (group_of_other _ _ _ Hk).
      unfold group_of at 2. rewrite rows_of_snoc, String.eqb_refl.
      reflexivity.
    + cbn [orb]. fold (group_of rows). rewrite (IH Hnd').
      fold (mem (key_fn r) ks).
      destruct (mem (key_fn r) ks).
      * f_equal. unfold group_of. rewrite rows_of_snoc.
        destruct (String.eqb_spec (key_fn r) k) as [E|_];
          [congruence | now rewrite app_nil_r].
      * reflexivity.
Qed.

Lemma rows_of_absent (rows : list A) (k : string) :
  ~ In k (map key_fn rows) -> rows_of rows k = [].
Proof.
  intro Hn. unfold rows_of. induction rows as [|r rows IH]; [reflexivity|].
  cbn [filter].
  destruct (String.eqb_spec (key_fn r) k) as [E|_].
  - exfalso. apply Hn. left. exact E.
  - apply IH. intro H. apply Hn. now right.
Qed.

(** [group_by] lists the distinct keys in order of first appearance, each
    with the rows of that key in their input order. *)
Theorem group_by_spec (rows : list A) :
  group_by rows key_fn
  = map (fun k => (k, filter (fun r => String.eqb (key_fn r) k) rows))
        (distinct_keys (map key_fn rows)).
Proof.
  change (group_by rows key_fn
          = map (group_of rows) (distinct_keys (map key_fn rows))).
  induction rows as [|r rows IH] using rev_ind.
  - reflexivity.
  - rewrite group_by_snoc, IH, map_app. cbn [map].
    rewrite distinct_keys_snoc.
    rewrite (group_append_groups rows r _ (distinct_keys_NoDup _)).
    destruct (mem (key_fn r) (distinct_keys (map key_fn rows))) eqn:E.
    + reflexivity.
    + apply mem_false in E. rewrite map_app. cbn [map].
      rewrite (group_of_other _ _ _ E). f_equal.
      unfold group_of. rewrite rows_of_snoc, String.eqb_refl.
      rewrite rows_of_absent; [reflexivity|].
      now rewrite <- distinct_keys_In.
Qed.

End Grouping.

(** ** Sorting *)

Lemma insert_sorted_In {A} (leb : A -> A -> bool) (x y : A) (l : list A) :
  In y (insert_sorted leb x l) <-> y = x \/ In y l.
Proof.
  induction l as [|z l IH]; cbn [insert_sorted].
  - cbn. intuition congruence.
  - destruct (leb z x); cbn [In]; [rewrite IH|]; intuition congruence.
Qed.

Lemma sorted_fold_In {A} (leb : A -> A -> bool) (y : A) (l acc : list A) :
  In y (fold_left (fun acc x => insert_sorted leb x acc) l acc)
  <-> In y l \/ In y acc.
Proof.
  revert acc. induction l as [|x l IH]; intro acc; cbn [fold_left].
  - cbn. tauto.
  - rewrite IH, insert_sorted_In. cbn [In]. intuition congruence.
Qed.

Lemma sorted_In {A} (leb : A -> A -> bool) (y : A) (l : list A) :
  In y (sorted leb l) <-> In y l.
Proof. unfold sorted. rewrite sorted_fold_In. cbn. tauto. Qed.

(** ** Monthly totals (C3) *)

Lemma monthly_totals_In (rows : list row) (m : string) (t : month_totals) :
  In (m, t) (compute_monthly_totals rows) ->
  t = month_totals_of (rows_of_month rows m).
Proof.
  unfold compute_monthly_totals. rewrite in_map_iff.
  intros ([m' mrows] & E & Hin). injection E as -> <-.
  unfold sorted_items in Hin. apply sorted_In in Hin.
  rewrite group_by_spec, in_map_iff in Hin.
  destruct Hin as (k & E & _). injection E as -> <-. reflexivity.
Qed.

(** C3, as the code has it.  For every month aggregate, with the sums taken
    over the records of the month: [self_consumed] is [total_load -
    grid_import] rounded to one decimal; [self_consumption_rate] is
    [self_consumed / total_pv * 100] (one decimal) for a positive
    [total_pv] and 0 otherwise; [self_sufficiency] is
    [(1 - grid_import / total_load) * 100] (one decimal) for a positive
    [total_load] and null otherwise; and [self_consumption_rate] is
    non-negative whenever the month's import does not exceed its load. *)
Theorem monthly_totals_ratios (rows : list row) (m : string) (t : month_totals) :
  In (m, t) (compute_monthly_totals rows) ->
  let mrows := rows_of_month rows m in
  let load := Py.sum (map Load_kWh mrows) in
  let imp := Py.sum (map Grid_Import_kWh mrows) in
  let pv := Py.sum (map PV_Energy_kWh mrows) in
  self_consumed t = Py.round (load - imp) 1 /\
  - (1 # 20) <= self_consumed t - (load - imp) <= 1 # 20 /\
  (0 < pv -> self_consumption_rate t = Py.round ((load - imp) / pv * 100) 1) /\
  (pv <= 0 -> self_consumption_rate t == 0) /\
  (0 < load ->
   self_sufficiency t = Some (Py.round ((1 - imp / load) * 100) 1)) /\
  (load <= 0 -> self_sufficiency t = None) /\
  (imp <= load -> 0 <= self_consumption_rate t).
Proof.
  intro Hin. apply monthly_totals_In in Hin. subst t. cbv zeta.
  unfold month_totals_of.
  cbn [self_consumed self_consumption_rate self_sufficiency].
  set (mrows := rows_of_month rows m).
  set (load := Py.sum (map Load_kWh mrows)).
  set (imp := Py.sum (map Grid_Import_kWh mrows)).
  set (pv := Py.sum (map PV_Energy_kWh mrows)).
  split; [reflexivity|]. split; [apply round1_bound|].
  split; [intro H; apply ltb_lt in H; now rewrite H|].
  split; [intro H; apply ltb_ge in H; rewrite H; apply round_zero|].
  split; [intro H; apply ltb_lt in H; now rewrite H|].
  split; [intro H; apply ltb_ge in H; now rewrite H|].
  intro Hle. destruct (Py.ltb 0 pv) eqn:E.
  - apply ltb_lt in E. apply round_nonneg.
    apply Qmult_le_0_compat; [|lra].
    apply Qle_shift_div_l; lra.
  - rewrite round_zero. lra.
Qed.

(** The theorem at a month made of one midday hour: 2 kWh of PV, 2 kWh of
    load, 0.5 kWh imported. *)
Lemma monthly_totals_ratios_witness :
  let t := month_totals_of [enrich midday_row] in
  self_consumed t == 15 # 10 /\ self_consumption_rate t == 75 /\
  self_sufficiency t = Some (Py.round 75 1) /\ 0 <= self_consumption_rate t.
Proof.
  cbv zeta.
  destruct (monthly_totals_ratios [enrich midday_row] "2026-01"
              (month_totals_of [enrich midday_row]))
    as (Hsc & _ & Hrate & _ & Hss & _ & Hpos).
  - left. reflexivity.
  - split; [rewrite Hsc; reflexivity|].
    split; [rewrite Hrate; reflexivity|].
    split; [rewrite Hss; reflexivity|].
    apply Hpos. vm_compute. discriminate.
Defined.

(** C3 as stated fails where the month imports more than it consumes: an
    hour that charges the battery from the grid has a negative
    [self_consumed] and, with PV present, a negative
    [self_consumption_rate]. *)
Lemma monthly_totals_negative_rate_counterexample :
  exists t,
    compute_monthly_totals [enrich grid_charging_row] = [("2026-01"%string, t)] /\
    self_consumed t == - (8 # 10) /\
    self_consumption_rate t == - 80 /\
    ~ 0 <= self_consumption_rate t.
Proof.
  eexists. split; [reflexivity|].
  split; [reflexivity|]. split; [reflexivity|].
  vm_compute. intro H. apply H. reflexivity.
Qed.

(** ** Days and full days *)

Lemma rows_of_day_In (rows : list row) (day : string) :
  rows_of_day rows day <> [] -> In day (all_days rows).
Proof.
  intro Hne. unfold all_days. rewrite distinct_keys_In.
  destruct (in_dec string_dec day (map row_day rows)) as [|Hn]; [assumption|].
  exfalso. apply Hne. unfold rows_of_day.
  exact (rows_of_absent row_day rows day Hn).
Qed.

Lemma full_days_In (rows : list row) (day : string) :
  In day (full_days rows) <-> is_full_day rows day = true.
Proof.
  unfold full_days. rewrite filter_In. split; [tauto|].
  intro Hfull. split; [|assumption].
  apply rows_of_day_In. intro E. unfold is_full_day in Hfull.
  rewrite E in Hfull. discriminate.
Qed.

Lemma full_days_NoDup (rows : list row) : NoDup (full_days rows).
Proof. apply NoDup_filter, distinct_keys_NoDup. Qed.

(** [by_day] lists every calendar day with its records. *)
Lemma by_day_spec (rows : list row) :
  group_by rows row_day
  = map (fun d => (d, rows_of_day rows d)) (all_days rows).
Proof. apply group_by_spec. Qed.

(** [daily_loads] has one entry per full day: its total load. *)
Lemma daily_loads_spec (rows : list row) :
  daily_loads_of (group_by rows row_day)
  = map (fun d => (d, day_load rows d)) (full_days rows).
Proof.
  rewrite by_day_spec. unfold full_days, daily_loads_of.
  induction (all_days rows) as [|d ds IH]; [reflexivity|].
  cbn [map flat_map filter]. rewrite IH.
  unfold is_full_day at 2. destruct (20 <? _); reflexivity.
Qed.

Lemma lookup_map_keys {B} (g : string -> B) (ks : list string) (k : string) :
  lookup k (map (fun d => (d, g d)) ks) = if mem k ks then Some (g k) else None.
Proof.
  induction ks as [|d ds IH]; [reflexivity|].
  cbn [map lookup mem existsb]. rewrite (String.eqb_sym k d).
  destruct (String.eqb_spec d k) as [->|_]; [reflexivity|].
  cbn [orb]. exact IH.
Qed.

(** The two day sets [detect_ev_days] returns, read off [daily_loads]. *)
Lemma detect_ev_days_sets (rows : list row) :
  let avg := avg_full_day_load rows in
  let thr := ev_threshold avg in
  let loads := map (fun d => (d, day_load rows d)) (full_days rows) in
  fst (fst (detect_ev_days rows))
  = map fst (filter (fun dl => Py.ltb (avg + thr) (snd dl)) loads) /\
  snd (fst (detect_ev_days rows))
  = map fst (filter (fun dl => negb (Py.ltb (avg + thr) (snd dl))) loads).
Proof.
  cbv zeta. unfold detect_ev_days, avg_full_day_load.
  rewrite daily_loads_spec.
  destruct (full_days rows) as [|d ds] eqn:E; [split; reflexivity|].
  rewrite <- E. rewrite map_map. cbn [snd].
  destruct (map _ (full_days rows)) eqn:E'.
  - rewrite E in E'. discriminate.
  - rewrite <- E'. cbn [fst snd]. split; reflexivity.
Qed.

Lemma In_map_fst_filter (rows : list row) (p : Q -> bool) (day : string) :
  In day (map fst (filter (fun dl => p (snd dl))
                          (map (fun d => (d, day_load rows d)) (full_days rows))))
  <-> is_full_day rows day = true /\ p (day_load rows day) = true.
Proof.
  rewrite in_map_iff. split.
  - intros ([d v] & E & Hin). cbn in E. subst d.
    apply filter_In in Hin. destruct Hin as [Hin Hp].
    apply in_map_iff in Hin. destruct Hin as (d & E & Hd).
    injection E as -> <-. cbn in Hp.
    split; [now apply full_days_In | assumption].
  - intros [Hfull Hp]. exists (day, day_load rows day).
    split; [reflexivity|]. apply filter_In. split; [|assumption].
    apply in_map_iff. exists day. split; [reflexivity|].
    now apply full_days_In.
Qed.

(** ** EV-day classification (C5) *)

Lemma ev_threshold_spec (avg : Q) :
  8 <= ev_threshold avg /\ avg * (3 # 10) <= ev_threshold avg /\
  (ev_threshold avg == 8 \/ ev_threshold avg == avg * (3 # 10)).
Proof.
  unfold ev_threshold.
  destruct (max_spec 8 (avg * (3 # 10))) as [[H ->] | [H ->]].
  - split; [lra|]. split; [lra|]. right. reflexivity.
  - split; [lra|]. split; [lra|]. left. reflexivity.
Qed.

(** With EV detection disabled, [main] takes the full days as non-EV. *)
Lemma main_all_days (rows : list row) :
  map fst (filter (fun dr : string * list row => 20 <? List.length (snd dr))
                  (group_by rows row_day))
  = full_days rows.
Proof.
  rewrite by_day_spec. unfold full_days.
  induction (all_days rows) as [|d ds IH]; [reflexivity|].
  cbn [map filter snd]. unfold is_full_day at 1.
  destruct (20 <? _); cbn [map fst]; now rewrite IH.
Qed.

(** Membership in the two day sets of the classifier. *)
Lemma ev_days_iff (rows : list row) (day : string) :
  In day (fst (fst (detect_ev_days rows)))
  <-> is_full_day rows day = true /\
      avg_full_day_load rows + ev_threshold (avg_full_day_load rows)
      < day_load rows day.
Proof.
  destruct (detect_ev_days_sets rows) as [Hev _]. rewrite Hev.
  rewrite (In_map_fst_filter rows
             (Py.ltb (avg_full_day_load rows
                      + ev_threshold (avg_full_day_load rows)))).
  now rewrite ltb_lt.
Qed.

Lemma non_ev_days_iff (rows : list row) (day : string) :
  In day (snd (fst (detect_ev_days rows)))
  <-> is_full_day rows day = true /\
      day_load rows day
      <= avg_full_day_load rows + ev_threshold (avg_full_day_load rows).
Proof.
  destruct (detect_ev_days_sets rows) as [_ Hnon]. rewrite Hnon.
  rewrite (In_map_fst_filter rows
             (fun v => negb (Py.ltb (avg_full_day_load rows
                                     + ev_threshold (avg_full_day_load rows))
                                    v))).
  now rewrite negb_true_iff, ltb_ge.
Qed.

Lemma main_disabled_non_ev (rows : list row) (day : string) :
  In day (snd (fst (main_ev_detection false rows)))
  <-> is_full_day rows day = true.
Proof.
  unfold main_ev_detection. cbn [fst snd].
  rewrite main_all_days. apply full_days_In.
Qed.

(** C5, as the code has it.  With [avg_load] the mean of the total loads of
    the full days and [threshold = max(8, 0.3 * avg_load)], the classifier
    puts a day in the EV set exactly when it is a full day whose load
    exceeds [avg_load + threshold], and in the non-EV set exactly when it
    is a full day whose load does not.  With EV detection disabled the EV
    set is empty, the non-EV set is the set of full days and the summary
    reports an EV count of 0.  With no full day the classifier returns two
    empty sets and an empty summary, and the disabled path two empty sets
    and a summary whose three counts are 0. *)
Theorem ev_classification (rows : list row) :
  let avg := avg_full_day_load rows in
  let thr := ev_threshold avg in
  (8 <= thr /\ avg * (3 # 10) <= thr /\ (thr == 8 \/ thr == avg * (3 # 10))) /\
  (forall day,
      In day (fst (fst (detect_ev_days rows)))
      <-> is_full_day rows day = true /\ avg + thr < day_load rows day) /\
  (forall day,
      In day (snd (fst (detect_ev_days rows)))
      <-> is_full_day rows day = true /\ day_load rows day <= avg + thr) /\
  main_ev_detection true rows = detect_ev_days rows /\
  fst (fst (main_ev_detection false rows)) = [] /\
  (forall day,
      In day (snd (fst (main_ev_detection false rows)))
      <-> is_full_day rows day = true) /\
  lookup "ev_day_count" (snd (main_ev_detection false rows)) = Some (JInt 0) /\
  (full_days rows = [] ->
   detect_ev_days rows = ([], [], []) /\
   main_ev_detection false rows
   = ([], [],
      [ ("ev_day_count", JInt 0); ("non_ev_day_count", JInt 0);
        ("total_full_days", JInt 0) ]%string)).
Proof.
  cbv zeta.
  split; [apply ev_threshold_spec|].
  split; [intro day; apply ev_days_iff|].
  split; [intro day; apply non_ev_days_iff|].
  split; [reflexivity|].
  split; [reflexivity|].
  split; [intro day; apply main_disabled_non_ev|].
  split; [reflexivity|].
  intro Hnone. split.
  - unfold detect_ev_days. rewrite daily_loads_spec, Hnone. reflexivity.
  - unfold main_ev_detection. rewrite main_all_days, Hnone. reflexivity.
Qed.

(** The theorem at ten hours of one day (no full day), and at three full
    days of which the third carries four times the load of the others. *)
Lemma ev_classification_witness :
  detect_ev_days short_rows = ([], [], []) /\
  In "2026-01-03"%string (fst (fst (detect_ev_days three_days))) /\
  In "2026-01-01"%string (snd (fst (detect_ev_days three_days))).
Proof.
  split; [|split].
  - destruct (ev_classification short_rows) as (_ & _ & _ & _ & _ & _ & _ & H).
    apply H. reflexivity.
  - destruct (ev_classification three_days) as (_ & H & _).
    apply H. split; vm_compute; reflexivity.
  - destruct (ev_classification three_days) as (_ & _ & H & _).
    apply H. split; vm_compute; [reflexivity | discriminate].
Defined.

(** C5 as stated fails in its last part: with no full day the classifier
    returns the empty dictionary as its summary, which reports no count at
    all, not counts of zero. *)
Lemma ev_no_full_day_summary_counterexample :
  full_days short_rows = [] /\
  detect_ev_days short_rows = ([], [], []) /\
  lookup "ev_day_count" (snd (detect_ev_days short_rows)) = None /\
  lookup "non_ev_day_count" (snd (detect_ev_days short_rows)) = None /\
  lookup "total_full_days" (snd (detect_ev_days short_rows)) = None /\
  lookup "ev_day_count" (snd (detect_ev_days short_rows)) <> Some (JInt 0).
Proof.
  split; [reflexivity|]. split; [reflexivity|]. split; [reflexivity|].
  split; [reflexivity|]. split; [reflexivity|]. discriminate.
Qed.

(** ** The classifier on particular inputs (C8) *)

Lemma len_cons {A} (x : A) (l : list A) : Py.len (x :: l) == 1 + Py.len l.
Proof.
  unfold Py.len. cbn [List.length]. rewrite Nat2Z.inj_succ.
  unfold Z.succ. rewrite inject_Z_plus. change (inject_Z 1) with 1. lra.
Qed.

Lemma len_nonneg {A} (l : list A) : 0 <= Py.len l.
Proof.
  unfold Py.len. change 0 with (inject_Z 0). rewrite <- Zle_Qle. lia.
Qed.

Lemma sum_all_equal (l : list Q) (c : Q) :
  (forall x, In x l -> x == c) -> Py.sum l == Py.len l * c.
Proof.
  induction l as [|x l IH]; intro H.
  - change (0 == 0 * c). ring.
  - rewrite sum_cons, len_cons, IH by (intros y Hy; apply H; now right).
    rewrite (H x) by now left. ring.
Qed.

Lemma mean_nonempty (l : list Q) :
  l <> [] -> mean l = Py.sum l / Py.len l.
Proof. destruct l; [congruence | reflexivity]. Qed.

Lemma mean_all_equal (l : list Q) (c : Q) :
  l <> [] -> (forall x, In x l -> x == c) -> mean l == c.
Proof.
  intros Hne H. rewrite (mean_nonempty l Hne), (sum_all_equal l c H).
  assert (0 < Py.len l).
  { destruct l as [|x l]; [congruence|]. rewrite len_cons.
    pose proof (len_nonneg l). lra. }
  field. lra.
Qed.

Lemma filter_none {A} (p : A -> bool) (l : list A) :
  (forall x, In x l -> p x = false) -> filter p l = [].
Proof.
  induction l as [|x l IH]; intro H; [reflexivity|]. cbn [filter].
  rewrite (H x) by now left. apply IH. intros y Hy. apply H. now right.
Qed.

(** A day at twice the mean of the other full days, against the
    threshold: plain arithmetic of the classifier's test. *)
Lemma doubled_other_days_arith (avg thr a n x : Q) :
  9 <= n -> avg * n == a * n + a -> x == 2 * a ->
  8 <= thr -> avg * (3 # 10) <= thr -> (thr == 8 \/ thr == avg * (3 # 10)) ->
  (avg + thr < x <-> 8 * n < a * (n - 1)).
Proof.
  intros Hn Havg Hx H8 H3 Hthr. split; intro H.
  - assert (H1 : (avg + thr) * n < x * n) by (apply Qmult_lt_compat_r; lra).
    assert (H2 : 8 * n <= thr * n) by (apply Qmult_le_compat_r; lra).
    rewrite Hx in H1. nra.
  - assert (Ha : 0 < a).
    { destruct (Qlt_le_dec 0 a) as [|Hle]; [assumption|]. exfalso.
      assert (0 <= (- a) * (n - 1)) by (apply Qmult_le_0_compat; lra). nra. }
    assert (Han : 0 <= a * (n - 9)) by (apply Qmult_le_0_compat; lra).
    apply (Qmult_lt_r _ _ n); [lra|]. rewrite Hx.
    destruct Hthr as [E|E]; rewrite E; nra.
Qed.

(** C8, as the code has it.  When all full days have the same total load,
    no day is classified EV.  A full day whose load is twice the average
    daily load of the full days is classified EV exactly when that average
    exceeds 8 kWh, the floor of the threshold.  Read with the average of
    the other days instead: among at least 9 full days, a day whose load
    is twice the mean [a] of the other [n - 1] full days is classified EV
    exactly when [a * (n - 1) > 8 * n], which holds whenever [a > 9]. *)
Theorem ev_identical_and_doubled (rows : list row) :
  let ev := fst (fst (detect_ev_days rows)) in
  (forall c,
      (forall day, In day (full_days rows) -> day_load rows day == c) ->
      ev = []) /\
  (forall day,
      is_full_day rows day = true ->
      day_load rows day == 2 * avg_full_day_load rows ->
      (In day ev <-> 8 < avg_full_day_load rows)) /\
  (forall day,
      is_full_day rows day = true ->
      9 <= Py.len (full_days rows) ->
      day_load rows day == 2 * avg_other_days_load rows day ->
      (In day ev
       <-> 8 * Py.len (full_days rows)
           < avg_other_days_load rows day * (Py.len (full_days rows) - 1)) /\
      (9 < avg_other_days_load rows day -> In day ev)).
Proof.
  cbv zeta.
  pose proof (ev_threshold_spec (avg_full_day_load rows)) as Hthr.
  pose proof (ev_days_iff rows) as Hev.
  set (avg := avg_full_day_load rows) in *.
  set (thr := ev_threshold avg) in *.
  split; [|split].
  - intros c Hc. destruct (detect_ev_days_sets rows) as [E _].
    cbv zeta in E. rewrite E. fold avg. fold thr.
    rewrite filter_none; [reflexivity|].
    intros [d v] Hin. cbn [snd]. apply ltb_ge.
    apply in_map_iff in Hin. destruct Hin as (d' & Ed & Hd).
    injection Ed as -> <-.
    assert (Havg : avg == c).
    { unfold avg, avg_full_day_load. apply mean_all_equal.
      - destruct (full_days rows); [contradiction | discriminate].
      - intros x Hx. apply in_map_iff in Hx.
        destruct Hx as (d' & <- & Hd'). now apply Hc. }
    rewrite (Hc d Hd), Havg. lra.
  - intros day Hfull Hdouble. rewrite Hev, Hdouble. fold avg.
    split.
    + intros [_ H]. lra.
    + intro H. split; [assumption|].
      destruct Hthr as (_ & _ & [E | E]); rewrite E; lra.
  - intros day Hfull Hn Hdouble.
    set (n := Py.len (full_days rows)) in *.
    set (a := avg_other_days_load rows day) in *.
    assert (Havg : avg * n == a * n + a).
    { assert (Hne : map (day_load rows) (full_days rows) <> []).
      { intro E. apply map_eq_nil in E. unfold n in Hn. rewrite E in Hn.
        vm_compute in Hn. apply Hn. reflexivity. }
      assert (Ea : a * (n - 1)
                   == Py.sum (map (day_load rows) (full_days rows))
                      - day_load rows day).
      { unfold a, avg_other_days_load. fold n. field. lra. }
      assert (Eavg : avg * n == Py.sum (map (day_load rows) (full_days rows))).
      { unfold avg, avg_full_day_load. rewrite (mean_nonempty _ Hne).
        unfold Py.len. rewrite length_map. fold (Py.len (full_days rows)).
        fold n. field. lra. }
      rewrite Eavg. rewrite Hdouble in Ea. lra. }
    assert (Hiff : In day (fst (fst (detect_ev_days rows)))
                   <-> 8 * n < a * (n - 1)).
    { rewrite Hev.
      rewrite (doubled_other_days_arith avg thr a n (day_load rows day)
                 Hn Havg Hdouble (proj1 Hthr) (proj1 (proj2 Hthr))
                 (proj2 (proj2 Hthr))).
      tauto. }
    split; [exact Hiff|].
    intro H9. apply Hiff.
    assert (0 <= (a - 9) * (n - 9)) by (apply Qmult_le_0_compat; lra).
    nra.
Qed.

(** The theorem at two identical full days, at eight days of 21 kWh
    followed by one of 48 kWh (twice the average of the nine), and at
    eight days of 21 kWh followed by one of 42 kWh (twice the average of
    the other eight). *)
Lemma ev_identical_and_doubled_witness :
  fst (fst (detect_ev_days identical_days)) = [] /\
  In "2026-01-09"%string (fst (fst (detect_ev_days doubled_day_high))) /\
  In "2026-01-09"%string (fst (fst (detect_ev_days doubled_day_others_high))).
Proof.
  split; [|split].
  - destruct (ev_identical_and_doubled identical_days) as (H & _).
    apply (H (21 # 2)). intros day Hday. vm_compute in Hday.
    destruct Hday as [<- | [<- | []]]; vm_compute; reflexivity.
  - destruct (ev_identical_and_doubled doubled_day_high) as (_ & H & _).
    apply (H "2026-01-09"%string).
    + vm_compute. reflexivity.
    + vm_compute. reflexivity.
    + vm_compute. reflexivity.
  - destruct (ev_identical_and_doubled doubled_day_others_high) as (_ & _ & H).
    destruct (H "2026-01-09"%string) as [_ H9].
    + vm_compute. reflexivity.
    + vm_compute. discriminate.
    + vm_compute. reflexivity.
    + apply H9. vm_compute. reflexivity.
Defined.

(** C8 as stated fails in its second part for a household of low
    consumption.  Eight full days of 7 kWh and a ninth of 16 kWh, twice
    the average of the nine: the average is 8 kWh, the threshold is its
    floor of 8 kWh and 16 > 8 + 8 fails.  Eight full days of 5.25 kWh and
    a ninth of 10.5 kWh, twice the average of the other eight:
    10.5 > 5.83 + 8 fails.  In both inputs no day is classified EV.  The
    hourly loads of both inputs (0.25, 0.5, 2 and 6 kWh) and the daily
    totals and averages of the first are binary fractions, which the
    floats of the script compute without error. *)
Lemma ev_doubled_day_counterexample :
  (List.length (full_days doubled_day_low) = 9%nat /\
   is_full_day doubled_day_low "2026-01-09" = true /\
   day_load doubled_day_low "2026-01-01" == 7 /\
   day_load doubled_day_low "2026-01-09" == 16 /\
   avg_full_day_load doubled_day_low == 8 /\
   day_load doubled_day_low "2026-01-09"
   == 2 * avg_full_day_load doubled_day_low /\
   fst (fst (detect_ev_days doubled_day_low)) = []) /\
  (List.length (full_days doubled_day_others) = 9%nat /\
   is_full_day doubled_day_others "2026-01-09" = true /\
   day_load doubled_day_others "2026-01-09"
   == 2 * avg_other_days_load doubled_day_others "2026-01-09" /\
   fst (fst (detect_ev_days doubled_day_others)) = []).
Proof.
  split.
  - repeat (split; [vm_compute; reflexivity|]). vm_compute. reflexivity.
  - repeat (split; [vm_compute; reflexivity|]). vm_compute. reflexivity.
Qed.

(** ** Full days and partial days (C2) *)

Lemma filter_key_filter {A} (f : A -> string) (g : string -> bool)
      (k : string) (l : list A) :
  filter (fun r => String.eqb (f r) k) (filter (fun r => g (f r)) l)
  = if g k then filter (fun r => String.eqb (f r) k) l else [].
Proof.
  induction l as [|r l IH]; cbn [filter].
  - now destruct (g k).
  - destruct (g (f r)) eqn:Eg; cbn [filter];
      destruct (String.eqb_spec (f r) k) as [E|_]; rewrite IH.
    + rewrite <- E, Eg. reflexivity.
    + reflexivity.
    + rewrite <- E, Eg. reflexivity.
    + reflexivity.
Qed.

Lemma rows_of_day_full_rows (rows : list row) (day : string) :
  rows_of_day (full_rows rows) day
  = if is_full_day rows day then rows_of_day rows day else [].
Proof. apply (filter_key_filter row_day (is_full_day rows)). Qed.

Lemma is_full_day_full_rows (rows : list row) (day : string) :
  is_full_day (full_rows rows) day = is_full_day rows day.
Proof.
  unfold is_full_day at 1. rewrite rows_of_day_full_rows.
  destruct (is_full_day rows day) eqn:E; [exact E | reflexivity].
Qed.

Lemma mem_filter (g : string -> bool) (k : string) (l : list string) :
  mem k (filter g l) = g k && mem k l.
Proof.
  induction l as [|x l IH]; cbn [filter mem existsb].
  - now rewrite andb_false_r.
  - destruct (g x) eqn:Eg; cbn [mem existsb];
      fold (mem k (filter g l)); fold (mem k l); rewrite IH.
    + destruct (String.eqb_spec k x) as [->|_].
      * now rewrite Eg.
      * reflexivity.
    + destruct (String.eqb_spec k x) as [->|_].
      * now rewrite Eg.
      * reflexivity.
Qed.

Lemma distinct_keys_filter (g : string -> bool) (l : list string) :
  distinct_keys (filter g l) = filter g (distinct_keys l).
Proof.
  induction l as [|x l IH] using rev_ind; [reflexivity|].
  rewrite filter_app, distinct_keys_snoc. cbn [filter].
  destruct (g x) eqn:Eg.
  - rewrite distinct_keys_snoc, IH, mem_filter, Eg. cbn [andb].
    destruct (mem x (distinct_keys l)); [reflexivity|].
    rewrite filter_app. cbn [filter]. now rewrite Eg.
  - rewrite app_nil_r, IH.
    destruct (mem x (distinct_keys l)); [reflexivity|].
    rewrite filter_app. cbn [filter]. rewrite Eg. now rewrite app_nil_r.
Qed.

Lemma map_filter_key {A} (f : A -> string) (g : string -> bool) (l : list A) :
  map f (filter (fun r => g (f r)) l) = filter g (map f l).
Proof.
  induction l as [|r l IH]; [reflexivity|]. cbn [filter map].
  destruct (g (f r)); cbn [map]; now rewrite IH.
Qed.

Lemma filter_twice {A} (p : A -> bool) (l : list A) :
  filter p (filter p l) = filter p l.
Proof.
  induction l as [|x l IH]; [reflexivity|]. cbn [filter].
  destruct (p x) eqn:E; cbn [filter]; [rewrite E|]; now rewrite IH.
Qed.

Lemma all_days_full_rows (rows : list row) :
  all_days (full_rows rows) = full_days rows.
Proof.
  unfold all_days, full_rows, full_days.
  now rewrite (map_filter_key row_day (is_full_day rows)), distinct_keys_filter.
Qed.

Lemma full_days_full_rows (rows : list row) :
  full_days (full_rows rows) = full_days rows.
Proof.
  unfold full_days at 1. rewrite all_days_full_rows.
  rewrite (filter_ext _ _ (is_full_day_full_rows rows)).
  apply filter_twice.
Qed.

Lemma day_load_full_rows (rows : list row) (day : string) :
  is_full_day rows day = true ->
  day_load (full_rows rows) day = day_load rows day.
Proof.
  intro H. unfold day_load. now rewrite rows_of_day_full_rows, H.
Qed.

(** The records of the days that are not full do not reach [daily_loads]. *)
Lemma daily_loads_full_rows (rows : list row) :
  daily_loads_of (group_by (full_rows rows) row_day)
  = daily_loads_of (group_by rows row_day).
Proof.
  rewrite !daily_loads_spec, full_days_full_rows.
  apply map_ext_in. intros d Hd. apply full_days_In in Hd.
  now rewrite day_load_full_rows.
Qed.

Lemma detect_ev_days_full_rows (rows : list row) :
  detect_ev_days (full_rows rows) = detect_ev_days rows.
Proof. unfold detect_ev_days. now rewrite daily_loads_full_rows. Qed.

Lemma main_ev_detection_full_rows (has_ev : bool) (rows : list row) :
  main_ev_detection has_ev (full_rows rows) = main_ev_detection has_ev rows.
Proof.
  unfold main_ev_detection. destruct has_ev.
  - apply detect_ev_days_full_rows.
  - now rewrite !main_all_days, full_days_full_rows.
Qed.

Lemma non_ev_loads_full_rows (rows : list row) (non_ev_days : list string) :
  non_ev_loads (full_rows rows) non_ev_days = non_ev_loads rows non_ev_days.
Proof.
  unfold non_ev_loads. apply flat_map_ext. intro d.
  rewrite !by_day_spec, !lookup_map_keys, all_days_full_rows.
  rewrite rows_of_day_full_rows.
  destruct (is_full_day rows d) eqn:Efull.
  - assert (H1 : mem d (full_days rows) = true)
      by now apply mem_In, full_days_In.
    assert (H2 : mem d (all_days rows) = true).
    { apply mem_In. apply full_days_In in Efull.
      unfold full_days in Efull. now apply filter_In in Efull. }
    now rewrite H1, H2.
  - assert (H1 : mem d (full_days rows) = false).
    { apply mem_false. rewrite full_days_In. congruence. }
    rewrite H1. unfold is_full_day in Efull.
    destruct (mem d (all_days rows)); [now rewrite Efull | reflexivity].
Qed.

(** [daily_pv] of the sizing section has an entry for every calendar day. *)
Lemma daily_pv_spec (rows : list row) :
  daily_pv_of (group_by rows row_day) = map (day_pv rows) (all_days rows).
Proof.
  rewrite by_day_spec. unfold daily_pv_of. now rewrite map_map.
Qed.

Lemma anomaly_daily_pv_get (rows : list row) (d : string) :
  dict_get d (anomaly_daily_pv (group_by rows row_day)) = day_pv rows d.
Proof.
  rewrite by_day_spec. unfold anomaly_daily_pv, dict_get.
  rewrite map_map.
  rewrite (lookup_map_keys (fun d => Py.sum (map PV_Energy_kWh (rows_of_day rows d)))).
  destruct (mem d (all_days rows)) eqn:E; [reflexivity|].
  apply mem_false in E. unfold day_pv.
  assert (Hnil : rows_of_day rows d = []).
  { destruct (rows_of_day rows d) eqn:Er; [reflexivity|].
    exfalso. apply E. apply rows_of_day_In. rewrite Er. discriminate. }
  now rewrite Hnil.
Qed.

Lemma sizing_avg_daily_pv (rows : list row) (pv_kwp inverter_kw : Q)
      (non_ev_days ev_days : list string) (s : sizing) :
  compute_system_sizing rows pv_kwp inverter_kw non_ev_days ev_days = Some s ->
  let avg := mean (map (day_pv rows) (all_days rows)) in
  sz_avg_daily_pv s = Py.round avg 2 /\
  sz_peak_sun_hours s = Py.round (avg / pv_kwp) 2 /\
  sz_capacity_factor s = Py.round (avg / (pv_kwp * 24) * 100) 1.
Proof.
  unfold compute_system_sizing. rewrite daily_pv_spec.
  destruct (Qeq_bool pv_kwp 0); [discriminate|].
  destruct (max_of (map Avg_PV_W rows)); [|discriminate].
  destruct (Qeq_bool inverter_kw 0); [discriminate|].
  intro E. injection E as <-. cbv zeta.
  cbn [sz_avg_daily_pv sz_peak_sun_hours sz_capacity_factor].
  repeat split.
Qed.

(** C2, as the code has it.  The records of the days with 20 or fewer
    hourly records do not reach the EV/non-EV classification (enabled or
    disabled) nor the sample of the load-anomaly detector: both are the
    same on the input and on the input without those records, and such a
    day is in neither day set.  The system-sizing averages and the
    rolling-mean baseline of the PV detector are taken over every calendar
    day present, full or not. *)
Theorem full_day_exclusion (rows : list row) :
  (forall has_ev,
      main_ev_detection has_ev (full_rows rows) = main_ev_detection has_ev rows) /\
  (forall has_ev day,
      is_full_day rows day = false ->
      ~ In day (fst (fst (main_ev_detection has_ev rows))) /\
      ~ In day (snd (fst (main_ev_detection has_ev rows)))) /\
  (forall non_ev_days,
      non_ev_loads (full_rows rows) non_ev_days = non_ev_loads rows non_ev_days) /\
  (forall pv_kwp inverter_kw non_ev_days ev_days s,
      compute_system_sizing rows pv_kwp inverter_kw non_ev_days ev_days = Some s ->
      let avg := mean (map (day_pv rows) (all_days rows)) in
      sz_avg_daily_pv s = Py.round avg 2 /\
      sz_peak_sun_hours s = Py.round (avg / pv_kwp) 2 /\
      sz_capacity_factor s = Py.round (avg / (pv_kwp * 24) * 100) 1) /\
  (forall i,
      pv_ref_mean (anomaly_daily_pv (group_by rows row_day))
                  (sorted_keys (all_days rows)) i
      = mean (map (day_pv rows)
                  (pv_window_days (sorted_keys (all_days rows)) i))).
Proof.
  split; [intro; apply main_ev_detection_full_rows|].
  split.
  { intros has_ev day Hpartial.
    destruct has_ev.
    - change (main_ev_detection true rows) with (detect_ev_days rows).
      rewrite ev_days_iff, non_ev_days_iff. split; intros [H _]; congruence.
    - rewrite main_disabled_non_ev. split; [intros [] | congruence]. }
  split; [intro; apply non_ev_loads_full_rows|].
  split; [intros; now apply (sizing_avg_daily_pv rows pv_kwp inverter_kw
                               non_ev_days ev_days)|].
  intro i. unfold pv_ref_mean. f_equal. apply map_ext.
  intro d. apply anomaly_daily_pv_get.
Qed.

(** The theorem at four full days and one day with a single record: the
    partial day is in neither day set, and the sizing average counts it. *)
Lemma full_day_exclusion_witness :
  ~ In "2026-01-02"%string
       (snd (fst (main_ev_detection false days_with_partial))) /\
  exists s,
    compute_system_sizing days_with_partial 5 5 [] [] = Some s /\
    sz_avg_daily_pv s
    = Py.round (mean (map (day_pv days_with_partial)
                          (all_days days_with_partial))) 2.
Proof.
  destruct (full_day_exclusion days_with_partial) as (_ & Hout & _ & Hsz & _).
  split.
  - apply (Hout false "2026-01-02"%string). vm_compute. reflexivity.
  - destruct (compute_system_sizing days_with_partial 5 5 [] []) as [s|] eqn:E.
    + exists s. split; [reflexivity|].
      apply (Hsz 5 5 [] [] s E).
    + vm_compute in E. discriminate.
Defined.

(** C2 as stated fails for system sizing and for the PV baseline.  With
    four full days of 21, 21, 21 and 12 kWh of PV and a one-record day of
    1 kWh, the sizing section reports an average daily PV of 15.2 kWh, the
    mean over all five days, where the four full days alone give 18.75;
    and the one-record day lowers the rolling mean enough to hide the
    12 kWh day, which is flagged once the partial day's record is
    removed. *)
Lemma partial_day_counts_counterexample :
  is_full_day days_with_partial "2026-01-02" = false /\
  (exists s s',
      compute_system_sizing days_with_partial 5 5 [] [] = Some s /\
      compute_system_sizing (full_rows days_with_partial) 5 5 [] [] = Some s' /\
      sz_avg_daily_pv s == 152 # 10 /\
      sz_avg_daily_pv s' == 1875 # 100 /\
      ~ sz_peak_sun_hours s == sz_peak_sun_hours s' /\
      ~ sz_capacity_factor s == sz_capacity_factor s') /\
  pv_anomalies days_with_partial = [] /\
  map pa_date (pv_anomalies (full_rows days_with_partial))
  = ["2026-01-05"%string].
Proof.
  split; [vm_compute; reflexivity|].
  split.
  - eexists. eexists.
    split; [vm_compute; reflexivity|].
    split; [vm_compute; reflexivity|].
    cbn [sz_avg_daily_pv sz_peak_sun_hours sz_capacity_factor].
    split; [reflexivity|]. split; [reflexivity|].
    split; intro H; vm_compute in H; discriminate.
  - split; vm_compute; reflexivity.
Qed.

(** ** Bill impact under a flat tariff (C6) *)

Lemma monthly_bill_In (rows : list row) (t : tariff) (feedin_ratio : Q)
      (monthly_totals : list (string * month_totals))
      (m : string) (b : month_bill) :
  In (m, b) (bi_monthly (compute_bill_impact rows t feedin_ratio monthly_totals)) ->
  b = month_bill_of t feedin_ratio monthly_totals m (rows_of_month rows m).
Proof.
  unfold compute_bill_impact. cbn [bi_monthly]. rewrite in_map_iff.
  intros ([m' mrows] & E & Hin). injection E as -> <-.
  unfold sorted_items in Hin. apply sorted_In in Hin.
  rewrite group_by_spec, in_map_iff in Hin.
  destruct Hin as (k & E & _). injection E as -> <-. reflexivity.
Qed.

(** C6, as the code has it.  Under a flat tariff of rate [R] and a feed-in
    ratio of 0, for every month of the bill, with [I] the month's total
    grid import and [L] its total load: the bill on import only is
    [I * R] and the one on the load [L * R]; the report gives them rounded
    to whole currency units ([with_solar] within 0.5 of [I * R]), a
    [feedin_credit] of exactly 0, and as [net_savings] the rounding of
    [L * R - I * R]. *)
Theorem flat_tariff_bill (rows : list row) (t : tariff) (feedin_ratio : Q)
        (monthly_totals : list (string * month_totals))
        (m : string) (b : month_bill) :
  tariff_type t = "flat"%string ->
  feedin_ratio == 0 ->
  In (m, b) (bi_monthly (compute_bill_impact rows t feedin_ratio monthly_totals)) ->
  let mrows := rows_of_month rows m in
  let I := Py.sum (map Grid_Import_kWh mrows) in
  let L := Py.sum (map Load_kWh mrows) in
  let R := import_rate t in
  calc_fn t I = I * R /\
  calc_fn t L = L * R /\
  with_solar b = Py.round (I * R) 0 /\
  - (1 # 2) <= with_solar b - I * R <= 1 # 2 /\
  without_solar b = Py.round (L * R) 0 /\
  feedin_credit b == 0 /\
  net_savings b == Py.round (L * R - I * R) 0.
Proof.
  intros Hflat Hfr Hin. apply monthly_bill_In in Hin. subst b. cbv zeta.
  unfold month_bill_of, calc_fn. rewrite Hflat.
  cbn [String.eqb Ascii.eqb Bool.eqb andb].
  cbn [with_solar without_solar feedin_credit net_savings].
  unfold calc_flat.
  split; [reflexivity|]. split; [reflexivity|]. split; [reflexivity|].
  split; [apply round0_bound|]. split; [reflexivity|].
  split.
  - rewrite <- (round_zero 0). apply round_proper; [|reflexivity].
    rewrite Hfr. ring.
  - apply round_proper; [|reflexivity]. rewrite Hfr. ring.
Qed.

(** The theorem at a month of one evening hour importing 1 kWh at 14 a
    kWh: the bill with solar is 14. *)
Lemma flat_tariff_bill_witness :
  let b := month_bill_of (flat_tariff 14) 0 [] "2026-01" [enrich evening_row] in
  with_solar b == 14 /\ feedin_credit b == 0.
Proof.
  cbv zeta.
  destruct (flat_tariff_bill [enrich evening_row] (flat_tariff 14) 0 []
              "2026-01"
              (month_bill_of (flat_tariff 14) 0 [] "2026-01"
                             [enrich evening_row]))
    as (_ & _ & Hw & _ & _ & Hc & _).
  - reflexivity.
  - reflexivity.
  - left. reflexivity.
  - split; [rewrite Hw; reflexivity | exact Hc].
Defined.

(** C6 as stated fails on the reported figure: the report rounds the bill
    to whole currency units.  One imported kWh at a flat rate of 14.3 is
    reported as a [with_solar] of 14, not 14.3. *)
Lemma flat_tariff_rounding_counterexample :
  exists b,
    bi_monthly (compute_bill_impact [enrich evening_row] (flat_tariff (143 # 10))
                                    0 [])
    = [("2026-01"%string, b)] /\
    Py.sum (map Grid_Import_kWh [enrich evening_row]) * (143 # 10) == 143 # 10 /\
    with_solar b == 14 /\
    ~ with_solar b
      == Py.sum (map Grid_Import_kWh [enrich evening_row]) * (143 # 10).
Proof.
  eexists. split; [vm_compute; reflexivity|].
  split; [reflexivity|]. split; [reflexivity|].
  intro H. vm_compute in H. discriminate.
Qed.

(** ** The scan for the deepest non-increasing run (C1) *)

Section Scan.

Variable soc_vals : list Q.

Let n := List.length soc_vals.
Let s (k : nat) : Q := nth k soc_vals 0.

Lemma nonincreasing_le (a b x y : nat) :
  nonincreasing_on soc_vals a b ->
  (a <= x)%nat -> (x <= y)%nat -> (y <= b)%nat ->
  nth y soc_vals 0 <= nth x soc_vals 0.
Proof.
  intros Hrun Hax Hxy Hyb. induction Hxy as [|y Hxy IH].
  - lra.
  - assert (H1 : nth y soc_vals 0 <= nth x soc_vals 0) by (apply IH; lia).
    assert (H2 : nth (y + 1) soc_vals 0 <= nth y soc_vals 0)
      by (apply Hrun; lia).
    replace (S y) with (y + 1)%nat by lia. lra.
Qed.

(** The inner loop stops, at the end of the non-increasing stretch that
    starts at [j]. *)
Lemma extend_run_spec (fuel j : nat) :
  (1 <= fuel)%nat -> (n <= fuel + j)%nat ->
  exists j',
    extend_run fuel soc_vals j = Some j' /\
    (j <= j')%nat /\ ((j < n)%nat -> (j' < n)%nat) /\
    nonincreasing_on soc_vals j j' /\
    ~ ((j' < n - 1)%nat /\ nth (j' + 1) soc_vals 0 <= nth j' soc_vals 0).
Proof.
  revert j. induction fuel as [|fuel IH]; intros j Hfuel Hn; [lia|].
  cbn [extend_run]. fold n.
  destruct ((j <? n - 1) && Py.leb (nth (j + 1) soc_vals 0) (nth j soc_vals 0))
    eqn:E.
  - apply andb_true_iff in E. destruct E as [Hj Hle].
    apply Nat.ltb_lt in Hj. apply leb_le in Hle.
    destruct (IH (j + 1)%nat) as (j' & Hrun & Hjj & Hlt & Hni & Hmax);
      [lia | lia |].
    exists j'. split; [assumption|]. split; [lia|].
    split; [intros _; apply Hlt; lia|]. split; [|assumption].
    intros k Hk. destruct (Nat.eq_dec k j) as [->|Hne]; [assumption|].
    apply Hni. lia.
  - exists j. split; [reflexivity|]. split; [lia|]. split; [tauto|].
    split; [intros k Hk; lia|].
    intros [Hj Hle]. apply Nat.ltb_lt in Hj. apply leb_le in Hle.
    rewrite Hj, Hle in E. discriminate.
Qed.

(** What the outer loop maintains. *)
Let scan_inv (st : scan_state) : Prop :=
  0 <= best_drop st /\
  (0 < best_drop st ->
   (best_start st < best_end st < n)%nat /\
   nonincreasing_on soc_vals (best_start st) (best_end st) /\
   best_drop st == s (best_start st) - s (best_end st)) /\
  (forall a b,
      (a <= b < n)%nat -> nonincreasing_on soc_vals a b ->
      s a - s b <= best_drop st \/
      ((scan_i st <= b)%nat /\ ((a <= scan_i st)%nat -> s a <= s (scan_i st)))).

Lemma scan_runs_spec (fuel : nat) (st : scan_state) :
  (1 <= fuel)%nat -> (n <= fuel + scan_i st)%nat -> scan_inv st ->
  exists st',
    scan_runs fuel soc_vals st = Some st' /\ scan_inv st' /\
    ~ (scan_i st' < n - 1)%nat.
Proof.
  revert st. induction fuel as [|fuel IH]; intros st Hfuel Hn Hinv; [lia|].
  cbn [scan_runs]. fold n.
  destruct (scan_i st <? n - 1) eqn:Ei.
  2:{ exists st. apply Nat.ltb_ge in Ei. split; [reflexivity|].
      split; [assumption | lia]. }
  apply Nat.ltb_lt in Ei.
  destruct Hinv as (Hpos & Hvalid & Hcov).
  set (i := scan_i st) in *.
  destruct (Py.ltb (nth (i + 1) soc_vals 0) (nth i soc_vals 0)) eqn:Edrop.
  - apply ltb_lt in Edrop.
    destruct (extend_run_spec (S n) (i + 1)) as (j & Hj & Hij & Hjn & Hrun & Hmax);
      [lia | lia |].
    fold n in Hj. rewrite Hj.
    assert (Hjlt : (j < n)%nat) by (apply Hjn; lia).
    assert (Hrun' : nonincreasing_on soc_vals i j).
    { intros k Hk. destruct (Nat.eq_dec k i) as [->|Hne]; [lra|].
      apply Hrun. lia. }
    assert (Hcov' : forall bd, best_drop st <= bd -> s i - s j <= bd ->
              forall a b, (a <= b < n)%nat -> nonincreasing_on soc_vals a b ->
                s a - s b <= bd \/ ((j <= b)%nat /\ ((a <= j)%nat -> s a <= s j))).
    { intros bd Hbd Hdrop a b Hab Hnab.
      destruct (Hcov a b Hab Hnab) as [Hle | [Hib Hai]]; [left; lra|].
      destruct (Nat.le_gt_cases b j) as [Hbj | Hbj].
      - left.
        assert (Hsa : s a <= s i).
        { destruct (Nat.le_gt_cases a i) as [Ha | Ha]; [now apply Hai|].
          unfold s. apply (nonincreasing_le i j); [assumption | lia | lia | lia]. }
        assert (Hsb : s j <= s b).
        { unfold s. apply (nonincreasing_le i j); [assumption | lia | lia | lia]. }
        lra.
      - destruct (Nat.le_gt_cases a j) as [Haj | Haj].
        + exfalso. apply Hmax. split; [lia|]. apply Hnab. lia.
        + right. split; [lia | intro; lia]. }
    destruct (Py.ltb (best_drop st) (nth i soc_vals 0 - nth j soc_vals 0))
      eqn:Ebest.
    + apply ltb_lt in Ebest. apply IH; cbn [scan_i]; [lia | lia |].
      split; [cbn [best_drop]; lra|]. split.
      * intros _. cbn [best_start best_end best_drop].
        split; [lia|]. split; [assumption | reflexivity].
      * cbn [best_drop scan_i]. apply Hcov'; unfold s; lra.
    + apply ltb_ge in Ebest. apply IH; cbn [scan_i]; [lia | lia |].
      split; [assumption|]. split; [assumption|].
      cbn [best_drop scan_i]. apply Hcov'; unfold s; lra.
  - apply ltb_ge in Edrop. apply IH; cbn [scan_i]; [lia | lia |].
    split; [assumption|]. split; [assumption|].
    cbn [best_drop scan_i]. intros a b Hab Hnab.
    destruct (Hcov a b Hab Hnab) as [Hle | [Hib Hai]]; [left; assumption|].
    destruct (Nat.eq_dec b i) as [->|Hne].
    + left. assert (s a <= s i) by (apply Hai; lia). lra.
    + right. split; [lia|]. intro Ha.
      destruct (Nat.eq_dec a (i + 1)) as [->|Hne']; [lra|].
      assert (s a <= s i) by (apply Hai; lia). unfold s in *. lra.
Qed.

(** The scan of a day returns, and what it returns is the deepest
    non-increasing run. *)
Lemma deepest_run_spec :
  exists st, deepest_run soc_vals = Some st /\ is_deepest_run soc_vals st.
Proof.
  unfold deepest_run.
  destruct (scan_runs_spec (S n)
              {| scan_i := 0; best_start := 0; best_end := 0; best_drop := 0 |})
    as (st & Hst & (Hpos & Hvalid & Hcov) & Hend).
  - lia.
  - cbn [scan_i]. lia.
  - split; [cbn; lra|]. split; [cbn [best_drop]; intro; lra|].
    intros a b Hab Hnab. right. cbn [scan_i]. split; [lia|].
    intro Ha. replace a with 0%nat by lia. lra.
  - exists st. split; [exact Hst|].
    split; [assumption|]. split; [|exact Hvalid].
    intros a b Hab Hnab. fold n in Hab.
    destruct (Hcov a b Hab Hnab) as [Hle | [Hib Hai]]; [exact Hle|].
    assert (Hb : b = scan_i st) by lia. subst b.
    assert (s a <= s (scan_i st)) by (apply Hai; lia).
    unfold s in *. lra.
Qed.

End Scan.

(** ** [sorted] sorts *)

Section Sorting.

Context {A : Type} (leb : A -> A -> bool).

Hypothesis leb_total : forall a b, leb a b = true \/ leb b a = true.

Let R (a b : A) : Prop := leb a b = true.

Lemma insert_sorted_perm (x : A) (l : list A) :
  Permutation (insert_sorted leb x l) (x :: l).
Proof.
  induction l as [|y l IH]; cbn [insert_sorted]; [reflexivity|].
  destruct (leb y x); [|reflexivity].
  rewrite IH. apply perm_swap.
Qed.

Lemma sorted_fold_perm (l acc : list A) :
  Permutation (fold_left (fun acc x => insert_sorted leb x acc) l acc)
              (acc ++ l).
Proof.
  revert acc. induction l as [|x l IH]; intro acc; cbn [fold_left].
  - now rewrite app_nil_r.
  - rewrite IH, insert_sorted_perm. apply Permutation_middle.
Qed.

Lemma sorted_perm (l : list A) : Permutation (sorted leb l) l.
Proof. unfold sorted. apply (sorted_fold_perm l []). Qed.

Lemma insert_sorted_HdRel (x y : A) (l : list A) :
  R y x -> HdRel R y l -> HdRel R y (insert_sorted leb x l).
Proof.
  intros Hyx Hhd. destruct l as [|z l]; cbn [insert_sorted].
  - now constructor.
  - destruct (leb z x); constructor; [|assumption].
    now inversion Hhd.
Qed.

Lemma insert_sorted_Sorted (x : A) (l : list A) :
  Sorted R l -> Sorted R (insert_sorted leb x l).
Proof.
  induction l as [|y l IH]; intro Hs; cbn [insert_sorted].
  - repeat constructor.
  - inversion Hs as [|? ? Hs' Hhd]; subst.
    destruct (leb y x) eqn:E.
    + constructor; [now apply IH|]. now apply insert_sorted_HdRel.
    + constructor; [assumption|]. constructor.
      destruct (leb_total x y) as [H|H]; [exact H | congruence].
Qed.

Lemma sorted_fold_Sorted (l acc : list A) :
  Sorted R acc ->
  Sorted R (fold_left (fun acc x => insert_sorted leb x acc) l acc).
Proof.
  revert acc. induction l as [|x l IH]; intros acc Hs; cbn [fold_left].
  - assumption.
  - apply IH. now apply insert_sorted_Sorted.
Qed.

Lemma sorted_Sorted (l : list A) :
  Sorted (fun a b => leb a b = true) (sorted leb l).
Proof. unfold sorted. apply sorted_fold_Sorted. constructor. Qed.

End Sorting.

Lemma hour_sorted_spec (drows : list row) :
  Permutation (hour_sorted drows) drows /\
  Sorted (fun a b => String.leb (Hour a) (Hour b) = true) (hour_sorted drows).
Proof.
  unfold hour_sorted. split; [apply sorted_perm|].
  apply (sorted_Sorted (fun a b => String.leb (Hour a) (Hour b))).
  intros a b. apply String.leb_total.
Qed.

Lemma sorted_values_spec (l : list Q) :
  Permutation (sorted Py.leb l) l /\
  Sorted (fun a b => a <= b) (sorted Py.leb l).
Proof.
  split; [apply sorted_perm|].
  assert (H : Sorted (fun a b => Py.leb a b = true) (sorted Py.leb l)).
  { apply sorted_Sorted. intros a b.
    destruct (Qlt_le_dec b a) as [Hlt | Hle].
    - right. apply leb_le. lra.
    - left. now apply leb_le. }
  induction H as [|a s Hs IH Hhd]; constructor; [assumption|].
  destruct Hhd; constructor. now apply leb_le.
Qed.

Lemma median_spec (l : list Q) :
  l <> [] ->
  let s := sorted Py.leb l in
  let k := List.length l in
  (k mod 2 = 1%nat -> median l = nth (k / 2) s 0) /\
  (k mod 2 <> 1%nat -> median l = (nth (k / 2 - 1) s 0 + nth (k / 2) s 0) / 2).
Proof.
  intro Hne. cbv zeta. unfold median.
  destruct l as [|x l]; [congruence|].
  rewrite (Permutation_length (sorted_perm Py.leb (x :: l))).
  split; intro H.
  - apply Nat.eqb_eq in H. now rewrite H.
  - apply Nat.eqb_neq in H. now rewrite H.
Qed.

(** ** Usable capacity (C1) *)

(** What one day contributes to [usable_estimates]. *)
Lemma day_estimates_spec (drows : list row) :
  exists st,
    deepest_run (day_soc drows) = Some st /\
    is_deepest_run (day_soc drows) st /\
    let w :=
      Py.sum (slice (best_start st) (best_end st + 1) (day_discharge drows)) in
    day_estimates drows = Some (day_contribution drows) /\
    (30 < best_drop st -> 0 < w ->
     day_contribution drows = [w / (best_drop st / 100)]) /\
    (best_drop st <= 30 \/ w <= 0 -> day_contribution drows = []).
Proof.
  destruct (deepest_run_spec (day_soc drows)) as (st & Hst & Hdeep).
  exists st. split; [assumption|]. split; [assumption|]. cbv zeta.
  unfold day_contribution, day_estimates.
  fold (hour_sorted drows). fold (day_soc drows). fold (day_discharge drows).
  rewrite Hst.
  set (w := Py.sum (slice (best_start st) (best_end st + 1)
                          (day_discharge drows))).
  destruct (Py.ltb 30 (best_drop st)) eqn:E30.
  - apply ltb_lt in E30.
    assert (E0 : Py.ltb 0 (best_drop st) = true) by (apply ltb_lt; lra).
    rewrite E0. cbn [andb].
    destruct (Py.ltb 0 w) eqn:Ew.
    + split; [reflexivity|]. split; [reflexivity|].
      apply ltb_lt in Ew. intros [H | H]; lra.
    + split; [reflexivity|]. apply ltb_ge in Ew.
      split; [intros; lra | reflexivity].
  - apply ltb_ge in E30. split; [reflexivity|].
    split; [intros; lra | reflexivity].
Qed.

(** The loop over the days returns, with the contributions of the days in
    the order of [by_day]. *)
Lemma usable_estimates_of_spec (by_day : list (string * list row)) :
  usable_estimates_of by_day
  = Some (flat_map (fun dr => day_contribution (snd dr)) by_day).
Proof.
  induction by_day as [|[d drows] by_day IH]; [reflexivity|].
  cbn [usable_estimates_of flat_map snd].
  destruct (day_estimates_spec drows) as (st & _ & _ & Hday & _).
  now rewrite Hday, IH.
Qed.

Lemma usable_estimates_spec (rows : list row) :
  usable_estimates rows
  = Some (flat_map (fun d => day_contribution (rows_of_day rows d))
                   (all_days rows)).
Proof.
  unfold usable_estimates. rewrite usable_estimates_of_spec, by_day_spec.
  f_equal. induction (all_days rows) as [|d ds IH]; [reflexivity|].
  cbn [map flat_map snd]. now rewrite IH.
Qed.

(** C1, as the code has it.  Every calendar day of the input, full or not,
    is scanned in hour order for its deepest contiguous non-increasing run
    of average SOC.  The scan always returns; no non-increasing stretch of
    the day drops by more than its [best_drop], and a positive [best_drop]
    is the drop from [best_start] to [best_end].  A day contributes an
    estimate exactly when the drop exceeds 30 points and the discharge
    energy [w] summed over the hours of the run is positive, and that
    estimate is [w / (best_drop / 100)].  The estimated usable capacity is
    the median of the estimates, taken in the order of the days, and
    [nominal_kwh * 0.9] when there is none; the median is the middle value
    of the estimates in ascending order, or the mean of the two middle
    ones. *)
Theorem battery_usable_capacity (rows : list row) (nominal_kwh : Q) :
  let ests :=
    flat_map (fun d => day_contribution (rows_of_day rows d)) (all_days rows) in
  usable_estimates rows = Some ests /\
  (ests = [] ->
   estimated_usable rows nominal_kwh = Some (nominal_kwh * (9 # 10))) /\
  (ests <> [] -> estimated_usable rows nominal_kwh = Some (median ests)) /\
  (forall drows,
      Permutation (hour_sorted drows) drows /\
      Sorted (fun a b => String.leb (Hour a) (Hour b) = true)
             (hour_sorted drows) /\
      exists st,
        deepest_run (day_soc drows) = Some st /\
        is_deepest_run (day_soc drows) st /\
        let w :=
          Py.sum (slice (best_start st) (best_end st + 1)
                        (day_discharge drows)) in
        (30 < best_drop st -> 0 < w ->
         day_contribution drows = [w / (best_drop st / 100)]) /\
        (best_drop st <= 30 \/ w <= 0 -> day_contribution drows = [])) /\
  (forall l,
      l <> [] ->
      let s := sorted Py.leb l in
      let k := List.length l in
      Permutation s l /\ Sorted (fun a b => a <= b) s /\
      (k mod 2 = 1%nat -> median l = nth (k / 2) s 0) /\
      (k mod 2 <> 1%nat ->
       median l = (nth (k / 2 - 1) s 0 + nth (k / 2) s 0) / 2)).
Proof.
  cbv zeta.
  split; [apply usable_estimates_spec|].
  split.
  { intro E. unfold estimated_usable.
    now rewrite usable_estimates_spec, E. }
  split.
  { intro Hne. unfold estimated_usable. rewrite usable_estimates_spec.
    destruct (flat_map _ (all_days rows)); [congruence | reflexivity]. }
  split.
  { intro drows. destruct (hour_sorted_spec drows) as [Hperm Hsorted].
    split; [assumption|]. split; [assumption|].
    destruct (day_estimates_spec drows) as (st & Hst & Hdeep & _ & Hyes & Hno).
    exists st. split; [assumption|]. split; [assumption|].
    split; assumption. }
  intros l Hne. destruct (sorted_values_spec l) as [Hperm Hsorted].
  split; [assumption|]. split; [assumption|]. now apply median_spec.
Qed.

(** The theorem at a full day that drains from 100% to 40% while
    discharging 0.5 kWh an hour: 10.5 kWh over 60 points give 17.5 kWh;
    and at ten hours of constant SOC, which give the fallback. *)
Lemma battery_usable_capacity_witness :
  (exists v,
      estimated_usable (draining_day "2026-01-01" (1 # 2)) 20 = Some v /\
      v == 35 # 2) /\
  (exists e, day_contribution (draining_day "2026-01-01" (1 # 2)) = [e]) /\
  estimated_usable short_rows 20 = Some (20 * (9 # 10)).
Proof.
  split; [|split].
  - destruct (battery_usable_capacity (draining_day "2026-01-01" (1 # 2)) 20)
      as (_ & _ & Hmed & _).
    eexists. split.
    + apply Hmed. vm_compute. discriminate.
    + vm_compute. reflexivity.
  - destruct (battery_usable_capacity [] 20) as (_ & _ & _ & Hday & _).
    destruct (Hday (draining_day "2026-01-01" (1 # 2)))
      as (_ & _ & st & Hst & _ & Hyes & _).
    vm_compute in Hst. injection Hst as <-.
    eexists. apply Hyes; vm_compute; reflexivity.
  - destruct (battery_usable_capacity short_rows 20) as (_ & Hnone & _).
    apply Hnone. vm_compute. reflexivity.
Defined.

(** C1 as stated fails in two ways.  A day that is not full is scanned like
    any other: two records falling from 90% to 40% with 5 kWh discharged
    give an estimate of 10 kWh, where the claim has no qualifying day and
    the fallback of 18 kWh for a nominal 20.  And a full day whose run
    drops 60 points with no discharge measured contributes no estimate, so
    the fallback is returned where the claim has the estimate 0. *)
Lemma usable_capacity_counterexample :
  (full_days two_hour_drain = [] /\
   exists v, estimated_usable two_hour_drain 20 = Some v /\
             v == 10 /\ ~ v == 20 * (9 # 10)) /\
  (full_days (draining_day "2026-01-01" 0) = ["2026-01-01"%string] /\
   (exists st, deepest_run (day_soc (draining_day "2026-01-01" 0)) = Some st /\
               best_drop st == 60) /\
   usable_estimates (draining_day "2026-01-01" 0) = Some [] /\
   estimated_usable (draining_day "2026-01-01" 0) 20 = Some (20 * (9 # 10))).
Proof.
  split.
  - split; [vm_compute; reflexivity|].
    eexists. split; [vm_compute; reflexivity|].
    split; [reflexivity|]. intro H. vm_compute in H. discriminate.
  - split; [vm_compute; reflexivity|].
    split; [eexists; split; [vm_compute; reflexivity | reflexivity]|].
    split; vm_compute; reflexivity.
Qed.

(** * Further properties of the engine *)

(** ** [group_by] partitions its input *)

Lemma group_append_concat {A} (k : string) (r : A)
      (groups : list (string * list A)) :
  Permutation (List.concat (map snd (group_append k r groups)))
              (List.concat (map snd groups) ++ [r]).
Proof.
  induction groups as [|[k' rs] groups IH]; cbn [group_append map List.concat snd].
  - reflexivity.
  - destruct (String.eqb k' k); cbn [map List.concat snd].
    + now rewrite <- !app_assoc, (Permutation_app_comm [r]).
    + now rewrite IH, app_assoc.
Qed.

Lemma group_by_concat {A} (rows : list A) (key_fn : A -> string) :
  Permutation (List.concat (map snd (group_by rows key_fn))) rows.
Proof.
  induction rows as [|r rows IH] using rev_ind; [reflexivity|].
  now rewrite group_by_snoc, group_append_concat, IH.
Qed.

(** X1.  [group_by] splits the rows into groups without losing or
    repeating any: the keys of the dictionary are distinct, every group is
    non-empty and holds exactly the rows of its key in input order, every
    row is found under its own key, and the groups put together are a
    rearrangement of the input. *)
Theorem group_by_partition {A} (rows : list A) (key_fn : A -> string) :
  NoDup (map fst (group_by rows key_fn)) /\
  (forall k rs,
      In (k, rs) (group_by rows key_fn) ->
      rs <> [] /\ rs = filter (fun r => String.eqb (key_fn r) k) rows) /\
  (forall r,
      In r rows ->
      exists rs, lookup (key_fn r) (group_by rows key_fn) = Some rs /\ In r rs) /\
  Permutation (List.concat (map snd (group_by rows key_fn))) rows.
Proof.
  split; [|split; [|split]].
  - rewrite group_by_spec, map_map. cbn [fst]. rewrite map_id.
    apply distinct_keys_NoDup.
  - intros k rs Hin. rewrite group_by_spec in Hin.
    apply in_map_iff in Hin. destruct Hin as (k' & E & Hk).
    injection E as -> <-. split; [|reflexivity].
    apply distinct_keys_In, in_map_iff in Hk. destruct Hk as (r & <- & Hr).
    intro E. assert (Hin : In r (filter (fun r0 => String.eqb (key_fn r0) (key_fn r)) rows)).
    { apply filter_In. split; [assumption | apply String.eqb_refl]. }
    rewrite E in Hin. destruct Hin.
  - intros r Hr. rewrite group_by_spec.
    rewrite (lookup_map_keys
               (fun k => filter (fun r0 => String.eqb (key_fn r0) k) rows)).
    assert (Hmem : mem (key_fn r) (distinct_keys (map key_fn rows)) = true).
    { apply mem_In, distinct_keys_In, in_map. assumption. }
    rewrite Hmem. eexists. split; [reflexivity|].
    apply filter_In. split; [assumption | apply String.eqb_refl].
  - apply group_by_concat.
Qed.

(** ** [mean] and [median] stay within the data *)

Lemma len_pos {A} (l : list A) : l <> [] -> 0 < Py.len l.
Proof.
  destruct l as [|x l]; [congruence|]. intros _.
  rewrite len_cons. pose proof (len_nonneg l). lra.
Qed.

Lemma sum_bounds (l : list Q) (a b : Q) :
  (forall x, In x l -> a <= x <= b) ->
  Py.len l * a <= Py.sum l <= Py.len l * b.
Proof.
  induction l as [|x l IH]; intro H.
  - change (0 * a <= 0 <= 0 * b). lra.
  - rewrite sum_cons, len_cons.
    assert (Hx : a <= x <= b) by (apply H; now left).
    assert (Hl : Py.len l * a <= Py.sum l <= Py.len l * b)
      by (apply IH; intros y Hy; apply H; now right).
    split; nra.
Qed.

(** X2.  The mean and the median of a non-empty list lie between any two
    bounds of its values; on the empty list both are 0. *)
Theorem mean_median_bounds (l : list Q) (a b : Q) :
  mean [] = 0 /\ median [] = 0 /\
  (l <> [] -> (forall x, In x l -> a <= x <= b) ->
   a <= mean l <= b /\ a <= median l <= b).
Proof.
  split; [reflexivity|]. split; [reflexivity|].
  intros Hne Hb. split.
  - rewrite (mean_nonempty l Hne).
    pose proof (len_pos l Hne) as Hlen.
    pose proof (sum_bounds l a b Hb) as [Hlo Hhi].
    split.
    + apply Qle_shift_div_l; [assumption | lra].
    + apply Qle_shift_div_r; [assumption | lra].
  - assert (Hnth : forall i, (i < List.length l)%nat ->
                             a <= nth i (sorted Py.leb l) 0 <= b).
    { intros i Hi. apply Hb. apply (sorted_In Py.leb).
      apply nth_In.
      now rewrite (Permutation_length (sorted_perm Py.leb l)). }
    assert (Hlen : (0 < List.length l)%nat)
      by (destruct l; [congruence | cbn; lia]).
    destruct (median_spec l Hne) as [Hodd Heven]. cbv zeta in Hodd, Heven.
    destruct (Nat.eq_dec (List.length l mod 2) 1) as [E|E].
    + rewrite (Hodd E). apply Hnth. apply Nat.div_lt; lia.
    + rewrite (Heven E).
      assert (H1 : a <= nth (List.length l / 2 - 1) (sorted Py.leb l) 0 <= b).
      { apply Hnth. pose proof (Nat.div_lt (List.length l) 2). lia. }
      assert (H2 : a <= nth (List.length l / 2) (sorted Py.leb l) 0 <= b).
      { apply Hnth. apply Nat.div_lt; lia. }
      split.
      * apply Qle_shift_div_l; lra.
      * apply Qle_shift_div_r; lra.
Qed.

(** The theorem at the four values 4, 1, 3, 2. *)
Lemma mean_median_bounds_witness :
  1 <= mean [4; 1; 3; 2] <= 4 /\ 1 <= median [4; 1; 3; 2] <= 4.
Proof.
  destruct (mean_median_bounds [4; 1; 3; 2] 1 4) as (_ & _ & H).
  apply H; [discriminate|].
  intros x Hx. cbn in Hx.
  destruct Hx as [<- | [<- | [<- | [<- | []]]]]; split; vm_compute; discriminate.
Defined.

(** ** The classifier partitions the full days *)

Lemma map_fst_filter_keys {B} (g : string -> B) (p : B -> bool)
      (ks : list string) :
  map fst (filter (fun kv => p (snd kv)) (map (fun k => (k, g k)) ks))
  = filter (fun k => p (g k)) ks.
Proof.
  induction ks as [|k ks IH]; [reflexivity|]. cbn [map filter snd].
  destruct (p (g k)); cbn [map fst]; now rewrite IH.
Qed.

Lemma filter_split_length {A} (p : A -> bool) (l : list A) :
  (List.length (filter p l) + List.length (filter (fun x => negb (p x)) l)
   = List.length l)%nat.
Proof.
  induction l as [|x l IH]; [reflexivity|]. cbn [filter].
  destruct (p x); cbn [negb List.length]; lia.
Qed.

Lemma lookup_app {B} (k : string) (d1 d2 : list (string * B)) :
  lookup k (d1 ++ d2)
  = match lookup k d1 with
    | Some v => Some v
    | None => lookup k d2
    end.
Proof.
  induction d1 as [|[k' v] d1 IH]; [reflexivity|]. cbn [app lookup].
  destruct (String.eqb k' k); [reflexivity | exact IH].
Qed.

(** The counts in the summary of a classification with at least one full
    day. *)
Lemma detect_ev_days_counts (rows : list row) :
  full_days rows <> [] ->
  let ev := fst (fst (detect_ev_days rows)) in
  let non_ev := snd (fst (detect_ev_days rows)) in
  let info := snd (detect_ev_days rows) in
  lookup "ev_day_count" info = Some (JInt (List.length ev)) /\
  lookup "non_ev_day_count" info = Some (JInt (List.length non_ev)) /\
  lookup "total_full_days" info
  = Some (JInt (List.length (full_days rows))).
Proof.
  intro Hne. cbv zeta. unfold detect_ev_days. rewrite daily_loads_spec.
  destruct (full_days rows) as [|d ds] eqn:E; [congruence|]. rewrite <- E.
  destruct (map (fun d0 => (d0, day_load rows d0)) (full_days rows)) eqn:E'.
  { rewrite E in E'. discriminate. }
  rewrite <- E'. clear E'.
  set (loads := map (fun d0 => (d0, day_load rows d0)) (full_days rows)).
  set (avg := mean (map snd loads)).
  set (ev := map fst (filter _ loads)).
  set (non_ev := map fst (filter (fun dl => negb _) loads)).
  assert (Hlen : List.length loads = List.length (full_days rows))
    by (unfold loads; apply length_map).
  rewrite <- Hlen.
  destruct ev; destruct non_ev; cbn [fst snd];
    rewrite ?lookup_app; repeat split.
Qed.

(** X3.  The classifier partitions the full days: the EV set and the
    non-EV set have no repeated day and no day in common, a day is in one
    of them exactly when it is a full day, and their sizes add up to the
    number of full days.  With at least one full day the summary reports
    these three counts. *)
Theorem ev_partition (rows : list row) :
  let ev := fst (fst (detect_ev_days rows)) in
  let non_ev := snd (fst (detect_ev_days rows)) in
  let info := snd (detect_ev_days rows) in
  NoDup ev /\ NoDup non_ev /\
  (forall d, ~ (In d ev /\ In d non_ev)) /\
  (forall d, In d ev \/ In d non_ev <-> is_full_day rows d = true) /\
  (List.length ev + List.length non_ev = List.length (full_days rows))%nat /\
  (full_days rows <> [] ->
   lookup "ev_day_count" info = Some (JInt (List.length ev)) /\
   lookup "non_ev_day_count" info = Some (JInt (List.length non_ev)) /\
   lookup "total_full_days" info
   = Some (JInt (List.length ev + List.length non_ev))).
Proof.
  cbv zeta. destruct (detect_ev_days_sets rows) as [Hev Hnon].
  cbv zeta in Hev, Hnon.
  set (avg := avg_full_day_load rows) in *.
  set (thr := ev_threshold avg) in *.
  rewrite (map_fst_filter_keys (day_load rows) (Py.ltb (avg + thr))) in Hev.
  rewrite (map_fst_filter_keys (day_load rows)
             (fun v => negb (Py.ltb (avg + thr) v))) in Hnon.
  assert (Hlen : (List.length (fst (fst (detect_ev_days rows)))
                  + List.length (snd (fst (detect_ev_days rows)))
                  = List.length (full_days rows))%nat).
  { rewrite Hev, Hnon.
    apply (filter_split_length (fun k => Py.ltb (avg + thr) (day_load rows k))). }
  split; [rewrite Hev; apply NoDup_filter, full_days_NoDup|].
  split; [rewrite Hnon; apply NoDup_filter, full_days_NoDup|].
  split.
  { intros d [H1 H2]. rewrite Hev in H1. rewrite Hnon in H2.
    apply filter_In in H1. apply filter_In in H2.
    destruct H1 as [_ H1]. destruct H2 as [_ H2].
    rewrite H1 in H2. discriminate. }
  split.
  { intro d. rewrite Hev, Hnon, !filter_In, !full_days_In.
    destruct (Py.ltb (avg + thr) (day_load rows d)); cbn [negb];
      intuition congruence. }
  split; [exact Hlen|].
  intro Hne. destruct (detect_ev_days_counts rows Hne) as (H1 & H2 & H3).
  cbv zeta in H1, H2, H3. rewrite Hlen. repeat split; assumption.
Qed.

(** The theorem at three full days, one of them an EV day. *)
Lemma ev_partition_witness :
  lookup "total_full_days" (snd (detect_ev_days three_days)) = Some (JInt 3).
Proof.
  destruct (ev_partition three_days) as (_ & _ & _ & _ & _ & H).
  destruct H as (_ & _ & H); [vm_compute; discriminate|].
  rewrite H. vm_compute. reflexivity.
Defined.

(** ** The months of the monthly totals *)

Lemma Sorted_map_fst {B} (l : list (string * B)) :
  Sorted (fun a b => String.leb (fst a) (fst b) = true) l ->
  Sorted (fun a b => String.leb a b = true) (map fst l).
Proof.
  induction 1 as [|a l Hs IH Hhd]; cbn [map]; constructor; [assumption|].
  destruct Hhd; cbn [map]; constructor. assumption.
Qed.

Lemma nodup_length_le (l : list string) :
  (List.length (nodup string_dec l) <= List.length l)%nat.
Proof.
  induction l as [|x l IH]; [apply Nat.le_refl|]. cbn [nodup].
  destruct (in_dec string_dec x l); cbn [List.length]; lia.
Qed.

Lemma count_days_bounds (mrows : list row) :
  mrows <> [] -> (1 <= count_days mrows <= List.length mrows)%nat.
Proof.
  intro Hne. unfold count_days. split.
  - destruct mrows as [|r mrows]; [congruence|].
    assert (Hin : In (row_day r) (nodup string_dec (map row_day (r :: mrows))))
      by (apply nodup_In; now left).
    destruct (nodup string_dec (map row_day (r :: mrows))); [destruct Hin|].
    cbn. lia.
  - rewrite <- (length_map row_day mrows). apply nodup_length_le.
Qed.

(** X4.  The monthly totals list every month present in the input exactly
    once, in ascending order, and nothing else; the day count of a month is
    at least 1 and at most the number of its records. *)
Theorem monthly_totals_months (rows : list row) :
  let months := map fst (compute_monthly_totals rows) in
  NoDup months /\
  Sorted (fun a b => String.leb a b = true) months /\
  (forall m, In m months <-> exists r, In r rows /\ row_month r = m) /\
  (forall m t,
      In (m, t) (compute_monthly_totals rows) ->
      (1 <= days t <= List.length (rows_of_month rows m))%nat).
Proof.
  cbv zeta.
  assert (Hfst : map fst (compute_monthly_totals rows)
                 = map fst (sorted_items (group_by rows row_month))).
  { unfold compute_monthly_totals. rewrite map_map. apply map_ext.
    intros [m mrows]. reflexivity. }
  assert (Hperm : Permutation (map fst (sorted_items (group_by rows row_month)))
                              (distinct_keys (map row_month rows))).
  { unfold sorted_items. rewrite sorted_perm, group_by_spec, map_map.
    cbn [fst]. now rewrite map_id. }
  split; [|split; [|split]].
  - rewrite Hfst.
    apply (Permutation_NoDup (Permutation_sym Hperm)), distinct_keys_NoDup.
  - rewrite Hfst. apply Sorted_map_fst. unfold sorted_items.
    apply (sorted_Sorted (fun a b : string * list row =>
                            String.leb (fst a) (fst b))).
    intros a b. apply String.leb_total.
  - intro m. rewrite Hfst. split.
    + intro Hin. apply (Permutation_in _ Hperm) in Hin.
      apply distinct_keys_In, in_map_iff in Hin.
      destruct Hin as (r & E & Hr). now exists r.
    + intros (r & Hr & E). apply (Permutation_in _ (Permutation_sym Hperm)).
      apply distinct_keys_In. rewrite <- E. now apply in_map.
  - intros m t Hin. rewrite (monthly_totals_In rows m t Hin).
    unfold month_totals_of. cbn [days]. apply count_days_bounds.
    intro E. apply in_map with (f := fst) in Hin. cbn [fst] in Hin.
    rewrite Hfst in Hin. apply (Permutation_in _ Hperm) in Hin.
    apply distinct_keys_In, in_map_iff in Hin.
    destruct Hin as (r & Er & Hr).
    assert (Hf : In r (rows_of_month rows m)).
    { apply filter_In. split; [assumption|]. now apply String.eqb_eq. }
    rewrite E in Hf. destruct Hf.
Qed.

(** The theorem at a month of one record. *)
Lemma monthly_totals_months_witness :
  (1 <= days (month_totals_of [enrich midday_row]) <= 1)%nat.
Proof.
  destruct (monthly_totals_months [enrich midday_row]) as (_ & _ & _ & H).
  apply (H "2026-01"%string). left. reflexivity.
Defined.

(** ** System sizing: failures and clipping *)

Lemma fold_max_spec (vs : list Q) (v : Q) :
  let m := fold_left Py.max vs v in
  v <= m /\ (forall x, In x vs -> x <= m) /\ (m = v \/ In m vs).
Proof.
  revert v. induction vs as [|x vs IH]; intro v; cbn [fold_left].
  - split; [lra|]. split; [intros x []|]. now left.
  - destruct (IH (Py.max v x)) as (H1 & H2 & H3).
    destruct (max_spec v x) as [[Hlt E] | [Hle E]]; rewrite E in *.
    + split; [lra|]. split.
      * intros y [<- | Hy]; [assumption | now apply H2].
      * right. destruct H3 as [-> | H3]; [now left | now right].
    + split; [assumption|]. split.
      * intros y [<- | Hy]; [lra | now apply H2].
      * destruct H3 as [-> | H3]; [now left | right; now right].
Qed.

Lemma max_of_spec (vs : list Q) :
  match max_of vs with
  | None => vs = []
  | Some m => In m vs /\ forall x, In x vs -> x <= m
  end.
Proof.
  destruct vs as [|v vs]; [reflexivity|]. cbn [max_of].
  destruct (fold_max_spec vs v) as (H1 & H2 & H3). cbv zeta in *.
  split.
  - destruct H3 as [-> | H3]; [now left | now right].
  - intros x [<- | Hx]; [assumption | now apply H2].
Qed.

(** X5.  System sizing fails exactly on an input without records, on a
    PV size of zero and on an inverter rating of zero; otherwise it
    returns a report. *)
Theorem sizing_failures (rows : list row) (pv_kwp inverter_kw : Q)
        (non_ev_days ev_days : list string) :
  compute_system_sizing rows pv_kwp inverter_kw non_ev_days ev_days = None
  <-> rows = [] \/ pv_kwp == 0 \/ inverter_kw == 0.
Proof.
  unfold compute_system_sizing.
  destruct (Qeq_bool pv_kwp 0) eqn:Ep.
  { apply Qeq_bool_eq in Ep. split; [intros _; right; now left | reflexivity]. }
  apply Qeq_bool_neq in Ep.
  destruct rows as [|r rows].
  { cbn [map max_of]. split; [intros _; now left | reflexivity]. }
  cbn [map max_of].
  destruct (Qeq_bool inverter_kw 0) eqn:Ei.
  { apply Qeq_bool_eq in Ei. split; [intros _; right; now right | reflexivity]. }
  apply Qeq_bool_neq in Ei.
  split; [discriminate|]. intros [H | [H | H]]; [discriminate | | ]; contradiction.
Qed.

Lemma filter_length_le {A} (p : A -> bool) (l : list A) :
  (List.length (filter p l) <= List.length l)%nat.
Proof.
  induction l as [|x l IH]; [apply Nat.le_refl|]. cbn [filter].
  destruct (p x); cbn [List.length]; lia.
Qed.

(** X6.  In a sizing report the two clipping counts never exceed the
    number of records; the inverter count is zero exactly when no record
    has a PV power above the inverter rating; and, for a non-negative
    rating, a positive inverter count always comes with the
    [inverter_limited] flag. *)
Theorem sizing_clipping (rows : list row) (pv_kwp inverter_kw : Q)
        (non_ev_days ev_days : list string) (s : sizing) :
  compute_system_sizing rows pv_kwp inverter_kw non_ev_days ev_days = Some s ->
  (sz_panel_clip_hours s <= List.length rows)%nat /\
  (sz_inverter_clip_hours s <= List.length rows)%nat /\
  (sz_inverter_clip_hours s = 0%nat
   <-> forall r, In r rows -> Avg_PV_W r <= inverter_kw * 1000) /\
  (0 <= inverter_kw -> (0 < sz_inverter_clip_hours s)%nat ->
   sz_inverter_limited s = true).
Proof.
  unfold compute_system_sizing.
  destruct (Qeq_bool pv_kwp 0); [discriminate|].
  pose proof (max_of_spec (map Avg_PV_W rows)) as Hmax.
  destruct (max_of (map Avg_PV_W rows)) as [m|]; [|discriminate].
  destruct (Qeq_bool inverter_kw 0); [discriminate|].
  intro E. injection E as <-.
  cbn [sz_panel_clip_hours sz_inverter_clip_hours sz_inverter_limited].
  unfold count_if.
  split; [apply filter_length_le|]. split; [apply filter_length_le|].
  split.
  - split.
    + intros Hz r Hr. apply ltb_ge.
      destruct (Py.ltb (inverter_kw * 1000) (Avg_PV_W r)) eqn:Er; [|reflexivity].
      exfalso.
      assert (Hin : In r (filter (fun r0 => Py.ltb (inverter_kw * 1000)
                                                    (Avg_PV_W r0)) rows))
        by (apply filter_In; split; assumption).
      destruct (filter _ rows); [destruct Hin | discriminate].
    + intro Hall. rewrite filter_none; [reflexivity|].
      intros r Hr. apply ltb_ge. now apply Hall.
  - intros Hinv Hpos. apply leb_le.
    destruct (filter (fun r => Py.ltb (inverter_kw * 1000) (Avg_PV_W r)) rows)
      as [|r l] eqn:Ef; [cbn in Hpos; lia|].
    assert (Hr : In r (filter (fun r => Py.ltb (inverter_kw * 1000)
                                                (Avg_PV_W r)) rows))
      by (rewrite Ef; now left).
    apply filter_In in Hr. destruct Hr as [Hr Hlt]. apply ltb_lt in Hlt.
    destruct Hmax as [_ Hmax].
    assert (Avg_PV_W r <= m) by (apply Hmax; now apply in_map).
    nra.
Qed.

(** The theorem at one noon hour of 5200 W on a 5 kW inverter. *)
Lemma sizing_clipping_witness :
  exists s,
    compute_system_sizing [enrich bright_row] (65 # 10) 5 [] [] = Some s /\
    sz_inverter_limited s = true.
Proof.
  destruct (compute_system_sizing [enrich bright_row] (65 # 10) 5 [] [])
    as [s|] eqn:E; [|vm_compute in E; discriminate].
  exists s. split; [reflexivity|].
  destruct (sizing_clipping [enrich bright_row] (65 # 10) 5 [] [] s E)
    as (_ & _ & _ & H).
  apply H.
  - vm_compute. discriminate.
  - vm_compute in E. injection E as <-. cbn. lia.
Defined.

(** ** Tiered and time-of-use billing *)

Lemma min_ext_le (remaining : Q) (width : ext) :
  min_ext remaining width <= remaining.
Proof.
  destruct width as [w|]; cbn [min_ext]; [|lra].
  destruct (min_spec remaining w) as [[H ->] | [H ->]]; lra.
Qed.

(** The loop over the tiers never bills more energy than is left, and with
    one rate on all tiers it bills what it consumes at that rate. *)
Lemma tier_loop_level (rate0 r : Q) (todo : list tier) (prev : option tier)
      (cost remaining : Q) :
  (forall tr, In tr todo -> opt_default (tier_rate tr) rate0 == r) ->
  0 <= remaining ->
  let res := tier_loop rate0 prev todo cost remaining in
  0 <= snd res /\ fst res + snd res * r == cost + remaining * r.
Proof.
  revert prev cost remaining.
  induction todo as [|tr todo IH]; intros prev cost remaining Hr Hrem;
    cbn [tier_loop].
  - cbn [fst snd]. split; [assumption | reflexivity].
  - set (tier_kwh := match prev with
                     | Some p => min_ext remaining
                                   (ext_sub (tier_thresh tr)
                                            (opt_default (tier_threshold p) 0))
                     | None => min_ext remaining (tier_thresh tr)
                     end).
    assert (Hk : tier_kwh <= remaining)
      by (unfold tier_kwh; destruct prev; apply min_ext_le).
    assert (Hrate : opt_default (tier_rate tr) rate0 == r)
      by (apply Hr; now left).
    destruct (Py.leb (remaining - tier_kwh) 0) eqn:E.
    + cbn [fst snd]. split; [lra|]. rewrite Hrate. ring.
    + destruct (IH (Some tr) (cost + tier_kwh * opt_default (tier_rate tr) rate0)
                   (remaining - tier_kwh)) as [H1 H2].
      * intros tr' Hin. apply Hr. now right.
      * lra.
      * cbv zeta in H1, H2. split; [assumption|].
        rewrite H2, Hrate. ring.
Qed.

(** X7.  Tiered billing.  Without tiers the bill is [kwh * import_rate].
    Energy within the first threshold (or any energy, when the first tier
    has no threshold) is billed at the first tier's rate.  And when every
    tier carries the same rate, given or defaulted, non-negative energy is
    billed at that rate whatever the thresholds are. *)
Theorem tiered_billing (t : tariff) (kwh : Q) :
  (opt_default (tariff_tiers t) [] = [] ->
   calc_tiered t kwh = kwh * import_rate t) /\
  (forall tr rest,
      opt_default (tariff_tiers t) [] = tr :: rest ->
      match tier_threshold tr with
      | Some th => kwh <= th
      | None => True
      end ->
      calc_tiered t kwh == kwh * opt_default (tier_rate tr) (import_rate t)) /\
  (forall r,
      opt_default (tariff_tiers t) [] <> [] ->
      (forall tr, In tr (opt_default (tariff_tiers t) []) ->
                  opt_default (tier_rate tr) (import_rate t) == r) ->
      0 <= kwh ->
      calc_tiered t kwh == kwh * r).
Proof.
  split; [|split].
  - intro E. unfold calc_tiered. now rewrite E.
  - intros tr rest E Hth. unfold calc_tiered. rewrite E. cbn [tier_loop].
    assert (Hk : min_ext kwh (tier_thresh tr) == kwh).
    { unfold tier_thresh. destruct (tier_threshold tr) as [th|];
        cbn [min_ext]; [|reflexivity].
      destruct (min_spec kwh th) as [[H ->] | [H ->]]; lra. }
    assert (E0 : Py.leb (kwh - min_ext kwh (tier_thresh tr)) 0 = true)
      by (apply leb_le; lra).
    rewrite E0.
    assert (E1 : Py.ltb 0 (kwh - min_ext kwh (tier_thresh tr)) = false)
      by (apply ltb_ge; lra).
    rewrite E1, Hk. ring.
  - intros r Hne Hr Hkwh. unfold calc_tiered.
    destruct (opt_default (tariff_tiers t) []) as [|tr rest] eqn:E;
      [congruence|].
    destruct (tier_loop_level (import_rate t) r (tr :: rest) None 0 kwh Hr Hkwh)
      as [H1 H2].
    cbv zeta in H1, H2.
    destruct (tier_loop (import_rate t) None (tr :: rest) 0 kwh)
      as [cost remaining].
    cbn [fst snd] in H1, H2.
    assert (Hlast : opt_default (tier_rate (last (tr :: rest) (mk_tier None None)))
                                (import_rate t) == r).
    { apply Hr. destruct (exists_last (l := tr :: rest)) as (l' & a & El);
        [discriminate|].
      rewrite El, last_last. apply in_or_app. right. now left. }
    destruct (Py.ltb 0 remaining) eqn:Erem.
    + rewrite Hlast. lra.
    + apply ltb_ge in Erem. assert (remaining == 0) by lra.
      rewrite H in H2. lra.
Qed.

(** The theorem at 150 kWh under three bands starting at 8 a kWh, and at
    350 kWh under two bands that both cost 9. *)
Lemma tiered_billing_witness :
  calc_tiered three_tiers 150 == 1200 /\ calc_tiered level_tiers 350 == 3150.
Proof.
  split.
  - destruct (tiered_billing three_tiers 150) as (_ & H & _).
    rewrite (H (mk_tier (Some 200) (Some 8))
               [mk_tier (Some 400) (Some 12); mk_tier (Some 800) (Some 16)]).
    + reflexivity.
    + reflexivity.
    + cbn. vm_compute. discriminate.
  - destruct (tiered_billing level_tiers 350) as (_ & _ & H).
    rewrite (H 9).
    + reflexivity.
    + discriminate.
    + intros tr Htr. cbn in Htr. destruct Htr as [<- | [<- | []]]; reflexivity.
    + vm_compute. discriminate.
Defined.

Lemma tou_fold (peak_hours : list string) (peak_rate offpeak_rate : Q)
      (rate_fn : row -> Q) (mrows : list row) (cost : Q) :
  fold_left
    (fun cost r =>
       if mem (Hour r) peak_hours then cost + rate_fn r * peak_rate
       else cost + rate_fn r * offpeak_rate)
    mrows cost
  == cost
     + peak_rate
       * Py.sum (map rate_fn (filter (fun r => mem (Hour r) peak_hours) mrows))
     + offpeak_rate
       * Py.sum (map rate_fn
                     (filter (fun r => negb (mem (Hour r) peak_hours)) mrows)).
Proof.
  revert cost. induction mrows as [|r mrows IH]; intro cost;
    cbn [fold_left filter map].
  - change (Py.sum []) with 0. ring.
  - rewrite IH. destruct (mem (Hour r) peak_hours); cbn [negb map];
      rewrite sum_cons; ring.
Qed.

(** X8.  Time-of-use billing is the peak rate times the energy of the
    peak hours plus the off-peak rate times the energy of the other
    hours; with the two rates equal it is that rate times the total
    energy. *)
Theorem tou_billing (t : tariff) (mrows : list row) (rate_fn : row -> Q) :
  let peak := filter (fun r => mem (Hour r) (tou_peak_hours_of t)) mrows in
  let offpeak :=
    filter (fun r => negb (mem (Hour r) (tou_peak_hours_of t))) mrows in
  calc_tou_monthly t mrows rate_fn
  == tou_peak_rate_of t * Py.sum (map rate_fn peak)
     + tou_offpeak_rate_of t * Py.sum (map rate_fn offpeak) /\
  (tou_peak_rate_of t == tou_offpeak_rate_of t ->
   calc_tou_monthly t mrows rate_fn
   == tou_peak_rate_of t * Py.sum (map rate_fn mrows)).
Proof.
  cbv zeta.
  assert (H : calc_tou_monthly t mrows rate_fn
              == tou_peak_rate_of t
                 * Py.sum (map rate_fn
                               (filter (fun r => mem (Hour r) (tou_peak_hours_of t))
                                       mrows))
                 + tou_offpeak_rate_of t
                   * Py.sum (map rate_fn
                                 (filter (fun r => negb (mem (Hour r)
                                                             (tou_peak_hours_of t)))
                                         mrows))).
  { unfold calc_tou_monthly.
    fold (tou_peak_hours_of t) (tou_peak_rate_of t) (tou_offpeak_rate_of t).
    rewrite tou_fold. ring. }
  split; [exact H|].
  intro Eq. rewrite H, <- Eq.
  assert (Hsplit : forall l : list row,
             Py.sum (map rate_fn l)
             == Py.sum (map rate_fn
                            (filter (fun r => mem (Hour r) (tou_peak_hours_of t)) l))
                + Py.sum (map rate_fn
                              (filter (fun r => negb (mem (Hour r)
                                                          (tou_peak_hours_of t)))
                                      l))).
  { induction l as [|r l IH]; cbn [filter map].
    - change (Py.sum []) with 0. ring.
    - rewrite sum_cons, IH.
      destruct (mem (Hour r) (tou_peak_hours_of t)); cbn [negb map];
        rewrite sum_cons; ring. }
  rewrite (Hsplit mrows). ring.
Qed.

(** The theorem at a tariff without a time-of-use section: both rates
    default to the import rate. *)
Lemma tou_billing_witness :
  calc_tou_monthly (flat_tariff 14) [enrich evening_row; enrich midday_row]
                   Grid_Import_kWh
  == 14 * (1 + (1 # 2)).
Proof.
  destruct (tou_billing (flat_tariff 14) [enrich evening_row; enrich midday_row]
                        Grid_Import_kWh) as [_ H].
  rewrite H; reflexivity.
Defined.

Lemma bands_above (rate0 lo kwh : Q) (tiers : list tier) :
  thresholds_from lo tiers -> kwh <= lo ->
  bands_cost rate0 lo tiers kwh == 0 /\ kwh <= last_threshold lo tiers.
Proof.
  revert lo. induction tiers as [|tr rest IH]; intros lo Hth Hk;
    cbn [bands_cost last_threshold thresholds_from] in *.
  - split; [reflexivity | assumption].
  - destruct (tier_threshold tr) as [hi|]; [|contradiction].
    destruct Hth as [Hlo Hth]. cbn [opt_default].
    destruct (IH hi Hth ltac:(lra)) as [H1 H2].
    split; [|assumption]. rewrite H1. unfold band_energy.
    destruct (min_spec kwh hi) as [[Hm ->] | [Hm ->]];
      destruct (max_spec 0 (hi - lo)) as [[Hx E] | [Hx E]];
      destruct (max_spec 0 (kwh - lo)) as [[Hy E'] | [Hy E']];
      rewrite ?E, ?E'; try lra; ring.
Qed.

(** The loop over well-formed tiers from the band that starts at [lo]. *)
Lemma tier_loop_bands (rate0 rl kwh : Q) (todo : list tier) (prev : option tier)
      (lo cost remaining : Q) :
  thresholds_from lo todo ->
  match prev with
  | Some p => tier_threshold p = Some lo
  | None => lo == 0
  end ->
  remaining == kwh - lo -> 0 <= remaining ->
  let res := tier_loop rate0 prev todo cost remaining in
  fst res + (if Py.ltb 0 (snd res) then snd res * rl else 0)
  == cost + bands_cost rate0 lo todo kwh
     + Py.max 0 (kwh - last_threshold lo todo) * rl.
Proof.
  revert prev lo cost remaining.
  induction todo as [|tr rest IH]; intros prev lo cost remaining Hth Hprev Hrem Hpos;
    cbn [tier_loop bands_cost last_threshold thresholds_from] in *.
  - cbn [fst snd].
    destruct (max_spec 0 (kwh - lo)) as [[Hx ->] | [Hx ->]].
    + assert (E : Py.ltb 0 remaining = true) by (apply ltb_lt; lra).
      rewrite E, Hrem. ring.
    + assert (E : Py.ltb 0 remaining = false) by (apply ltb_ge; lra).
      rewrite E. ring.
  - destruct (tier_threshold tr) as [hi|] eqn:Ehi; [|contradiction].
    destruct Hth as [Hlo Hth]. cbn [opt_default].
    unfold tier_thresh. rewrite Ehi.
    set (tier_kwh := match prev with
                     | Some p => min_ext remaining
                                   (ext_sub (Fin hi)
                                            (opt_default (tier_threshold p) 0))
                     | None => min_ext remaining (Fin hi)
                     end).
    assert (Hk : (remaining <= hi - lo /\ tier_kwh == remaining) \/
                 (hi - lo < remaining /\ tier_kwh == hi - lo)).
    { unfold tier_kwh. destruct prev as [p|].
      - rewrite Hprev. cbn [opt_default ext_sub min_ext].
        destruct (min_spec remaining (hi - lo)) as [[H ->] | [H ->]];
          [right | left]; split; try lra; reflexivity.
      - cbn [min_ext].
        destruct (min_spec remaining hi) as [[H ->] | [H ->]];
          [right | left]; split; lra. }
    assert (Hband : band_energy lo hi kwh == tier_kwh).
    { unfold band_energy.
      destruct (min_spec kwh hi) as [[Hm ->] | [Hm ->]];
        destruct (max_spec 0 (hi - lo)) as [[Hx E] | [Hx E]];
        destruct (max_spec 0 (kwh - lo)) as [[Hy E'] | [Hy E']];
        rewrite ?E, ?E'; destruct Hk as [[Hk1 Hk2] | [Hk1 Hk2]]; lra. }
    destruct (Py.leb (remaining - tier_kwh) 0) eqn:Ebreak.
    + apply leb_le in Ebreak. cbn [fst snd].
      assert (E : Py.ltb 0 (remaining - tier_kwh) = false)
        by (apply ltb_ge; lra).
      rewrite E.
      assert (Hle : kwh <= hi) by (destruct Hk as [[? ?] | [? ?]]; lra).
      destruct (bands_above rate0 hi kwh rest Hth Hle) as [H1 H2].
      rewrite H1, Hband.
      destruct (max_spec 0 (kwh - last_threshold hi rest)) as [[Hx ->] | [Hx ->]];
        [lra | ring].
    + apply leb_gt in Ebreak.
      assert (Hgt : hi - lo < remaining /\ tier_kwh == hi - lo)
        by (destruct Hk as [[? ?] | [? ?]]; [lra | split; assumption]).
      destruct Hgt as [Hgt Hkeq].
      rewrite (IH (Some tr) hi); [rewrite Hband; ring | assumption
                                  | exact Ehi | lra | lra].
Qed.

(** X9.  Under a tiered tariff whose thresholds are all given, start at or
    above zero and do not decrease, a non-negative consumption is billed
    band by band: the energy between two consecutive thresholds at the
    rate of that band, and the energy above the last threshold at the last
    tier's rate. *)
Theorem tiered_bands (t : tariff) (kwh : Q) :
  let tiers := opt_default (tariff_tiers t) [] in
  tiers <> [] -> thresholds_from 0 tiers -> 0 <= kwh ->
  calc_tiered t kwh
  == bands_cost (import_rate t) 0 tiers kwh
     + Py.max 0 (kwh - last_threshold 0 tiers)
       * opt_default (tier_rate (last tiers (mk_tier None None))) (import_rate t).
Proof.
  cbv zeta. intros Hne Hth Hk. unfold calc_tiered.
  destruct (opt_default (tariff_tiers t) []) as [|tr rest] eqn:E; [congruence|].
  pose proof (tier_loop_bands (import_rate t)
                (opt_default (tier_rate (last (tr :: rest) (mk_tier None None)))
                             (import_rate t))
                kwh (tr :: rest) None 0 0 kwh Hth (Qeq_refl 0)) as H.
  cbv zeta in H.
  destruct (tier_loop (import_rate t) None (tr :: rest) 0 kwh)
    as [cost remaining].
  cbn [fst snd] in H.
  destruct (Py.ltb 0 remaining); rewrite <- (Qplus_0_l (bands_cost _ _ _ _));
    rewrite <- H by lra; ring.
Qed.

(** The theorem at 500 kWh and at 1000 kWh under bands of 8 up to 200,
    12 up to 400 and 16 up to 800 and beyond. *)
Lemma tiered_bands_witness :
  calc_tiered three_tiers 500 == 200 * 8 + 200 * 12 + 100 * 16 /\
  calc_tiered three_tiers 1000 == 200 * 8 + 200 * 12 + 400 * 16 + 200 * 16.
Proof.
  split.
  - rewrite (tiered_bands three_tiers 500).
    + reflexivity.
    + discriminate.
    + cbn. repeat split; vm_compute; discriminate.
    + vm_compute. discriminate.
  - rewrite (tiered_bands three_tiers 1000).
    + reflexivity.
    + discriminate.
    + cbn. repeat split; vm_compute; discriminate.
    + vm_compute. discriminate.
Defined.

(** ** ROI: degradation and the two paybacks *)

Lemma round_half_even_mono (x y : Q) :
  x <= y -> (Py.round_half_even x <= Py.round_half_even y)%Z.
Proof.
  intro Hxy.
  destruct (Z_le_gt_dec (Py.round_half_even x) (Py.round_half_even y))
    as [|Hgt]; [assumption|]. exfalso.
  assert (Hz : (Py.round_half_even y + 1 <= Py.round_half_even x)%Z) by lia.
  rewrite Zle_Qle, inject_Z_plus in Hz. change (inject_Z 1) with 1 in Hz.
  pose proof (round_half_even_bound x) as [_ Hx].
  pose proof (round_half_even_bound y) as [Hy _].
  assert (E : x == y) by lra.
  rewrite (round_half_even_proper _ _ E) in Hgt. lia.
Qed.

Lemma round_mono (x y : Q) (d : nat) :
  x <= y -> Py.round x d <= Py.round y d.
Proof.
  intro Hxy. unfold Py.round. pose proof (pow10_pos d) as Hp.
  assert (Hm : x * Py.pow10 d <= y * Py.pow10 d)
    by (apply Qmult_le_compat_r; lra).
  apply round_half_even_mono in Hm. rewrite Zle_Qle in Hm.
  apply Qmult_le_compat_r; [assumption|].
  apply Qlt_le_weak, Qinv_lt_0_compat. assumption.
Qed.

Lemma pow_antitone (x : Q) (m k : nat) :
  0 < x -> x <= 1 -> (m <= k)%nat -> Py.pow x k <= Py.pow x m.
Proof.
  intros H0 H1 Hmk. induction Hmk as [|k Hmk IH]; [lra|].
  cbn [Py.pow]. pose proof (pow_pos x k H0). nra.
Qed.

Lemma year_savings_antitone (s : Q) (m k : nat) :
  0 < s -> (m <= k)%nat -> year_savings_of s k <= year_savings_of s m.
Proof.
  intros Hs Hmk. unfold year_savings_of.
  assert (H : Py.pow (1 - (5 # 1000)) k <= Py.pow (1 - (5 # 1000)) m)
    by (apply pow_antitone; [lra | lra | assumption]).
  nra.
Qed.

(** Degraded savings add up to a geometric sum. *)
Lemma cum_savings_closed_form (s : Q) (n : nat) :
  cum_savings s n == s * 200 * (1 - Py.pow (199 # 200) n).
Proof.
  induction n as [|n IH].
  - change (cum_savings s 0) with 0. cbn [Py.pow]. ring.
  - rewrite cum_savings_S, IH. unfold year_savings_of. cbn [Py.pow].
    assert (E : 1 - (5 # 1000) == 199 # 200) by reflexivity.
    assert (Ep : Py.pow (1 - (5 # 1000)) n == Py.pow (199 # 200) n).
    { clear IH. induction n as [|n IHn]; cbn [Py.pow]; [reflexivity|].
      now rewrite IHn, E. }
    rewrite Ep. ring.
Qed.

Lemma roi_loop_yearly (s c : Q) (k : nat) :
  yearly_savings
    (fold_left (roi_step s c) (seq 0 k)
               {| cumulative := 0; payback_year := None; yearly_savings := [] |})
  = map (fun n => Py.round (year_savings_of s n) 0) (seq 0 k).
Proof.
  induction k as [|k IH]; [reflexivity|].
  rewrite seq_S, fold_left_app, map_app. cbn [fold_left Nat.add map].
  unfold roi_step at 1. cbn [yearly_savings]. now rewrite IH.
Qed.

Lemma compute_roi_samples (bi cfg : list (string * Q)) (ov : option Q) :
  cfg <> [] ->
  0 < roi_annual_savings bi ov ->
  exists rep,
    compute_roi bi (Some cfg) ov = Some (RoiReport rep) /\
    year_1 rep
    = nth 0 (map (fun n => Py.round (year_savings_of (roi_annual_savings bi ov) n) 0)
                 (seq 0 26)) 0 /\
    year_10 rep
    = nth 9 (map (fun n => Py.round (year_savings_of (roi_annual_savings bi ov) n) 0)
                 (seq 0 26)) 0 /\
    year_25 rep
    = nth 24 (map (fun n => Py.round (year_savings_of (roi_annual_savings bi ov) n) 0)
                  (seq 0 26)) 0 /\
    lifetime_savings_25yr rep
    = Py.round (cum_savings (roi_annual_savings bi ov) 25) 0.
Proof.
  intros Hcfg Hs. unfold compute_roi.
  destruct cfg as [|kv cfg']; [congruence|].
  assert (E : Py.leb (roi_annual_savings bi ov) 0 = false) by now apply leb_gt.
  rewrite E. eexists. split; [reflexivity|].
  cbn [year_1 year_10 year_25 lifetime_savings_25yr].
  unfold roi_loop. rewrite roi_loop_yearly.
  split; [reflexivity|]. split; [reflexivity|]. split; reflexivity.
Qed.

(** X10.  In an ROI report the 25-year lifetime savings are the geometric
    sum [s * 200 * (1 - 0.995 ** 25)] of the annual savings [s] (rounded),
    the sampled yearly savings do not increase from year 1 to year 10 to
    year 25, and for a non-negative cost and system age the remaining
    payback is between 0 and the simple payback. *)
Theorem roi_degradation (bi cfg : list (string * Q)) (ov : option Q)
        (rep : roi_report) :
  compute_roi bi (Some cfg) ov = Some (RoiReport rep) ->
  let s := roi_annual_savings bi ov in
  0 < s /\
  lifetime_savings_25yr rep
  == Py.round (s * 200 * (1 - Py.pow (199 # 200) 25)) 0 /\
  year_25 rep <= year_10 rep /\ year_10 rep <= year_1 rep /\
  (0 <= get "total_cost" 0 cfg -> 0 <= get "system_age_years" 0 cfg ->
   forall sp rp,
     simple_payback rep = Some sp -> remaining_payback rep = Some rp ->
     0 <= rp /\ rp <= sp).
Proof.
  intro Hrep. cbv zeta.
  assert (Hcfg : cfg <> []) by (intros ->; discriminate).
  assert (Hs : 0 < roi_annual_savings bi ov).
  { unfold compute_roi in Hrep. destruct cfg as [|kv cfg']; [congruence|].
    destruct (Py.leb (roi_annual_savings bi ov) 0) eqn:E; [discriminate|].
    now apply leb_gt. }
  destruct (compute_roi_samples bi cfg ov Hcfg Hs)
    as (rep0 & Hrep0 & H1 & H10 & H25 & Hl).
  rewrite Hrep in Hrep0. injection Hrep0 as <-.
  cbn [seq map nth] in H1, H10, H25.
  split; [assumption|].
  split; [rewrite Hl; apply round_proper;
          [apply cum_savings_closed_form | reflexivity]|].
  split; [rewrite H25, H10; apply round_mono, year_savings_antitone;
          [assumption | lia]|].
  split; [rewrite H10, H1; apply round_mono, year_savings_antitone;
          [assumption | lia]|].
  intros Hc Hage sp rp Hsp Hrp.
  destruct (compute_roi_report bi cfg ov Hcfg Hs) as (rep' & Hrep' & Hsp' & Hrp').
  rewrite Hrep in Hrep'. injection Hrep' as <-.
  rewrite Hsp in Hsp'. rewrite Hrp in Hrp'.
  destruct (roi_loop_26 (roi_annual_savings bi ov) (get "total_cost" 0 cfg) Hs)
    as (_ & _ & Hpb).
  destruct (payback_year (roi_loop (roi_annual_savings bi ov)
                                   (get "total_cost" 0 cfg))) as [p|];
    [|discriminate].
  destruct (truthy p); [|discriminate].
  injection Hsp' as ->. injection Hrp' as ->.
  destruct Hpb as (n & Hn & Hcross & Hbelow & Hp).
  pose proof (year_savings_pos (roi_annual_savings bi ov) n Hs) as Hy.
  assert (Hp0 : 0 <= p).
  { rewrite Hp.
    assert (0 <= inject_Z (Z.of_nat n)).
    { change 0 with (inject_Z 0). rewrite <- Zle_Qle. lia. }
    assert (0 <= (get "total_cost" 0 cfg
                  - cum_savings (roi_annual_savings bi ov) n)
                 / year_savings_of (roi_annual_savings bi ov) n).
    { apply Qle_shift_div_l; [assumption|].
      destruct n as [|n].
      - change (cum_savings (roi_annual_savings bi ov) 0) with 0. lra.
      - specialize (Hbelow (S n) ltac:(lia)). lra. }
    lra. }
  split.
  - apply round_nonneg.
    destruct (max_spec 0 (p - get "system_age_years" 0 cfg)) as [[H ->] | [H ->]];
      lra.
  - apply round_mono.
    destruct (max_spec 0 (p - get "system_age_years" 0 cfg)) as [[H ->] | [H ->]];
      lra.
Qed.

(** The theorem at a system that cost 400000 and saves 90000 a year. *)
Lemma roi_degradation_witness :
  exists rep,
    compute_roi sample_bill (Some sample_roi_config) None = Some (RoiReport rep) /\
    year_25 rep <= year_1 rep /\
    (forall sp rp,
        simple_payback rep = Some sp -> remaining_payback rep = Some rp ->
        rp <= sp).
Proof.
  destruct (compute_roi_report sample_bill sample_roi_config None)
    as (rep & Hrep & _); [discriminate | reflexivity |].
  exists rep. split; [exact Hrep|].
  destruct (roi_degradation sample_bill sample_roi_config None rep Hrep)
    as (_ & _ & H25 & H10 & Hpay).
  split; [lra|].
  intros sp rp Hsp Hrp. apply (Hpay ltac:(reflexivity || (vm_compute; discriminate))
                                    ltac:(vm_compute; discriminate) sp rp Hsp Hrp).
Defined.

(** ** What the PV and battery detectors flag *)

Lemma sorted_days_spec (rows : list row) :
  sorted_keys (map fst (group_by rows row_day)) = sorted_keys (all_days rows).
Proof.
  rewrite by_day_spec, map_map. cbn [fst]. now rewrite map_id.
Qed.

(** X11.  Every PV anomaly is a calendar day of the input that has at
    least three earlier days; its PV is below 60% of the positive mean of
    the up to 14 days before it, and the reported deviation is -40% or
    lower.  With three calendar days or fewer nothing is flagged. *)
Theorem pv_anomalies_flagged (rows : list row) :
  let sorted_days := sorted_keys (all_days rows) in
  (forall a,
      In a (pv_anomalies rows) ->
      exists i,
        (3 <= i < List.length (all_days rows))%nat /\
        pa_date a = nth i sorted_days EmptyString /\
        In (pa_date a) (all_days rows) /\
        let ref_mean := mean (map (day_pv rows) (pv_window_days sorted_days i)) in
        0 < ref_mean /\
        day_pv rows (pa_date a) < ref_mean * (6 # 10) /\
        pa_expected a = Py.round ref_mean 1 /\
        pa_deviation_pct a <= - 40) /\
  ((List.length (all_days rows) <= 3)%nat -> pv_anomalies rows = []).
Proof.
  cbv zeta.
  assert (Hlen : List.length (sorted_keys (all_days rows))
                 = List.length (all_days rows))
    by (unfold sorted_keys; apply Permutation_length, sorted_perm).
  assert (Hmain : forall a,
             In a (pv_anomalies rows) ->
             exists i,
               (3 <= i < List.length (all_days rows))%nat /\
               pa_date a = nth i (sorted_keys (all_days rows)) EmptyString /\
               In (pa_date a) (all_days rows) /\
               0 < mean (map (day_pv rows)
                             (pv_window_days (sorted_keys (all_days rows)) i)) /\
               day_pv rows (pa_date a)
               < mean (map (day_pv rows)
                           (pv_window_days (sorted_keys (all_days rows)) i))
                 * (6 # 10) /\
               pa_expected a
               = Py.round (mean (map (day_pv rows)
                                     (pv_window_days (sorted_keys (all_days rows)) i)))
                          1 /\
               pa_deviation_pct a <= - 40).
  { intros a Hin. unfold pv_anomalies in Hin.
    rewrite sorted_days_spec in Hin.
    apply in_flat_map in Hin. destruct Hin as (i & Hi & Ha).
    apply in_seq in Hi. rewrite Hlen in Hi.
    destruct (i <? 3) eqn:E3; [destruct Ha|]. apply Nat.ltb_ge in E3.
    assert (Eref : pv_ref_mean (anomaly_daily_pv (group_by rows row_day))
                               (sorted_keys (all_days rows)) i
                   = mean (map (day_pv rows)
                               (pv_window_days (sorted_keys (all_days rows)) i))).
    { unfold pv_ref_mean. f_equal. apply map_ext. intro d.
      apply anomaly_daily_pv_get. }
    rewrite Eref, anomaly_daily_pv_get in Ha.
    set (ref_mean := mean (map (day_pv rows)
                               (pv_window_days (sorted_keys (all_days rows)) i)))
      in *.
    set (day := nth i (sorted_keys (all_days rows)) EmptyString) in *.
    destruct (Py.ltb 0 ref_mean) eqn:Eref0; [|destruct Ha].
    destruct (Py.ltb (day_pv rows day) (ref_mean * (6 # 10))) eqn:Elow;
      [|destruct Ha].
    cbn [andb] in Ha. destruct Ha as [<- | []].
    apply ltb_lt in Eref0. apply ltb_lt in Elow.
    cbn [pa_date pa_expected pa_deviation_pct].
    exists i. split; [lia|]. split; [reflexivity|].
    split.
    { apply (sorted_In String.leb). apply nth_In. fold (sorted_keys (all_days rows)).
      rewrite Hlen. lia. }
    split; [assumption|]. split; [assumption|]. split; [reflexivity|].
    assert (Hdev : (day_pv rows day - ref_mean) / ref_mean * 100 <= - 40).
    { assert ((day_pv rows day - ref_mean) / ref_mean <= - (4 # 10)).
      { apply Qle_shift_div_r; lra. }
      lra. }
    apply (round_mono _ _ 0) in Hdev.
    assert (E40 : Py.round (- 40) 0 == - 40) by reflexivity.
    lra. }
  split; [exact Hmain|].
  intro Hfew. destruct (pv_anomalies rows) as [|a l] eqn:E; [reflexivity|].
  destruct (Hmain a) as (i & Hi & _); [now left | lia].
Qed.

(** The theorem at four full days after which a day produces 12 kWh
    against 21 kWh on each of the three days before it. *)
Lemma pv_anomalies_flagged_witness :
  exists a,
    pv_anomalies (full_rows days_with_partial) = [a] /\
    pa_date a = "2026-01-05"%string /\ pa_deviation_pct a <= - 40.
Proof.
  eexists. split; [vm_compute; reflexivity|]. split; [reflexivity|].
  destruct (pv_anomalies_flagged (full_rows days_with_partial)) as [H _].
  match goal with
  | |- pa_deviation_pct ?a <= _ =>
    destruct (H a) as (i & _ & _ & _ & _ & _ & _ & Hdev);
      [vm_compute; left; reflexivity | exact Hdev]
  end.
Defined.

Lemma sum_perm (l l' : list Q) : Permutation l l' -> Py.sum l == Py.sum l'.
Proof.
  induction 1 as [| x l l' _ IH | x y l | l l' l'' _ IH1 _ IH2].
  - reflexivity.
  - now rewrite !sum_cons, IH.
  - rewrite !sum_cons. ring.
  - now rewrite IH1.
Qed.

Lemma sum_map_hour_sorted (f : row -> Q) (drows : list row) :
  Py.sum (map f (hour_sorted drows)) == Py.sum (map f drows).
Proof.
  apply sum_perm, Permutation_map. unfold hour_sorted. apply sorted_perm.
Qed.

(** X12.  Every battery anomaly is a calendar day of the input with at
    least 20 records whose first and last hour differ by at most 5 points
    of SOC, whose total charge exceeds 1 kWh and whose discharge is below
    80% of its charge; the reported efficiency is at most 80 and the
    reported charge at least 1. *)
Theorem battery_anomalies_flagged (rows : list row) (b : battery_anomaly) :
  In b (battery_anomalies rows) ->
  let drows := rows_of_day rows (ba_date b) in
  let ch := Py.sum (map Battery_Charge_kWh drows) in
  let dis := Py.sum (map Battery_Discharge_kWh drows) in
  In (ba_date b) (all_days rows) /\
  (20 <= List.length drows)%nat /\
  (exists first last,
      hd_error (hour_sorted drows) = Some first /\
      hd_error (rev (hour_sorted drows)) = Some last /\
      Qabs (Avg_SOC_Pct first - Avg_SOC_Pct last) <= 5) /\
  1 < ch /\ dis / ch * 100 < 80 /\
  ba_efficiency b <= 80 /\ 1 <= ba_charge b.
Proof.
  intro Hin. cbv zeta. unfold battery_anomalies in Hin.
  rewrite by_day_spec in Hin. apply in_flat_map in Hin.
  destruct Hin as ([day drows] & Hday & Hb).
  apply in_map_iff in Hday. destruct Hday as (d & E & Hd).
  injection E as -> <-.
  fold (hour_sorted (rows_of_day rows day)) in Hb.
  set (drows := rows_of_day rows day) in *.
  assert (Hlen : List.length (hour_sorted drows) = List.length drows)
    by (unfold hour_sorted; apply Permutation_length, sorted_perm).
  destruct (List.length (hour_sorted drows) <? 20) eqn:E20; [destruct Hb|].
  apply Nat.ltb_ge in E20. rewrite Hlen in E20.
  destruct (hour_sorted drows) as [|first rest] eqn:Es; [destruct Hb|].
  destruct (rev (first :: rest)) as [|last rest'] eqn:Er; [destruct Hb|].
  destruct (Py.ltb 5 (Py.abs (Avg_SOC_Pct first - Avg_SOC_Pct last))) eqn:Esoc;
    [destruct Hb|].
  apply ltb_ge in Esoc.
  destruct (Py.ltb 1 (Py.sum (map Battery_Charge_kWh (first :: rest)))) eqn:Ech;
    [|destruct Hb].
  apply ltb_lt in Ech.
  destruct (Py.ltb (Py.sum (map Battery_Discharge_kWh (first :: rest))
                    / Py.sum (map Battery_Charge_kWh (first :: rest)) * 100) 80)
    eqn:Eeff; [|destruct Hb].
  apply ltb_lt in Eeff.
  destruct Hb as [<- | []]. cbn [ba_date ba_efficiency ba_charge].
  fold drows.
  pose proof (sum_map_hour_sorted Battery_Charge_kWh drows) as Hch.
  pose proof (sum_map_hour_sorted Battery_Discharge_kWh drows) as Hdis.
  rewrite Es in Hch, Hdis.
  split; [assumption|]. split; [assumption|].
  split.
  { exists first, last. rewrite Es, Er. split; [reflexivity|].
    split; [reflexivity | exact Esoc]. }
  split; [rewrite <- Hch; assumption|].
  split; [rewrite <- Hch, <- Hdis; assumption|].
  split.
  - assert (E80 : Py.round 80 1 == 80) by reflexivity.
    rewrite <- E80. apply round_mono. lra.
  - assert (E1 : Py.round 1 1 == 1) by reflexivity.
    rewrite <- E1. apply round_mono. lra.
Qed.

(** The theorem at a day of exactly 20 records that charges 2 kWh and
    discharges 1 kWh: it is flagged, with an efficiency of 50. *)
Lemma battery_anomalies_flagged_witness :
  exists b,
    battery_anomalies cycling_day = [b] /\
    (20 <= List.length (rows_of_day cycling_day (ba_date b)))%nat /\
    ba_efficiency b <= 80.
Proof.
  eexists. split; [vm_compute; reflexivity|].
  match goal with
  | |- (_ <= List.length (rows_of_day _ (ba_date ?b)))%nat /\ _ =>
    destruct (battery_anomalies_flagged cycling_day b)
      as (_ & Hlen & _ & _ & _ & Heff & _);
      [vm_compute; left; reflexivity | split; assumption]
  end.
Defined.

(** ** The usable-capacity estimate is positive *)

Lemma median_of_two (l : list Q) :
  l <> [] ->
  exists x y, In x l /\ In y l /\ median l == (x + y) / 2.
Proof.
  intro Hne.
  assert (Hnth : forall i, (i < List.length l)%nat ->
                           In (nth i (sorted Py.leb l) 0) l).
  { intros i Hi. apply (sorted_In Py.leb). apply nth_In.
    now rewrite (Permutation_length (sorted_perm Py.leb l)). }
  assert (Hlen : (0 < List.length l)%nat)
    by (destruct l; [congruence | cbn; lia]).
  destruct (median_spec l Hne) as [Hodd Heven]. cbv zeta in Hodd, Heven.
  destruct (Nat.eq_dec (List.length l mod 2) 1) as [E|E].
  - exists (nth (List.length l / 2) (sorted Py.leb l) 0),
           (nth (List.length l / 2) (sorted Py.leb l) 0).
    assert (Hi : (List.length l / 2 < List.length l)%nat)
      by (apply Nat.div_lt; lia).
    split; [now apply Hnth|]. split; [now apply Hnth|].
    rewrite (Hodd E). field.
  - exists (nth (List.length l / 2 - 1) (sorted Py.leb l) 0),
           (nth (List.length l / 2) (sorted Py.leb l) 0).
    assert (Hi : (List.length l / 2 < List.length l)%nat)
      by (apply Nat.div_lt; lia).
    split; [apply Hnth; lia|]. split; [now apply Hnth|].
    rewrite (Heven E). reflexivity.
Qed.

Lemma day_contribution_cases (drows : list row) :
  day_contribution drows = [] \/
  exists e, day_contribution drows = [e] /\ 0 < e.
Proof.
  destruct (day_estimates_spec drows) as (st & _ & _ & _ & Hyes & Hno).
  cbv zeta in Hyes, Hno.
  set (w := Py.sum (slice (best_start st) (best_end st + 1)
                          (day_discharge drows))) in *.
  destruct (Qlt_le_dec 30 (best_drop st)) as [Hdrop | Hdrop];
    [|left; apply Hno; now left].
  destruct (Qlt_le_dec 0 w) as [Hw | Hw]; [|left; apply Hno; now right].
  right. exists (w / (best_drop st / 100)). split; [now apply Hyes|].
  apply Qlt_shift_div_l; [|lra].
  apply Qlt_shift_div_l; lra.
Qed.

(** X13.  The loop over the days yields at most one estimate per calendar
    day, and every estimate is positive; so for a positive nominal
    capacity the estimated usable capacity is positive, whether it is the
    median of the estimates or the fallback. *)
Theorem usable_capacity_positive (rows : list row) (nominal_kwh : Q) :
  exists ests,
    usable_estimates rows = Some ests /\
    (List.length ests <= List.length (all_days rows))%nat /\
    (forall e, In e ests -> 0 < e) /\
    (0 < nominal_kwh ->
     exists v, estimated_usable rows nominal_kwh = Some v /\ 0 < v).
Proof.
  exists (flat_map (fun d => day_contribution (rows_of_day rows d))
                   (all_days rows)).
  split; [apply usable_estimates_spec|].
  assert (Hpos : forall e,
             In e (flat_map (fun d => day_contribution (rows_of_day rows d))
                            (all_days rows)) -> 0 < e).
  { intros e He. apply in_flat_map in He. destruct He as (d & _ & He).
    destruct (day_contribution_cases (rows_of_day rows d)) as [E | (e' & E & H)];
      rewrite E in He; [destruct He|].
    destruct He as [<- | []]. assumption. }
  split; [|split; [exact Hpos|]].
  - clear Hpos. induction (all_days rows) as [|d ds IH]; [apply Nat.le_refl|].
    cbn [flat_map]. rewrite length_app. cbn [List.length].
    destruct (day_contribution_cases (rows_of_day rows d)) as [E | (e' & E & _)];
      rewrite E; cbn [List.length]; lia.
  - intro Hnom. unfold estimated_usable. rewrite usable_estimates_spec.
    destruct (flat_map (fun d => day_contribution (rows_of_day rows d))
                       (all_days rows)) as [|e es] eqn:E.
    + eexists. split; [reflexivity | lra].
    + eexists. split; [reflexivity|].
      destruct (median_of_two (e :: es)) as (x & y & Hx & Hy & Hm);
        [discriminate|].
      rewrite Hm. apply Hpos in Hx. apply Hpos in Hy.
      apply Qlt_shift_div_l; lra.
Qed.

(** The theorem at a full day draining 60 points with 10.5 kWh
    discharged, for a nominal capacity of 20 kWh. *)
Lemma usable_capacity_positive_witness :
  exists v,
    estimated_usable (draining_day "2026-01-01" (1 # 2)) 20 = Some v /\ 0 < v.
Proof.
  destruct (usable_capacity_positive (draining_day "2026-01-01" (1 # 2)) 20)
    as (ests & _ & _ & _ & H).
  apply H. reflexivity.
Defined.

(** ** Additional panels *)

Lemma panels_fold_total (scale : Q) (rows : list row) (acc : Q * Q) :
  let res := fold_left (panels_step scale) rows acc in
  fst res + snd res
  == fst acc + snd acc + (scale - 1) * Py.sum (map PV_Energy_kWh rows).
Proof.
  revert acc. induction rows as [|r rows IH]; intro acc; cbn [fold_left map].
  - change (Py.sum []) with 0. ring.
  - cbv zeta in IH. rewrite IH, sum_cons. unfold panels_step.
    destruct (Py.ltb 0 (Grid_Import_kWh r)); cbn [fst snd]; ring.
Qed.

Lemma panels_fold_bounds (scale : Q) (rows : list row) (acc : Q * Q) :
  1 <= scale ->
  (forall r, In r rows -> 0 <= PV_Energy_kWh r /\ 0 <= Grid_Import_kWh r) ->
  let res := fold_left (panels_step scale) rows acc in
  fst acc <= fst res /\
  fst res <= fst acc + Py.sum (map Grid_Import_kWh rows) /\
  snd acc <= snd res.
Proof.
  intros Hscale. revert acc.
  induction rows as [|r rows IH]; intros acc Hrows; cbn [fold_left map].
  - change (Py.sum []) with 0. cbv zeta. lra.
  - destruct (Hrows r ltac:(now left)) as [Hpv Himp].
    destruct (IH (panels_step scale acc r)
                 ltac:(intros r' Hr'; apply Hrows; now right))
      as (H1 & H2 & H3).
    cbv zeta. rewrite sum_cons.
    assert (Hextra : 0 <= PV_Energy_kWh r * (scale - 1))
      by (apply Qmult_le_0_compat; lra).
    unfold panels_step in H1, H2, H3 |- *.
    destruct (Py.ltb 0 (Grid_Import_kWh r)); cbn [fst snd] in *.
    + destruct (min_spec (PV_Energy_kWh r * (scale - 1)) (Grid_Import_kWh r))
        as [[Hm E] | [Hm E]]; rewrite E in *; lra.
    + lra.
Qed.

(** X14.  The additional-panel projection returns nothing when no capacity
    is added and fails on a current capacity of zero.  Otherwise the extra
    energy is split without loss: self-consumed plus exported is the
    added share [additional_kwp / current_kwp] of the PV energy; for
    non-negative PV and import and a positive current capacity neither
    part is negative and the self-consumed part does not exceed the grid
    import; and without a full day the three daily figures are 0. *)
Theorem additional_panels (rows : list row)
        (current_kwp additional_kwp feedin_ratio import_rate : Q) :
  (additional_kwp <= 0 ->
   compute_additional_panels rows current_kwp additional_kwp feedin_ratio
                             import_rate = Some None) /\
  (0 < additional_kwp -> current_kwp == 0 ->
   compute_additional_panels rows current_kwp additional_kwp feedin_ratio
                             import_rate = None) /\
  (0 < additional_kwp -> ~ current_kwp == 0 ->
   exists rep,
     compute_additional_panels rows current_kwp additional_kwp feedin_ratio
                               import_rate = Some (Some rep) /\
     let extra :=
       panels_extra rows ((current_kwp + additional_kwp) / current_kwp) in
     extra_self_consumed_total rep = Py.round (fst extra) 1 /\
     extra_exported_total rep = Py.round (snd extra) 1 /\
     fst extra + snd extra
     == additional_kwp / current_kwp * Py.sum (map PV_Energy_kWh rows) /\
     (0 < current_kwp ->
      (forall r, In r rows -> 0 <= PV_Energy_kWh r /\ 0 <= Grid_Import_kWh r) ->
      0 <= fst extra /\ fst extra <= Py.sum (map Grid_Import_kWh rows) /\
      0 <= snd extra) /\
     (count_full_days rows = 0%nat ->
      extra_self_consumed_daily rep = 0 /\ extra_exported_daily rep = 0 /\
      extra_daily_savings rep == 0)).
Proof.
  unfold compute_additional_panels. split; [|split].
  - intro H. apply leb_le in H. now rewrite H.
  - intros Ha Hc. apply leb_gt in Ha. rewrite Ha.
    apply Qeq_eq_bool in Hc. now rewrite Hc.
  - intros Ha Hc. apply leb_gt in Ha. rewrite Ha.
    destruct (Qeq_bool current_kwp 0) eqn:E;
      [apply Qeq_bool_eq in E; contradiction|].
    eexists. split; [reflexivity|].
    cbn [extra_self_consumed_total extra_exported_total
         extra_self_consumed_daily extra_exported_daily extra_daily_savings].
    split; [reflexivity|]. split; [reflexivity|].
    split.
    { unfold panels_extra.
      rewrite (panels_fold_total _ rows (0, 0)). cbn [fst snd]. field.
      assumption. }
    split.
    { intros Hpos Hrows.
      assert (Hscale : 1 <= (current_kwp + additional_kwp) / current_kwp).
      { apply Qle_shift_div_l; [assumption|]. apply leb_gt in Ha. lra. }
      destruct (panels_fold_bounds _ rows (0, 0) Hscale Hrows)
        as (H1 & H2 & H3).
      cbn [fst snd] in H1, H2, H3. unfold panels_extra. lra. }
    intro Hnone. rewrite Hnone. cbn [Nat.ltb Nat.leb].
    split; [reflexivity|]. split; [reflexivity|]. apply round_zero.
Qed.

(** The theorem at one evening hour importing 1 kWh and one noon hour
    with 5.2 kWh of PV and no import, for 1.5 kWp added to 6 kWp. *)
Lemma additional_panels_witness :
  let extra := panels_extra [enrich evening_row; enrich bright_row]
                            ((6 + (15 # 10)) / 6) in
  fst extra + snd extra == 13 # 10 /\ 0 <= fst extra.
Proof.
  cbv zeta.
  destruct (additional_panels [enrich evening_row; enrich bright_row]
                              6 (15 # 10) 0 14) as (_ & _ & H).
  destruct H as (rep & _ & _ & _ & Htot & Hbounds & _).
  - reflexivity.
  - discriminate.
  - split.
    + rewrite Htot. reflexivity.
    + apply Hbounds; [reflexivity|].
      intros r Hr. cbn in Hr. destruct Hr as [<- | [<- | []]];
        split; vm_compute; discriminate.
Defined.

(** ** Best and worst days *)

Lemma max_by_spec {A} (key : A -> Q) (items : list A) (first : A) :
  let best := max_by key first items in
  In best (first :: items) /\
  forall x, In x (first :: items) -> key x <= key best.
Proof.
  unfold max_by. revert first.
  induction items as [|y items IH]; intro first; cbn [fold_left].
  - split; [now left|]. intros x [<- | []]. lra.
  - destruct (IH (if Py.ltb (key first) (key y) then y else first)) as [H1 H2].
    cbv zeta in *. split.
    + destruct H1 as [H1 | H1]; [|right; now right].
      rewrite <- H1. destruct (Py.ltb (key first) (key y)); [right|]; now left.
    + intros x Hx.
      assert (Hstep : key first
                      <= key (if Py.ltb (key first) (key y) then y else first)
                      /\ key y
                         <= key (if Py.ltb (key first) (key y) then y else first)).
      { destruct (Py.ltb (key first) (key y)) eqn:E.
        - apply ltb_lt in E. lra.
        - apply ltb_ge in E. lra. }
      pose proof (H2 _ (or_introl eq_refl)) as Hcur.
      destruct Hx as [<- | [<- | Hx]]; [lra | lra |].
      apply H2. now right.
Qed.

Lemma min_by_spec {A} (key : A -> Q) (items : list A) (first : A) :
  let worst := min_by key first items in
  In worst (first :: items) /\
  forall x, In x (first :: items) -> key worst <= key x.
Proof.
  unfold min_by. revert first.
  induction items as [|y items IH]; intro first; cbn [fold_left].
  - split; [now left|]. intros x [<- | []]. lra.
  - destruct (IH (if Py.ltb (key y) (key first) then y else first)) as [H1 H2].
    cbv zeta in *. split.
    + destruct H1 as [H1 | H1]; [|right; now right].
      rewrite <- H1. destruct (Py.ltb (key y) (key first)); [right|]; now left.
    + intros x Hx.
      assert (Hstep : key (if Py.ltb (key y) (key first) then y else first)
                      <= key first
                      /\ key (if Py.ltb (key y) (key first) then y else first)
                         <= key y).
      { destruct (Py.ltb (key y) (key first)) eqn:E.
        - apply ltb_lt in E. lra.
        - apply ltb_ge in E. lra. }
      pose proof (H2 _ (or_introl eq_refl)) as Hcur.
      destruct Hx as [<- | [<- | Hx]]; [lra | lra |].
      apply H2. now right.
Qed.

(** The days ranked are the full days, in calendar order of appearance. *)
Lemma best_worst_stats_days (rows : list row) (ev_days : list string) :
  map fst (best_worst_stats rows ev_days) = full_days rows.
Proof.
  unfold best_worst_stats. rewrite by_day_spec. unfold full_days.
  induction (all_days rows) as [|d ds IH]; [reflexivity|].
  cbn [map flat_map filter]. rewrite map_app, IH.
  unfold is_full_day at 2.
  destruct (List.length (rows_of_day rows d) <=? 20) eqn:E.
  - apply Nat.leb_le in E.
    assert (E' : (20 <? List.length (rows_of_day rows d)) = false)
      by (apply Nat.ltb_ge; lia).
    now rewrite E'.
  - apply Nat.leb_gt in E.
    assert (E' : (20 <? List.length (rows_of_day rows d)) = true)
      by (apply Nat.ltb_lt; lia).
    rewrite E'.
    destruct (rows_of_day rows d) as [|r rs] eqn:Er; [cbn in E; lia|].
    reflexivity.
Qed.

(** X15.  Best and worst days: nothing is returned exactly when the input
    has no full day.  Otherwise the best and the worst day are full days,
    and the self-sufficiency of every ranked day lies between that of the
    worst and that of the best. *)
Theorem best_worst_days (rows : list row) (ev_days : list string) :
  (compute_best_worst_days rows ev_days = None <-> full_days rows = []) /\
  (forall best worst,
      compute_best_worst_days rows ev_days = Some (best, worst) ->
      In best (best_worst_stats rows ev_days) /\
      In worst (best_worst_stats rows ev_days) /\
      is_full_day rows (fst best) = true /\
      is_full_day rows (fst worst) = true /\
      ds_is_ev (snd best) = mem (fst best) ev_days /\
      forall d s,
        In (d, s) (best_worst_stats rows ev_days) ->
        ds_self_sufficiency (snd worst) <= ds_self_sufficiency s /\
        ds_self_sufficiency s <= ds_self_sufficiency (snd best)).
Proof.
  pose proof (best_worst_stats_days rows ev_days) as Hdays.
  unfold compute_best_worst_days. split.
  - destruct (best_worst_stats rows ev_days) as [|first others].
    + cbn in Hdays. split; [now intros _ | reflexivity].
    + cbn [map] in Hdays. split; [discriminate|].
      intro E. rewrite E in Hdays. discriminate.
  - intros best worst Hres.
    assert (Hfull : forall x, In x (best_worst_stats rows ev_days) ->
                              is_full_day rows (fst x) = true).
    { intros x Hx. apply full_days_In. rewrite <- Hdays. now apply in_map. }
    assert (Hev : forall x, In x (best_worst_stats rows ev_days) ->
                            ds_is_ev (snd x) = mem (fst x) ev_days).
    { intros x Hx. unfold best_worst_stats in Hx. apply in_flat_map in Hx.
      destruct Hx as ([day drows] & _ & Hx).
      destruct (List.length drows <=? 20); [destruct Hx|].
      destruct (max_of (map Max_SOC_Pct drows)); [|destruct Hx].
      destruct Hx as [<- | []]. reflexivity. }
    destruct (best_worst_stats rows ev_days) as [|first others] eqn:E;
      [discriminate|].
    injection Hres as <- <-.
    destruct (max_by_spec (fun ds : string * day_stats =>
                             ds_self_sufficiency (snd ds)) others first)
      as [Hb1 Hb2].
    destruct (min_by_spec (fun ds : string * day_stats =>
                             ds_self_sufficiency (snd ds)) others first)
      as [Hw1 Hw2].
    cbv zeta in Hb1, Hb2, Hw1, Hw2.
    split; [assumption|]. split; [assumption|].
    split; [now apply Hfull|]. split; [now apply Hfull|].
    split; [now apply Hev|].
    intros d s Hin. split.
    + apply (Hw2 (d, s) Hin).
    + apply (Hb2 (d, s) Hin).
Qed.

(** The theorem at three full days and at ten hours of one day. *)
Lemma best_worst_days_witness :
  compute_best_worst_days short_rows [] = None /\
  exists best worst,
    compute_best_worst_days three_days [] = Some (best, worst) /\
    ds_self_sufficiency (snd worst) <= ds_self_sufficiency (snd best).
Proof.
  split.
  - apply (proj1 (best_worst_days short_rows [])). reflexivity.
  - destruct (compute_best_worst_days three_days []) as [[best worst]|] eqn:E;
      [|vm_compute in E; discriminate].
    exists best, worst. split; [reflexivity|].
    destruct (proj2 (best_worst_days three_days []) best worst E)
      as (Hb & _ & _ & _ & _ & Hrank).
    destruct best as [d s]. apply (Hrank d s Hb).
Defined.

(** ** Month-over-month trends *)

Lemma lookup_In {B} (k : string) (d : list (string * B)) :
  In k (map fst d) -> exists v, lookup k d = Some v /\ In (k, v) d.
Proof.
  induction d as [|[k' v] d IH]; cbn [map fst In lookup]; [intros []|].
  intro H. destruct (String.eqb_spec k' k) as [->|Hne].
  - exists v. split; [reflexivity | now left].
  - destruct H as [H | H]; [congruence|].
    destruct (IH H) as (v' & Hl & Hin). exists v'. split; [assumption | now right].
Qed.

Lemma trends_from_spec (mt : list (string * month_totals))
      (me : list (string * month_efficiency)) (rest : list string) (m1 : string) :
  (forall m, In m (m1 :: rest) -> In m (map fst mt)) ->
  (forall m d, In (m, d) mt -> (0 < days d)%nat) ->
  exists ts,
    trends_from mt me m1 rest = Some ts /\
    map trend_from ts = removelast (m1 :: rest) /\
    map trend_to ts = rest.
Proof.
  revert m1. induction rest as [|m2 rest IH]; intros m1 Hkeys Hdays.
  - exists []. repeat split.
  - cbn [trends_from].
    destruct (lookup_In m1 mt (Hkeys m1 ltac:(now left))) as (d1 & E1 & Hd1).
    destruct (lookup_In m2 mt (Hkeys m2 ltac:(right; now left)))
      as (d2 & E2 & Hd2).
    rewrite E1, E2.
    destruct (IH m2 ltac:(intros m Hm; apply Hkeys; now right) Hdays)
      as (ts & Ets & Hfrom & Hto).
    rewrite Ets.
    assert (Hn1 : Nat.eqb (days d1) 0 = false)
      by (apply Nat.eqb_neq; specialize (Hdays m1 d1 Hd1); lia).
    assert (Hn2 : Nat.eqb (days d2) 0 = false)
      by (apply Nat.eqb_neq; specialize (Hdays m2 d2 Hd2); lia).
    unfold trend_of. rewrite Hn1, Hn2. cbn [orb].
    eexists. split; [reflexivity|].
    cbn [map trend_from trend_to]. rewrite Hfrom, Hto.
    split; reflexivity.
Qed.

(** X16.  Trends.  With fewer than two months nothing is returned.  With
    two or more months that all have a positive day count there is one
    trend per pair of consecutive months in ascending order.  On the
    monthly totals the engine computes it never divides by zero, and it
    returns nothing exactly when the totals have fewer than two months. *)
Theorem trends_of_months (mt : list (string * month_totals))
        (me : list (string * month_efficiency)) :
  let months := sorted_keys (map fst mt) in
  ((List.length mt < 2)%nat -> compute_trends mt me = Some None) /\
  ((2 <= List.length mt)%nat ->
   (forall m d, In (m, d) mt -> (0 < days d)%nat) ->
   exists ts,
     compute_trends mt me = Some (Some ts) /\
     (List.length ts + 1 = List.length mt)%nat /\
     map trend_from ts = removelast months /\
     map trend_to ts = tl months) /\
  (forall rows,
      mt = compute_monthly_totals rows ->
      compute_trends mt me <> None /\
      (compute_trends mt me = Some None <-> (List.length mt < 2)%nat)).
Proof.
  cbv zeta.
  assert (Hlen : List.length (sorted_keys (map fst mt)) = List.length mt).
  { unfold sorted_keys.
    rewrite (Permutation_length (sorted_perm String.leb (map fst mt))).
    apply length_map. }
  assert (Hfew : (List.length mt < 2)%nat -> compute_trends mt me = Some None).
  { intro H. unfold compute_trends.
    destruct (sorted_keys (map fst mt)) as [|m1 [|m2 rest]];
      cbn [List.length] in Hlen; [reflexivity | reflexivity | lia]. }
  assert (Hmany : (2 <= List.length mt)%nat ->
                  (forall m d, In (m, d) mt -> (0 < days d)%nat) ->
                  exists ts,
                    compute_trends mt me = Some (Some ts) /\
                    (List.length ts + 1 = List.length mt)%nat /\
                    map trend_from ts = removelast (sorted_keys (map fst mt)) /\
                    map trend_to ts = tl (sorted_keys (map fst mt))).
  { intros H Hdays. unfold compute_trends.
    assert (Hkeys : forall m, In m (sorted_keys (map fst mt)) ->
                              In m (map fst mt))
      by (intros m Hm; unfold sorted_keys in Hm; apply sorted_In in Hm;
          exact Hm).
    destruct (sorted_keys (map fst mt)) as [|m1 [|m2 rest]] eqn:E;
      cbn [List.length] in Hlen; [lia | lia |].
    destruct (trends_from_spec mt me (m2 :: rest) m1 Hkeys Hdays)
      as (ts & Ets & Hfrom & Hto).
    rewrite Ets. exists ts. cbn [option_map tl].
    split; [reflexivity|]. split; [|split; assumption].
    rewrite <- Hlen, <- (length_map trend_to ts), Hto. cbn [List.length]. lia. }
  split; [exact Hfew|]. split; [exact Hmany|].
  intros rows ->.
  assert (Hdays : forall m d, In (m, d) (compute_monthly_totals rows) ->
                              (0 < days d)%nat).
  { intros m d Hin. rewrite (monthly_totals_In rows m d Hin).
    unfold month_totals_of. cbn [days].
    assert (Hne : rows_of_month rows m <> []).
    { unfold compute_monthly_totals in Hin. apply in_map_iff in Hin.
      destruct Hin as ([m' mrows] & E & Hin). injection E as -> _.
      unfold sorted_items in Hin. apply sorted_In in Hin.
      pose proof (group_by_spec row_month rows) as Hspec.
      rewrite Hspec in Hin. apply in_map_iff in Hin.
      destruct Hin as (k & E & Hk). injection E as -> _.
      apply distinct_keys_In, in_map_iff in Hk. destruct Hk as (r & Er & Hr).
      intro E. assert (Hf : In r (rows_of_month rows m)).
      { apply filter_In. split; [assumption | now apply String.eqb_eq]. }
      rewrite E in Hf. destruct Hf. }
    pose proof (count_days_bounds _ Hne). lia. }
  destruct (Nat.lt_ge_cases (List.length (compute_monthly_totals rows)) 2)
    as [Hlt | Hge].
  - rewrite (Hfew Hlt). split; [discriminate | tauto].
  - destruct (Hmany Hge Hdays) as (ts & Ets & _). rewrite Ets.
    split; [discriminate|]. split; [discriminate | lia].
Qed.

(** The theorem at the records of two months. *)
Lemma trends_of_months_witness :
  exists ts,
    compute_trends (compute_monthly_totals two_months)
                   (monthly_efficiency_of two_months) = Some (Some ts) /\
    map trend_from ts = ["2026-01"%string] /\
    map trend_to ts = ["2026-02"%string].
Proof.
  destruct (trends_of_months (compute_monthly_totals two_months)
                             (monthly_efficiency_of two_months))
    as (_ & H & _).
  destruct H as (ts & Hts & _ & Hfrom & Hto).
  - vm_compute. lia.
  - intros m d Hin. vm_compute in Hin.
    destruct Hin as [E | [E | []]]; injection E as _ <-; cbn; lia.
  - exists ts. split; [exact Hts|]. split; [exact Hfrom | exact Hto].
Defined.

(** ** The battery report *)

Lemma usable_estimates_length (rows : list row) :
  usable_estimates rows
  = Some (flat_map (fun d => day_contribution (rows_of_day rows d))
                   (all_days rows)) /\
  (List.length (flat_map (fun d => day_contribution (rows_of_day rows d))
                         (all_days rows))
   <= List.length (all_days rows))%nat.
Proof.
  split; [apply usable_estimates_spec|].
  induction (all_days rows) as [|d ds IH]; [apply Nat.le_refl|].
  cbn [flat_map]. rewrite length_app. cbn [List.length].
  destruct (day_contribution_cases (rows_of_day rows d)) as [E | (e' & E & _)];
    rewrite E; cbn [List.length]; lia.
Qed.

Lemma by_day_rows (rows : list row) (d : string) (drows : list row) :
  In (d, drows) (group_by rows row_day) ->
  drows = rows_of_day rows d /\ In d (all_days rows).
Proof.
  rewrite by_day_spec. intro Hin. apply in_map_iff in Hin.
  destruct Hin as (k & E & Hk). injection E as -> <-. now split.
Qed.

Lemma daily_batt_total (est : Q) (by_day : list (string * list row)) :
  (forall d drows, In (d, drows) by_day -> drows <> []) ->
  exists db, daily_batt_of est by_day = Some db /\
             map fst db = map fst by_day.
Proof.
  induction by_day as [|[d drows] by_day IH]; intro Hne.
  - exists []. split; reflexivity.
  - cbn [daily_batt_of].
    destruct (IH ltac:(intros d' dr' H; apply (Hne d' dr'); now right))
      as (db & Edb & Hkeys).
    assert (Hd : drows <> []) by (apply (Hne d drows); now left).
    destruct drows as [|r rs]; [congruence|].
    cbn [map max_of min_of]. rewrite Edb.
    eexists. split; [reflexivity|]. cbn [map fst]. now rewrite Hkeys.
Qed.

Lemma by_day_nonempty (rows : list row) (d : string) (drows : list row) :
  In (d, drows) (group_by rows row_day) -> drows <> [].
Proof.
  intro Hin. destruct (by_day_rows rows d drows Hin) as [-> Hd].
  unfold all_days in Hd. apply distinct_keys_In, in_map_iff in Hd.
  destruct Hd as (r & Er & Hr). intro E.
  assert (Hf : In r (rows_of_day rows d)).
  { apply filter_In. split; [assumption | now apply String.eqb_eq]. }
  rewrite E in Hf. destruct Hf.
Qed.

Lemma count_full_days_spec (rows : list row) :
  count_full_days rows = List.length (full_days rows).
Proof.
  unfold count_full_days. rewrite <- main_all_days. now rewrite length_map.
Qed.

Lemma fold_add_sum {A} (g : A -> Q) (l : list A) (a : Q) :
  fold_left (fun total x => total + g x) l a == a + Py.sum (map g l).
Proof.
  revert a. induction l as [|x l IH]; intro a; cbn [fold_left map].
  - change (Py.sum []) with 0. ring.
  - rewrite IH, sum_cons. ring.
Qed.

Lemma sum_app (l1 l2 : list Q) : Py.sum (l1 ++ l2) == Py.sum l1 + Py.sum l2.
Proof.
  induction l1 as [|x l1 IH]; cbn [app].
  - change (Py.sum []) with 0. ring.
  - rewrite !sum_cons, IH. ring.
Qed.

(** A sum over the rows is the sum over the days of the sums of each
    day. *)
Lemma sum_by_day (f : row -> Q) (rows : list row) :
  Py.sum (map f rows)
  == Py.sum (map (fun dr : string * list row => Py.sum (map f (snd dr)))
                 (group_by rows row_day)).
Proof.
  rewrite <- (sum_perm _ _ (Permutation_map f (group_by_concat rows row_day))).
  induction (group_by rows row_day) as [|[d drows] g IH];
    cbn [map List.concat snd].
  - reflexivity.
  - rewrite map_app, sum_app, sum_cons, IH. reflexivity.
Qed.

Lemma day_avoidable_bounds (drows : list row) :
  0 <= day_avoidable drows /\
  (0 <= Py.sum (map Grid_Import_kWh drows) ->
   day_avoidable drows <= Py.sum (map Grid_Import_kWh drows)).
Proof.
  unfold day_avoidable.
  destruct (max_spec 0 (Py.sum (map Load_kWh drows)
                        - Py.sum (map PV_Energy_kWh drows)))
    as [[H1 E1] | [H1 E1]]; rewrite E1;
    match goal with
    | |- context [Py.max 0 ?x] =>
      destruct (max_spec 0 x) as [[H2 E2] | [H2 E2]]; rewrite E2
    end; split; intros; lra.
Qed.

(** X17.  The battery analysis fails exactly on a nominal capacity of
    zero.  In its report the avoidable import and its daily average are
    never negative, the daily average is 0 when the input has no full day,
    the count of estimate days is at most the number of calendar days,
    and, for records whose grid import is non-negative, the avoidable
    import is at most the total grid import. *)
Theorem battery_analysis_report (rows : list row) (nominal_kwh : Q)
        (ev_days non_ev_days : list string) :
  (compute_battery_analysis rows nominal_kwh ev_days non_ev_days = None
   <-> nominal_kwh == 0) /\
  (forall rep,
      compute_battery_analysis rows nominal_kwh ev_days non_ev_days = Some rep ->
      0 <= br_avoidable_import_total rep /\
      0 <= br_avg_avoidable_per_day rep /\
      (full_days rows = [] -> br_avg_avoidable_per_day rep == 0) /\
      (br_usable_estimate_days rep <= List.length (all_days rows))%nat /\
      ((forall r, In r rows -> 0 <= Grid_Import_kWh r) ->
       br_avoidable_import_total rep
       <= Py.round (Py.sum (map Grid_Import_kWh rows)) 1)).
Proof.
  unfold compute_battery_analysis.
  destruct (usable_estimates_length rows) as (Hest & Hlen).
  rewrite Hest.
  set (ests := flat_map (fun d => day_contribution (rows_of_day rows d))
                        (all_days rows)) in *.
  set (est := match ests with
              | [] => nominal_kwh * (9 # 10)
              | _ :: _ => median ests
              end).
  destruct (daily_batt_total est (group_by rows row_day) (by_day_nonempty rows))
    as (db & Edb & _).
  rewrite Edb.
  assert (Hav : 0 <= avoidable_total_of (group_by rows row_day)).
  { unfold avoidable_total_of. rewrite fold_add_sum.
    assert (0 <= Py.sum (map (fun dr : string * list row => day_avoidable (snd dr))
                             (group_by rows row_day))).
    { apply sum_nonneg. intros x Hx. apply in_map_iff in Hx.
      destruct Hx as (dr & <- & _). apply day_avoidable_bounds. }
    lra. }
  split.
  - destruct (Qeq_bool nominal_kwh 0) eqn:E.
    + apply Qeq_bool_eq in E. split; [now intros _ | reflexivity].
    + apply Qeq_bool_neq in E. split; [discriminate | contradiction].
  - intros rep Hrep.
    destruct (Qeq_bool nominal_kwh 0); [discriminate|].
    injection Hrep as <-.
    cbn [br_avoidable_import_total br_avg_avoidable_per_day
         br_usable_estimate_days].
    rewrite count_full_days_spec.
    split; [now apply round_nonneg|].
    split.
    { apply round_nonneg.
      destruct (0 <? List.length (full_days rows))%nat eqn:E; [|lra].
      apply Nat.ltb_lt in E. apply Qle_shift_div_l; [|lra].
      change 0 with (inject_Z 0). rewrite <- Zlt_Qlt. lia. }
    split.
    { intro Hnone. rewrite Hnone. cbn [List.length Nat.ltb Nat.leb].
      apply round_zero. }
    split; [exact Hlen|].
    intro Himp. apply round_mono. unfold avoidable_total_of.
    rewrite fold_add_sum, (sum_by_day Grid_Import_kWh rows).
    assert (Hall : forall g : list (string * list row),
               (forall dr, In dr g -> forall r, In r (snd dr) ->
                                                0 <= Grid_Import_kWh r) ->
               Py.sum (map (fun dr : string * list row => day_avoidable (snd dr)) g)
               <= Py.sum (map (fun dr : string * list row =>
                                 Py.sum (map Grid_Import_kWh (snd dr))) g)).
    { induction g as [|dr g IH]; intro Hg; cbn [map]; [lra|].
      rewrite !sum_cons.
      assert (H0 : 0 <= Py.sum (map Grid_Import_kWh (snd dr))).
      { apply sum_nonneg. intros x Hx. apply in_map_iff in Hx.
        destruct Hx as (r & <- & Hr). apply (Hg dr); [now left | assumption]. }
      pose proof (proj2 (day_avoidable_bounds (snd dr)) H0).
      assert (Py.sum (map (fun dr0 : string * list row => day_avoidable (snd dr0)) g)
              <= Py.sum (map (fun dr0 : string * list row =>
                                Py.sum (map Grid_Import_kWh (snd dr0))) g))
        by (apply IH; intros dr' Hdr'; apply Hg; now right).
      lra. }
    assert (Hgroups : forall dr, In dr (group_by rows row_day) ->
                                 forall r, In r (snd dr) ->
                                           0 <= Grid_Import_kWh r).
    { intros [d drows] Hdr r Hr. apply Himp.
      destruct (by_day_rows rows d drows Hdr) as [E _].
      cbn [snd] in Hr. rewrite E in Hr. now apply filter_In in Hr. }
    specialize (Hall _ Hgroups). lra.
Qed.

(** The theorem at a full day draining 60 points, for a nominal capacity
    of 20 kWh. *)
Lemma battery_analysis_report_witness :
  exists rep,
    compute_battery_analysis (draining_day "2026-01-01" (1 # 2)) 20 [] []
    = Some rep /\
    0 <= br_avoidable_import_total rep /\
    (br_usable_estimate_days rep <= 1)%nat.
Proof.
  destruct (battery_analysis_report (draining_day "2026-01-01" (1 # 2)) 20 [] [])
    as [Hnone Hrep].
  destruct (compute_battery_analysis (draining_day "2026-01-01" (1 # 2)) 20 [] [])
    as [rep|].
  - exists rep. split; [reflexivity|].
    destruct (Hrep rep eq_refl) as (H1 & _ & _ & H2 & _).
    split; [exact H1 | exact H2].
  - exfalso. assert (H : 20 == 0) by (apply Hnone; reflexivity).
    vm_compute in H. discriminate.
Defined.

(** ** Battery health on the engine's own battery report *)

Lemma mean_nonneg (l : list Q) : (forall x, In x l -> 0 <= x) -> 0 <= mean l.
Proof.
  intro H. destruct l as [|x l]; [cbn; lra|].
  rewrite mean_nonempty by discriminate.
  apply Qle_shift_div_l; [apply len_pos; discriminate|].
  pose proof (sum_nonneg (x :: l) H). lra.
Qed.

Lemma daily_batt_discharge (est : Q) (by_day : list (string * list row))
      (db : list (string * day_battery)) :
  daily_batt_of est by_day = Some db ->
  forall v, In v db ->
            exists d drows,
              In (d, drows) by_day /\
              db_discharge (snd v) = Py.sum (map Battery_Discharge_kWh drows).
Proof.
  revert db. induction by_day as [|[d drows] by_day IH]; intros db Hdb v Hv.
  - injection Hdb as <-. destruct Hv.
  - cbn [daily_batt_of] in Hdb.
    destruct (max_of (map Max_SOC_Pct drows)); [|discriminate].
    destruct (min_of (map Min_SOC_Pct drows)); [|discriminate].
    destruct (daily_batt_of est by_day) as [rest|]; [|discriminate].
    injection Hdb as <-. destruct Hv as [<- | Hv].
    + exists d, drows. split; [now left | reflexivity].
    + destruct (IH rest eq_refl v Hv) as (d' & dr' & Hin & E).
      exists d', dr'. split; [now right | assumption].
Qed.

(** X18.  Battery health computed from the engine's own battery report,
    for records whose discharge is non-negative and a non-negative system
    age: the usable capacity, the daily and annual cycles and the cycles
    used are never negative, and neither are the remaining years when they
    are given. *)
Theorem battery_health_of_report (rows : list row) (nominal_kwh age : Q)
        (ev_days non_ev_days : list string) (rep : battery_report) :
  compute_battery_analysis rows nominal_kwh ev_days non_ev_days = Some rep ->
  0 < nominal_kwh ->
  (forall r, In r rows -> 0 <= Battery_Discharge_kWh r) ->
  0 <= age ->
  let h := compute_battery_health (battery_analysis_of rep) age in
  0 <= bh_usable_kwh h /\ 0 <= daily_equiv_cycles h /\
  0 <= annual_cycles h /\ 0 <= cycles_used h /\
  (forall y, remaining_cycle_years h = Some y -> 0 <= y).
Proof.
  intros Hrep Hnom Hdis Hage.
  assert (Husable : 0 <= br_estimated_usable_kwh rep /\ 0 <= br_avg_discharge rep).
  { unfold compute_battery_analysis in Hrep.
    destruct (usable_estimates_length rows) as (Hest & _).
    rewrite Hest in Hrep.
    set (ests := flat_map (fun d => day_contribution (rows_of_day rows d))
                          (all_days rows)) in *.
    assert (Hpos : 0 <= match ests with
                        | [] => nominal_kwh * (9 # 10)
                        | _ :: _ => median ests
                        end).
    { destruct ests as [|e es] eqn:E; [lra|].
      destruct (median_of_two (e :: es)) as (x & y & Hx & Hy & Hm);
        [discriminate|].
      assert (Hall : forall z, In z (e :: es) -> 0 < z).
      { intros z Hz. rewrite <- E in Hz. unfold ests in Hz.
        apply in_flat_map in Hz. destruct Hz as (d & _ & Hz).
        destruct (day_contribution_cases (rows_of_day rows d))
          as [E' | (e' & E' & H)]; rewrite E' in Hz; [destruct Hz|].
        destruct Hz as [<- | []]. assumption. }
      rewrite Hm. apply Hall in Hx. apply Hall in Hy.
      apply Qle_shift_div_l; lra. }
    destruct (Qeq_bool nominal_kwh 0); [discriminate|].
    destruct (daily_batt_of _ (group_by rows row_day)) as [db|] eqn:Edb;
      [|discriminate].
    injection Hrep as <-. cbn [br_estimated_usable_kwh br_avg_discharge].
    split; [now apply round_nonneg|].
    apply round_nonneg, mean_nonneg. intros x Hx.
    apply in_map_iff in Hx. destruct Hx as (v & <- & Hv).
    destruct (daily_batt_discharge _ _ _ Edb v Hv) as (d & drows & Hin & E).
    rewrite E. apply sum_nonneg. intros z Hz. apply in_map_iff in Hz.
    destruct Hz as (r & <- & Hr). apply Hdis.
    destruct (by_day_rows rows d drows Hin) as [Er _]. rewrite Er in Hr.
    now apply filter_In in Hr. }
  destruct Husable as [Hu Hd]. cbv zeta.
  unfold compute_battery_health, battery_analysis_of.
  cbn [estimated_usable_kwh avg_discharge bh_usable_kwh daily_equiv_cycles
       annual_cycles cycles_used remaining_cycle_years].
  set (usable := br_estimated_usable_kwh rep) in *.
  set (avg := br_avg_discharge rep) in *.
  assert (Hdaily : 0 <= (if Py.ltb 0 usable then avg / usable else 0)).
  { destruct (Py.ltb 0 usable) eqn:E; [|lra].
    apply ltb_lt in E. apply Qle_shift_div_l; lra. }
  set (daily := if Py.ltb 0 usable then avg / usable else 0) in *.
  assert (Hused : 0 <= daily * 365 * age).
  { apply Qmult_le_0_compat; [lra | assumption]. }
  split; [assumption|].
  split; [now apply round_nonneg|].
  split; [apply round_nonneg; lra|].
  split; [now apply round_nonneg|].
  intros y Hy. destruct (Py.ltb 0 (daily * 365)) eqn:E; [|discriminate].
  apply ltb_lt in E. injection Hy as <-. apply round_nonneg.
  apply Qle_shift_div_l; [assumption|].
  destruct (max_spec 0 (6000 - daily * 365 * age)) as [[H ->] | [H ->]]; lra.
Qed.

(** The theorem at a full day draining 60 points with 10.5 kWh
    discharged, a quarter of a year into the life of a 20 kWh battery. *)
Lemma battery_health_of_report_witness :
  exists rep,
    compute_battery_analysis (draining_day "2026-01-01" (1 # 2)) 20 [] []
    = Some rep /\
    0 <= daily_equiv_cycles
           (compute_battery_health (battery_analysis_of rep) (1 # 4)).
Proof.
  destruct (compute_battery_analysis (draining_day "2026-01-01" (1 # 2)) 20 [] [])
    as [rep|] eqn:E.
  - exists rep. split; [reflexivity|].
    destruct (battery_health_of_report (draining_day "2026-01-01" (1 # 2)) 20
                (1 # 4) [] [] rep E) as (_ & H & _).
    + reflexivity.
    + intros r Hr. unfold draining_day in Hr. apply in_map_iff in Hr.
      destruct Hr as (h & <- & _). cbn [enrich Battery_Discharge_kWh].
      apply Qabs_nonneg.
    + vm_compute. discriminate.
    + exact H.
  - vm_compute in E. discriminate.
Defined.

(** ** Peak demand *)

Lemma max_by_key {A} (key : A -> Q) (items : list A) (first : A) :
  key (max_by key first items) = fold_left Py.max (map key items) (key first).
Proof.
  unfold max_by. revert first.
  induction items as [|x items IH]; intro first; cbn [fold_left map];
    [reflexivity|].
  rewrite IH. f_equal. unfold Py.max.
  now destruct (Py.ltb (key first) (key x)).
Qed.

(** X19.  Peak demand fails exactly on an input without records.  In its
    report the peak PV power is the [max_pv_w] of the sizing report; the
    peak grid draw is the draw of an importing record and at least the
    draw of every importing record (before rounding); and when no record
    imports, the peak grid draw is 0 with an empty date and hour. *)
Theorem peak_demand_report (rows : list row) (ev_days non_ev_days : list string)
        (inverter_ac_w : Q) :
  (compute_peak_demand rows ev_days non_ev_days inverter_ac_w = None
   <-> rows = []) /\
  (forall pd,
      compute_peak_demand rows ev_days non_ev_days inverter_ac_w = Some pd ->
      (forall pv_kwp inverter_kw ne ev s,
          compute_system_sizing rows pv_kwp inverter_kw ne ev = Some s ->
          peak_pv_w pd = sz_max_pv_w s) /\
      (importing rows = [] ->
       peak_grid_draw_w pd == 0 /\ peak_grid_date pd = EmptyString /\
       peak_grid_hour pd = EmptyString /\ peak_grid_is_ev pd = false) /\
      (importing rows <> [] ->
       exists r,
         In r rows /\ Grid_Energy_kWh r < 0 /\
         peak_grid_draw_w pd = Py.round (Qabs (Avg_Grid_W r)) 0 /\
         peak_grid_date pd = Date r /\ peak_grid_hour pd = Hour r /\
         forall r', In r' rows -> Grid_Energy_kWh r' < 0 ->
                    Qabs (Avg_Grid_W r') <= Qabs (Avg_Grid_W r))).
Proof.
  unfold compute_peak_demand. split.
  - destruct rows; split; intro H; congruence.
  - intros pd Hpd. destruct rows as [|first others] eqn:Erows; [discriminate|].
    rewrite <- Erows in *. injection Hpd as <-.
    cbn [peak_pv_w peak_grid_draw_w peak_grid_date peak_grid_hour
         peak_grid_is_ev].
    split; [|split].
    + intros pv_kwp inverter_kw ne ev s Hs. unfold compute_system_sizing in Hs.
      destruct (Qeq_bool pv_kwp 0); [discriminate|].
      rewrite Erows in Hs. cbn [map max_of] in Hs.
      destruct (Qeq_bool inverter_kw 0); [discriminate|].
      injection Hs as <-. cbn [sz_max_pv_w]. now rewrite max_by_key.
    + intro Hnone. rewrite Hnone. cbn [fst snd].
      split; [apply round_zero|]. repeat split.
    + intro Hsome. destruct (importing rows) as [|f o] eqn:Eimp; [congruence|].
      cbn [fst snd].
      destruct (max_by_spec (fun r => Py.abs (Avg_Grid_W r)) o f) as [Hin Hmax].
      cbv zeta in Hin, Hmax.
      set (peak := max_by (fun r => Py.abs (Avg_Grid_W r)) f o) in *.
      assert (Himp : forall x, In x (f :: o) <-> In x rows /\ Grid_Energy_kWh x < 0).
      { intro x. rewrite <- Eimp. unfold importing.
        now rewrite filter_In, ltb_lt. }
      exists peak. apply Himp in Hin. destruct Hin as [Hin Hlt].
      split; [assumption|]. split; [assumption|].
      split; [reflexivity|]. split; [reflexivity|]. split; [reflexivity|].
      intros r' Hr' Hlt'. apply (Hmax r'). apply Himp. now split.
Qed.

(** The theorem at an evening hour importing from the grid and a noon
    hour exporting. *)
Lemma peak_demand_report_witness :
  exists pd,
    compute_peak_demand [enrich evening_row; enrich bright_row] [] [] 5000
    = Some pd /\
    peak_grid_date pd = "2026-01-01"%string /\
    peak_grid_hour pd = "20:00"%string.
Proof.
  destruct (compute_peak_demand [enrich evening_row; enrich bright_row] [] [] 5000)
    as [pd|] eqn:E; [|vm_compute in E; discriminate].
  exists pd. split; [reflexivity|].
  destruct (proj2 (peak_demand_report [enrich evening_row; enrich bright_row]
                                      [] [] 5000) pd E) as (_ & _ & H).
  destruct H as (r & Hr & Hlt & _ & Hdate & Hhour & _); [discriminate|].
  cbn in Hr. destruct Hr as [<- | [<- | []]].
  - split; assumption.
  - vm_compute in Hlt. discriminate.
Defined.

(** ** Annual projection and carbon offset *)

Lemma monthly_totals_keys (rows : list row) (m : string) :
  In m (map fst (compute_monthly_totals rows))
  <-> exists r, In r rows /\ row_month r = m.
Proof.
  assert (Hfst : map fst (compute_monthly_totals rows)
                 = map fst (sorted_items (group_by rows row_month))).
  { unfold compute_monthly_totals. rewrite map_map. apply map_ext.
    intros [k mrows]. reflexivity. }
  assert (Hperm : Permutation (map fst (sorted_items (group_by rows row_month)))
                              (distinct_keys (map row_month rows))).
  { unfold sorted_items. rewrite sorted_perm, group_by_spec, map_map.
    cbn [fst]. now rewrite map_id. }
  rewrite Hfst. split.
  - intro Hin. apply (Permutation_in _ Hperm) in Hin.
    apply distinct_keys_In, in_map_iff in Hin.
    destruct Hin as (r & E & Hr). now exists r.
  - intros (r & Hr & E). apply (Permutation_in _ (Permutation_sym Hperm)).
    apply distinct_keys_In. rewrite <- E. now apply in_map.
Qed.

Lemma monthly_totals_days_pos (rows : list row) (m : string) (t : month_totals) :
  In (m, t) (compute_monthly_totals rows) -> (1 <= days t)%nat.
Proof.
  intro Hin. rewrite (monthly_totals_In rows m t Hin).
  unfold month_totals_of. cbn [days]. apply count_days_bounds.
  intro E. apply in_map with (f := fst) in Hin. cbn [fst] in Hin.
  apply monthly_totals_keys in Hin. destruct Hin as (r & Hr & Er).
  assert (Hf : In r (rows_of_month rows m)).
  { apply filter_In. split; [assumption|]. now apply String.eqb_eq. }
  rewrite E in Hf. destruct Hf.
Qed.

Lemma lookup_Some_In {B} (k : string) (d : list (string * B)) (v : B) :
  lookup k d = Some v -> In (k, v) d.
Proof.
  induction d as [|[k' v'] d IH]; cbn [lookup]; [discriminate|].
  destruct (String.eqb_spec k' k) as [E|_].
  - intro H. injection H as <-. subst k'. now left.
  - intro H. right. now apply IH.
Qed.

Lemma get_nonneg (k : string) (d : list (string * Q)) :
  (forall k' v, In (k', v) d -> 0 <= v) -> 0 <= get k 1 d.
Proof.
  intro H. unfold get. destruct (lookup k d) as [v|] eqn:E; [|lra].
  apply (H k), lookup_Some_In, E.
Qed.

Lemma deseasonalize_None (month_num : string -> option string)
      (mt : list (string * month_totals)) (sf : list (string * Q))
      (months : list string) :
  deseasonalize month_num mt sf months = None
  <-> exists m, In m months /\ deseasonalized_of month_num mt sf m = None.
Proof.
  induction months as [|m months IH]; cbn [deseasonalize].
  - split; [discriminate | intros (m & [] & _)].
  - destruct (deseasonalized_of month_num mt sf m) as [d|] eqn:Ed.
    + destruct (deseasonalize month_num mt sf months) as [ds|].
      * split; [discriminate|]. intros (m' & [<- | Hin] & E); [congruence|].
        assert (H : Some ds = None) by (apply IH; now exists m').
        discriminate.
      * split; [|reflexivity]. intros _.
        destruct (proj1 IH eq_refl) as (m' & Hin & E).
        exists m'. split; [now right | assumption].
    + split; [|reflexivity]. intros _. exists m. split; [now left | assumption].
Qed.

Lemma deseasonalize_Some (month_num : string -> option string)
      (mt : list (string * month_totals)) (sf : list (string * Q))
      (months : list string) (ds : list Q) :
  deseasonalize month_num mt sf months = Some ds ->
  List.length ds = List.length months /\
  forall d, In d ds ->
            exists m, In m months /\ deseasonalized_of month_num mt sf m = Some d.
Proof.
  revert ds. induction months as [|m months IH]; intros ds; cbn [deseasonalize].
  - intro H. injection H as <-. split; [reflexivity | intros d []].
  - destruct (deseasonalized_of month_num mt sf m) as [d|] eqn:Ed; [|discriminate].
    destruct (deseasonalize month_num mt sf months) as [ds'|]; [|discriminate].
    intro H. injection H as <-. destruct (IH ds' eq_refl) as [Hlen Hall].
    split; [cbn; now rewrite Hlen|].
    intros d' [<- | Hin].
    + exists m. split; [now left | assumption].
    + destruct (Hall d' Hin) as (m' & Hm' & E).
      exists m'. split; [now right | assumption].
Qed.

Lemma deseasonalized_of_Some (month_num : string -> option string)
      (mt : list (string * month_totals)) (sf : list (string * Q))
      (m : string) (d : Q) :
  deseasonalized_of month_num mt sf m = Some d ->
  exists k t,
    month_num m = Some k /\ lookup m mt = Some t /\ days t <> 0%nat /\
    ~ get k 1 sf == 0 /\
    d = total_pv t / inject_Z (Z.of_nat (days t)) / get k 1 sf.
Proof.
  unfold deseasonalized_of, factor_of, avg_daily_of.
  destruct (month_num m) as [k|]; cbn [option_map]; [|discriminate].
  destruct (lookup m mt) as [t|]; [|discriminate].
  destruct (Nat.eqb_spec (days t) 0) as [|Hd]; [discriminate|].
  destruct (Qeq_bool (get k 1 sf) 0) eqn:Ef; [discriminate|].
  intro H. injection H as <-. exists k, t.
  repeat split; try assumption.
  intro E. apply Qeq_bool_iff in E. congruence.
Qed.

(** X20.  On the engine's own monthly totals the projection fails exactly
    when some record lies in a month whose key has no month number or
    whose seasonal factor is 0: the division by the day count of a month
    never fails there. *)
Theorem projection_failures (month_num : string -> option string)
        (rows : list row) (seasonal_factors monthly_efficiency : list (string * Q))
        (sc_rate : Q) :
  compute_annual_projection month_num (compute_monthly_totals rows)
                            seasonal_factors monthly_efficiency sc_rate = None
  <-> exists r,
      In r rows /\
      match month_num (row_month r) with
      | Some k => get k 1 seasonal_factors == 0
      | None => True
      end.
Proof.
  set (mt := compute_monthly_totals rows).
  assert (Hnone : compute_annual_projection month_num mt seasonal_factors
                                            monthly_efficiency sc_rate = None
                  <-> deseasonalize month_num mt seasonal_factors
                                    (sorted_keys (map fst mt)) = None).
  { unfold compute_annual_projection.
    destruct (deseasonalize month_num mt seasonal_factors
                            (sorted_keys (map fst mt)));
      split; congruence. }
  rewrite Hnone, deseasonalize_None. split.
  - intros (m & Hm & E). unfold sorted_keys in Hm. apply sorted_In in Hm.
    destruct (lookup_In m mt Hm) as (t & Hl & Ht).
    apply monthly_totals_days_pos in Ht.
    apply monthly_totals_keys in Hm. destruct Hm as (r & Hr & <-).
    exists r. split; [assumption|].
    unfold deseasonalized_of, factor_of, avg_daily_of in E. rewrite Hl in E.
    destruct (month_num (row_month r)) as [k|]; cbn [option_map] in E; [|exact I].
    destruct (Nat.eqb_spec (days t) 0) as [Hz|_]; [lia|].
    destruct (Qeq_bool (get k 1 seasonal_factors) 0) eqn:Ef; [|discriminate].
    now apply Qeq_bool_iff.
  - intros (r & Hr & Hbad). exists (row_month r). split.
    + unfold sorted_keys. apply sorted_In, monthly_totals_keys. now exists r.
    + unfold deseasonalized_of, factor_of.
      destruct (month_num (row_month r)) as [k|]; cbn [option_map]; [|reflexivity].
      destruct (avg_daily_of mt (row_month r)); [|reflexivity].
      apply Qeq_bool_iff in Hbad. now rewrite Hbad.
Qed.

Lemma calendar_sum (f : string -> Q) (c : Q) :
  (forall k, In k calendar_months -> f k == c) ->
  Py.sum (map f calendar_months) == 12 * c.
Proof.
  intro H. rewrite (sum_all_equal (map f calendar_months) c).
  - reflexivity.
  - intros x Hx. apply in_map_iff in Hx. destruct Hx as (k & <- & Hk).
    now apply H.
Qed.

(** X21.  Deseasonalising undoes the seasonal factors: when the average
    daily PV energy of every month is [b] times the (non-zero) factor of
    the month, the projection returns a report whose baseline and whose
    deseasonalised month values are [b] to one decimal; and when the twelve
    calendar months all have the factor 1, the projected year is
    [b * 365.28] to the unit. *)
Theorem projection_baseline (month_num : string -> option string)
        (monthly_totals : list (string * month_totals))
        (seasonal_factors monthly_efficiency : list (string * Q))
        (sc_rate b : Q) :
  monthly_totals <> [] ->
  (forall m t,
      In (m, t) monthly_totals ->
      exists k,
        month_num m = Some k /\ days t <> 0%nat /\
        ~ get k 1 seasonal_factors == 0 /\
        total_pv t / inject_Z (Z.of_nat (days t))
        == b * get k 1 seasonal_factors) ->
  exists p,
    compute_annual_projection month_num monthly_totals seasonal_factors
                              monthly_efficiency sc_rate = Some p /\
    months_count p = List.length monthly_totals /\
    baseline_daily_pv p == Py.round b 1 /\
    (forall m e, In (m, e) (deseasonalized_months p) ->
                 dm_deseasonalized e == Py.round b 1) /\
    ((forall k, In k calendar_months -> get k 1 seasonal_factors == 1) ->
     projected_annual_pv p == Py.round (b * (36528 # 100)) 0).
Proof.
  intros Hne Hall. unfold compute_annual_projection.
  set (months := sorted_keys (map fst monthly_totals)).
  assert (Hlen : List.length months = List.length monthly_totals).
  { unfold months, sorted_keys.
    rewrite (Permutation_length (sorted_perm String.leb (map fst monthly_totals))).
    apply length_map. }
  assert (Hmonths : forall m, In m months -> In m (map fst monthly_totals)).
  { intros m Hm. unfold months, sorted_keys in Hm. now apply sorted_In in Hm. }
  destruct (deseasonalize month_num monthly_totals seasonal_factors months)
    as [ds|] eqn:E.
  - destruct (deseasonalize_Some _ _ _ _ _ E) as [Hl Hds].
    assert (Hb : forall d, In d ds -> d == b).
    { intros d Hd. destruct (Hds d Hd) as (m & Hm & Ed).
      destruct (deseasonalized_of_Some _ _ _ _ _ Ed)
        as (k & t & Hk & Ht & _ & Hf & ->).
      destruct (Hall m t (lookup_Some_In _ _ _ Ht)) as (k' & Hk' & _ & _ & Hb).
      assert (k' = k) by congruence. subst k'. rewrite Hb. now field. }
    assert (Hmean : mean ds == b).
    { apply mean_all_equal; [|assumption].
      intro Hnil. subst ds. cbn in Hl. rewrite Hlen in Hl.
      destruct monthly_totals; [congruence | discriminate]. }
    eexists. split; [reflexivity|].
    cbn [months_count baseline_daily_pv deseasonalized_months
         projected_annual_pv].
    split; [assumption|]. split; [now rewrite Hmean|]. split.
    + intros m e Hin. apply in_map_iff in Hin.
      destruct Hin as ([m' d] & He & Hin). injection He as _ <-.
      cbn [dm_deseasonalized]. apply in_combine_r in Hin.
      now rewrite (Hb d Hin).
    + intro Hone. apply round_proper; [|reflexivity].
      unfold projected_pv_of. rewrite (calendar_sum _ (b * (3044 # 100))).
      * field.
      * intros k Hk. rewrite (Hone k Hk), Hmean. ring.
  - exfalso. apply deseasonalize_None in E. destruct E as (m & Hm & E).
    destruct (lookup_In m monthly_totals (Hmonths m Hm)) as (t & Hl & Ht).
    destruct (Hall m t Ht) as (k & Hk & Hd & Hf & _).
    unfold deseasonalized_of, factor_of, avg_daily_of in E.
    rewrite Hk, Hl in E. cbn [option_map] in E.
    destruct (Nat.eqb_spec (days t) 0) as [|_]; [contradiction|].
    destruct (Qeq_bool (get k 1 seasonal_factors) 0) eqn:Ef; [|discriminate].
    apply Qeq_bool_iff in Ef. contradiction.
Qed.

(** The theorem at a January of 5 kWh a day whose seasonal factor is one
    half: the baseline is 10 kWh a day. *)
Lemma projection_baseline_witness :
  exists p,
    compute_annual_projection sample_month_num january_totals half_january [] 50
    = Some p /\
    baseline_daily_pv p == Py.round 10 1.
Proof.
  destruct (projection_baseline sample_month_num january_totals half_january
                                [] 50 10) as (p & E & _ & Hb & _).
  - discriminate.
  - intros m t [H | []]. injection H as <- <-.
    exists "1"%string. split; [reflexivity|]. split; [discriminate|].
    split; [intro H; vm_compute in H; discriminate | reflexivity].
  - exists p. split; assumption.
Defined.

Lemma deseasonalized_nonneg (month_num : string -> option string)
      (mt : list (string * month_totals)) (sf : list (string * Q))
      (months : list string) (ds : list Q) :
  (forall m t, In (m, t) mt -> 0 <= total_pv t) ->
  (forall k v, In (k, v) sf -> 0 <= v) ->
  deseasonalize month_num mt sf months = Some ds ->
  forall d, In d ds -> 0 <= d.
Proof.
  intros Hpv Hsf E d Hd.
  destruct (proj2 (deseasonalize_Some _ _ _ _ _ E) d Hd) as (m & _ & Ed).
  destruct (deseasonalized_of_Some _ _ _ _ _ Ed)
    as (k & t & _ & Ht & Hdays & Hf & ->).
  pose proof (Hpv m t (lookup_Some_In _ _ _ Ht)) as Ha.
  pose proof (get_nonneg k sf Hsf) as Hk.
  assert (Hn : 0 < inject_Z (Z.of_nat (days t))).
  { replace 0 with (inject_Z 0) by reflexivity. rewrite <- Zlt_Qlt. lia. }
  assert (Hk' : 0 < get k 1 sf).
  { apply Qle_lt_or_eq in Hk. destruct Hk as [Hk | Hk]; [assumption|].
    exfalso. apply Hf. now symmetry. }
  apply Qle_shift_div_l; [assumption|]. rewrite Qmult_0_l.
  apply Qle_shift_div_l; [assumption|]. now rewrite Qmult_0_l.
Qed.

Lemma projected_pv_nonneg (sf : list (string * Q)) (baseline_daily : Q) :
  (forall k v, In (k, v) sf -> 0 <= v) ->
  0 <= baseline_daily -> 0 <= projected_pv_of sf baseline_daily.
Proof.
  intros Hsf Hb. unfold projected_pv_of. apply sum_nonneg.
  intros x Hx. apply in_map_iff in Hx. destruct Hx as (k & <- & _).
  pose proof (get_nonneg k sf Hsf) as Hk.
  apply Qmult_le_0_compat; [|lra]. now apply Qmult_le_0_compat.
Qed.

(** X22.  For PV totals and seasonal factors that are not negative, the
    report of the projection orders the projected years
    [0 <= year 25 <= year 10 <= year 1]; for a self-consumption rate in
    (0, 100] the self-consumed energy lies between 0 and the projected PV
    energy; and for a rate of 0 or less it is 0, the export is the whole
    projected PV energy, and the carbon offset computed from the report is
    0 in all its figures, whatever the emission factor. *)
Theorem projection_bounds (month_num : string -> option string)
        (monthly_totals : list (string * month_totals))
        (seasonal_factors monthly_efficiency : list (string * Q))
        (sc_rate : Q) (p : projection) :
  (forall m t, In (m, t) monthly_totals -> 0 <= total_pv t) ->
  (forall k v, In (k, v) seasonal_factors -> 0 <= v) ->
  compute_annual_projection month_num monthly_totals seasonal_factors
                            monthly_efficiency sc_rate = Some p ->
  (0 <= projected_annual_pv_year25 p /\
   projected_annual_pv_year25 p <= projected_annual_pv_year10 p /\
   projected_annual_pv_year10 p <= projected_annual_pv p) /\
  (0 < sc_rate -> sc_rate <= 100 ->
   0 <= projected_annual_self_consumed p /\
   projected_annual_self_consumed p <= projected_annual_pv p) /\
  (sc_rate <= 0 ->
   projected_annual_self_consumed p == 0 /\
   projected_annual_export p == projected_annual_pv p /\
   forall grid_emission_factor,
     let c := compute_carbon_offset (projected_annual_self_consumed p)
                                    grid_emission_factor in
     annual_co2_avoided_kg c == 0 /\ annual_co2_avoided_tonnes c == 0 /\
     equiv_trees c == 0 /\ equiv_km_driving c == 0).
Proof.
  intros Hpv Hsf Hp. unfold compute_annual_projection in Hp.
  destruct (deseasonalize month_num monthly_totals seasonal_factors
                          (sorted_keys (map fst monthly_totals)))
    as [ds|] eqn:E; [|discriminate].
  injection Hp as <-.
  cbn [projected_annual_pv projected_annual_pv_year10 projected_annual_pv_year25
       projected_annual_self_consumed projected_annual_export].
  assert (HP : 0 <= projected_pv_of seasonal_factors (mean ds)).
  { apply projected_pv_nonneg; [assumption|]. apply mean_nonneg.
    exact (deseasonalized_nonneg month_num monthly_totals seasonal_factors
                                 _ ds Hpv Hsf E). }
  set (P := projected_pv_of seasonal_factors (mean ds)) in *.
  assert (Hx0 : 0 < 1 - (5 # 1000)) by lra.
  assert (Hx1 : 1 - (5 # 1000) <= 1) by lra.
  pose proof (pow_pos (1 - (5 # 1000)) 25 Hx0) as H25.
  assert (H2510 : Py.pow (1 - (5 # 1000)) 25 <= Py.pow (1 - (5 # 1000)) 10)
    by (apply pow_antitone; [assumption | assumption | lia]).
  assert (H10 : Py.pow (1 - (5 # 1000)) 10 <= 1).
  { change 1 with (Py.pow (1 - (5 # 1000)) 0) at 2.
    apply pow_antitone; [assumption | assumption | lia]. }
  set (y25 := Py.pow (1 - (5 # 1000)) 25) in *.
  set (y10 := Py.pow (1 - (5 # 1000)) 10) in *.
  split; [|split].
  - split; [apply round_nonneg; nra|].
    split; apply round_mono; nra.
  - intros Hpos H100. rewrite (proj2 (ltb_lt 0 sc_rate) Hpos).
    assert (Hs : 0 <= sc_rate / 100 <= 1).
    { split.
      - apply Qle_shift_div_l; lra.
      - apply Qle_shift_div_r; lra. }
    set (s := sc_rate / 100) in *.
    split; [apply round_nonneg; nra | apply round_mono; nra].
  - intro Hle. rewrite (proj2 (ltb_ge 0 sc_rate) Hle).
    split; [apply round_zero|].
    split; [apply round_proper; [ring | reflexivity]|].
    intro gef. cbv zeta. unfold compute_carbon_offset.
    cbn [annual_co2_avoided_kg annual_co2_avoided_tonnes equiv_trees
         equiv_km_driving].
    assert (Hz : Py.round 0 0 * gef == 0) by (rewrite round_zero; ring).
    assert (Hround : forall x d, x == 0 -> Py.round x d == 0).
    { intros x d Hx. rewrite (round_proper x 0 Hx d d eq_refl).
      apply round_zero. }
    split; [|split; [|split]]; apply Hround; rewrite Hz; reflexivity.
Qed.

(** The theorem at the January of 5 kWh a day with half of the PV energy
    self-consumed. *)
Lemma projection_bounds_witness :
  exists p,
    compute_annual_projection sample_month_num january_totals half_january [] 50
    = Some p /\
    projected_annual_pv_year10 p <= projected_annual_pv p /\
    projected_annual_self_consumed p <= projected_annual_pv p.
Proof.
  destruct (compute_annual_projection sample_month_num january_totals
                                      half_january [] 50) as [p|] eqn:E;
    [|vm_compute in E; discriminate].
  exists p. split; [reflexivity|].
  destruct (projection_bounds sample_month_num january_totals half_january
                              [] 50 p) as ((_ & _ & H10) & Hsc & _).
  - intros m t [H | []]. injection H as _ <-. cbn [total_pv]. lra.
  - intros k v [H | []]. injection H as _ <-. lra.
  - exact E.
  - split; [assumption|]. apply Hsc; lra.
Defined.

(** ** Hourly patterns *)

Lemma hourly_mean_spec (column : row -> Q) (rows : list row) :
  hourly_mean column rows
  = map (fun h => (h, hour_mean column rows h))
        (distinct_keys (map row_hour rows)).
Proof.
  unfold hourly_mean. rewrite group_by_spec, map_map. reflexivity.
Qed.

Lemma filter_map_keys {B} (g : string -> B) (P : string * B -> bool)
      (ks : list string) :
  map fst (filter P (map (fun h => (h, g h)) ks))
  = filter (fun h => P (h, g h)) ks.
Proof.
  induction ks as [|k ks IH]; [reflexivity|]. cbn [map filter].
  destruct (P (k, g k)); cbn [map fst]; now rewrite IH.
Qed.

Lemma hours_above_spec (g : string -> Q) (ks : list string) (bound : Q) :
  NoDup ks ->
  let hours := hours_above (map (fun h => (h, g h)) ks) bound in
  (forall h, In h hours <-> In h ks /\ bound < g h) /\
  NoDup hours /\
  Sorted (fun a b => String.leb a b = true) hours.
Proof.
  intros Hnd. cbv zeta. unfold hours_above, sorted_keys.
  rewrite (filter_map_keys g (fun '(h, v) => Py.ltb bound v)).
  split; [|split].
  - intro h. now rewrite sorted_In, filter_In, ltb_lt.
  - apply (Permutation_NoDup (Permutation_sym (sorted_perm String.leb _))).
    now apply NoDup_filter.
  - apply sorted_Sorted. intros a b. apply String.leb_total.
Qed.

Lemma hour_present (rows : list row) (h : string) :
  In h (distinct_keys (map row_hour rows))
  <-> exists r, In r rows /\ row_hour r = h.
Proof.
  rewrite distinct_keys_In, in_map_iff. split; intros (r & H1 & H2).
  - now exists r.
  - now exists r.
Qed.

(** X23.  For an input with at least one record there is a best hour of
    the day, the one whose mean PV power over all its records is largest;
    the peak PV hours are exactly the hours of the input whose mean PV
    power exceeds half of that of the best hour, so the best hour is among
    them whenever its mean is positive; the export hours are exactly the
    hours whose mean export exceeds 0.05 kWh; and both lists are in
    ascending order without repetition. *)
Theorem peak_and_export_hours (rows : list row) (ev_days non_ev_days : list string) :
  rows <> [] ->
  let p := compute_hourly_patterns rows ev_days non_ev_days in
  exists best,
    (exists r, In r rows /\ row_hour r = best) /\
    (forall r, In r rows ->
               hour_mean Avg_PV_W rows (row_hour r)
               <= hour_mean Avg_PV_W rows best) /\
    (forall h, In h (peak_pv_hours p) <->
               (exists r, In r rows /\ row_hour r = h) /\
               hour_mean Avg_PV_W rows best * (5 # 10)
               < hour_mean Avg_PV_W rows h) /\
    (0 < hour_mean Avg_PV_W rows best -> In best (peak_pv_hours p)) /\
    (forall h, In h (export_hours p) <->
               (exists r, In r rows /\ row_hour r = h) /\
               5 # 100 < hour_mean Grid_Export_kWh rows h) /\
    NoDup (peak_pv_hours p) /\
    Sorted (fun a b => String.leb a b = true) (peak_pv_hours p) /\
    NoDup (export_hours p) /\
    Sorted (fun a b => String.leb a b = true) (export_hours p).
Proof.
  intros Hne. cbv zeta. unfold compute_hourly_patterns.
  cbn [peak_pv_hours export_hours].
  unfold peak_pv_hours_of, export_hours_of. rewrite !hourly_mean_spec.
  set (ks := distinct_keys (map row_hour rows)).
  assert (Hnd : NoDup ks) by apply distinct_keys_NoDup.
  rewrite map_map. cbn [snd].
  pose proof (max_of_spec (map (fun h => hour_mean Avg_PV_W rows h) ks)) as Hmax.
  destruct (max_of (map (fun h => hour_mean Avg_PV_W rows h) ks)) as [M|].
  - destruct Hmax as [HM Hle]. apply in_map_iff in HM.
    destruct HM as (best & <- & Hbest).
    destruct (hours_above_spec (hour_mean Avg_PV_W rows) ks
                               (hour_mean Avg_PV_W rows best * (5 # 10)) Hnd)
      as (Hin & Hnd1 & Hs1).
    destruct (hours_above_spec (hour_mean Grid_Export_kWh rows) ks (5 # 100) Hnd)
      as (Hin2 & Hnd2 & Hs2).
    exists best. split; [now apply hour_present|].
    split.
    { intros r Hr. apply Hle, in_map_iff. exists (row_hour r).
      split; [reflexivity|]. apply hour_present. now exists r. }
    split.
    { intro h. rewrite Hin. unfold ks. now rewrite hour_present. }
    split.
    { intro Hpos. apply Hin. split; [assumption | lra]. }
    split.
    { intro h. rewrite Hin2. unfold ks. now rewrite hour_present. }
    repeat split; assumption.
  - exfalso. apply map_eq_nil in Hmax.
    destruct rows as [|r rows]; [congruence|].
    assert (H : In (row_hour r) ks)
      by (apply hour_present; exists r; split; [now left | reflexivity]).
    rewrite Hmax in H. destruct H.
Qed.

(** The theorem at a single bright noon hour. *)
Lemma peak_and_export_hours_witness :
  In "12:00"%string
     (peak_pv_hours (compute_hourly_patterns [enrich bright_row] [] [])).
Proof.
  destruct (peak_and_export_hours [enrich bright_row] [] [])
    as (best & (r & Hr & Hbest) & _ & _ & Hin & _); [discriminate|].
  destruct Hr as [<- | []]. vm_compute in Hbest. subst best.
  apply Hin. vm_compute. reflexivity.
Defined.

Lemma subset_of_In (rows : list row) (day_set : list string) (r : row) :
  In r (subset_of rows day_set) <-> In r rows /\ mem (row_day r) day_set = true.
Proof. unfold subset_of. apply filter_In. Qed.

Lemma hourly_result_lookup (rows : list row) (ev_days non_ev_days : list string) :
  let result := hourly_result rows ev_days non_ev_days in
  lookup "ev"%string result
  = match subset_of rows ev_days with
    | [] => None
    | subset => Some (hourly_of subset)
    end /\
  lookup "non_ev"%string result
  = match subset_of rows non_ev_days with
    | [] => None
    | subset => Some (hourly_of subset)
    end.
Proof.
  cbv zeta. unfold hourly_result, day_sets. cbn [flat_map]. rewrite app_nil_r.
  rewrite !lookup_app.
  destruct (subset_of rows non_ev_days), (subset_of rows ev_days);
    split; reflexivity.
Qed.

Lemma hourly_of_In (subset : list row) (h : string) (e : hour_profile) :
  In (h, e) (hourly_of subset) ->
  (exists r, In r subset /\ row_hour r = h) /\
  avg_load_w e = Py.round (hour_mean Load_W subset h) 0.
Proof.
  unfold hourly_of. rewrite in_map_iff.
  intros ([h' hrows] & E & Hin). injection E as -> <-.
  unfold sorted_items in Hin. apply sorted_In in Hin.
  rewrite group_by_spec, in_map_iff in Hin.
  destruct Hin as (k & E & Hk). injection E as -> <-.
  split; [now apply hour_present | reflexivity].
Qed.

Lemma hourly_of_keys (subset : list row) (h : string) :
  In h (map fst (hourly_of subset))
  <-> exists r, In r subset /\ row_hour r = h.
Proof.
  split.
  - rewrite in_map_iff. intros ([h' e] & E & Hin). cbn [fst] in E. subst h'.
    now apply hourly_of_In in Hin.
  - intro Hr. apply hour_present in Hr.
    unfold hourly_of. rewrite map_map.
    apply in_map_iff.
    exists (h, rows_of_hour subset h). split; [reflexivity|].
    unfold sorted_items. apply sorted_In.
    rewrite group_by_spec. apply in_map_iff. now exists h.
Qed.

(** X24.  An hour is reported as an EV charging hour exactly when the
    input has a record of that hour on an EV day and one on a non-EV day,
    and the mean load of the hour over the EV-day records, rounded to the
    watt, exceeds the rounded mean over the non-EV-day records by more
    than 500 W. *)
Theorem ev_charging_hours_spec (rows : list row) (ev_days non_ev_days : list string)
        (h : string) :
  In h (ev_charging_hours (compute_hourly_patterns rows ev_days non_ev_days))
  <-> (exists r, In r rows /\ mem (row_day r) ev_days = true /\ row_hour r = h) /\
      (exists r, In r rows /\ mem (row_day r) non_ev_days = true /\ row_hour r = h) /\
      500 < Py.round (hour_mean Load_W (subset_of rows ev_days) h) 0
            - Py.round (hour_mean Load_W (subset_of rows non_ev_days) h) 0.
Proof.
  unfold compute_hourly_patterns. cbn [ev_charging_hours].
  unfold ev_charging_hours_of.
  destruct (hourly_result_lookup rows ev_days non_ev_days) as [-> ->].
  assert (Hsub : forall ds,
             (exists r, In r rows /\ mem (row_day r) ds = true /\ row_hour r = h)
             <-> exists r, In r (subset_of rows ds) /\ row_hour r = h).
  { intro ds. split; intros (r & H); exists r; rewrite subset_of_In in *; tauto. }
  rewrite !Hsub.
  set (ev := subset_of rows ev_days). set (non_ev := subset_of rows non_ev_days).
  assert (Hcases :
            In h (flat_map
                    (fun h0 =>
                       match lookup h0 (hourly_of ev), lookup h0 (hourly_of non_ev) with
                       | Some e, Some n =>
                         if Py.ltb 500 (avg_load_w e - avg_load_w n) then [h0] else []
                       | _, _ => []
                       end)
                    (sorted_keys (map fst (hourly_of ev))))
            <-> (exists r, In r ev /\ row_hour r = h) /\
                (exists r, In r non_ev /\ row_hour r = h) /\
                500 < Py.round (hour_mean Load_W ev h) 0
                      - Py.round (hour_mean Load_W non_ev h) 0).
  { rewrite in_flat_map. split.
    - intros (h0 & Hh0 & Hin).
      destruct (lookup h0 (hourly_of ev)) as [e|] eqn:Ee; [|destruct Hin].
      destruct (lookup h0 (hourly_of non_ev)) as [n|] eqn:En; [|destruct Hin].
      destruct (Py.ltb 500 (avg_load_w e - avg_load_w n)) eqn:Elt; [|destruct Hin].
      destruct Hin as [<- | []].
      apply lookup_Some_In, hourly_of_In in Ee. destruct Ee as [He Hle].
      apply lookup_Some_In, hourly_of_In in En. destruct En as [Hn Hln].
      apply ltb_lt in Elt. rewrite Hle, Hln in Elt. tauto.
    - intros (He & Hn & Hlt). exists h.
      apply hourly_of_keys in He, Hn.
      split; [unfold sorted_keys; now apply sorted_In|].
      destruct (lookup_In h _ He) as (e & -> & Hine).
      destruct (lookup_In h _ Hn) as (n & -> & Hinn).
      apply hourly_of_In in Hine, Hinn.
      destruct Hine as [_ ->], Hinn as [_ ->].
      apply ltb_lt in Hlt. rewrite Hlt. now left. }
  destruct ev as [|e es] eqn:Eev.
  - split; [intros [] | intros ((r & [] & _) & _)].
  - destruct non_ev as [|n ns] eqn:Enon.
    + split; [intros [] | intros (_ & (r & [] & _) & _)].
    + exact Hcases.
Qed.

(** * Properties of the monthly export *)

Lemma int_floor (x : Q) : (0 <= Qnum x)%Z -> ProcessMonth.int x = Qfloor x.
Proof.
  destruct x as [a b]. unfold ProcessMonth.int. cbn. intro Ha.
  apply Z.quot_div_nonneg; lia.
Qed.

Lemma int_ceiling (x : Q) : (Qnum x <= 0)%Z -> ProcessMonth.int x = Qceiling x.
Proof.
  destruct x as [a b]. unfold ProcessMonth.int, Qceiling, Qfloor, Qopp. cbn.
  intro Ha. rewrite <- (Z.quot_div_nonneg (- a) (Zpos b)) by lia.
  rewrite Z.quot_opp_l by discriminate. lia.
Qed.

Lemma int_mono (x y : Q) : x <= y -> (ProcessMonth.int x <= ProcessMonth.int y)%Z.
Proof.
  intro Hle. pose proof Hle as Hz. unfold Qle in Hz.
  destruct (Z_le_gt_dec 0 (Qnum x)) as [Hx | Hx].
  - assert (Hy : (0 <= Qnum y)%Z) by nia.
    rewrite (int_floor x Hx), (int_floor y Hy). now apply Qfloor_resp_le.
  - destruct (Z_le_gt_dec 0 (Qnum y)) as [Hy | Hy].
    + rewrite (int_ceiling x) by lia. rewrite (int_floor y Hy).
      assert (Hx0 : x <= 0) by (unfold Qle; cbn; lia).
      assert (Hy0 : 0 <= y) by (unfold Qle; cbn; lia).
      apply Qceiling_resp_le in Hx0. apply Qfloor_resp_le in Hy0.
      cbn in Hx0, Hy0. lia.
    + rewrite (int_ceiling x), (int_ceiling y) by lia.
      now apply Qceiling_resp_le.
Qed.

Lemma fold_min_spec (vs : list Q) (v : Q) :
  let m := fold_left Py.min vs v in
  m <= v /\ forall x, In x vs -> m <= x.
Proof.
  revert v. induction vs as [|x vs IH]; intro v; cbn [fold_left].
  - split; [lra | intros x []].
  - destruct (IH (Py.min v x)) as (H1 & H2).
    destruct (min_spec v x) as [[Hlt E] | [Hle E]]; rewrite E in *.
    + split; [lra|]. intros y [<- | Hy]; [assumption | now apply H2].
    + split; [assumption|]. intros y [<- | Hy]; [lra | now apply H2].
Qed.

Lemma min_le_max (vs : list Q) (lo hi : Q) :
  min_of vs = Some lo -> max_of vs = Some hi -> lo <= hi.
Proof.
  destruct vs as [|v vs]; [discriminate|]. cbn [min_of max_of].
  intros Hlo Hhi. injection Hlo as <-. injection Hhi as <-.
  destruct (fold_min_spec vs v) as [H1 _].
  destruct (fold_max_spec vs v) as [H2 _]. cbv zeta in *. lra.
Qed.

Section MonthlyExport.

Variable hour_of : string -> option string.

Lemma keyed_readings (rows : list ProcessMonth.reading) (hour : string) :
  map snd (filter (fun kr => String.eqb (fst kr) hour)
                  (ProcessMonth.keyed hour_of rows))
  = ProcessMonth.readings_of hour_of rows hour.
Proof.
  unfold ProcessMonth.keyed, ProcessMonth.readings_of.
  induction rows as [|r rows IH]; [reflexivity|].
  cbn [flat_map filter]. rewrite filter_app, map_app, IH.
  destruct (hour_of (ProcessMonth.Time r)) as [h|]; [|reflexivity].
  cbn [filter fst]. destruct (String.eqb h hour); reflexivity.
Qed.

Lemma keyed_keys (rows : list ProcessMonth.reading) (hour : string) :
  In hour (map fst (ProcessMonth.keyed hour_of rows))
  <-> exists r, In r rows /\ hour_of (ProcessMonth.Time r) = Some hour.
Proof.
  unfold ProcessMonth.keyed. rewrite in_map_iff. split.
  - intros ([h r] & E & Hin). cbn [fst] in E. subst h.
    apply in_flat_map in Hin. destruct Hin as (r' & Hr' & Hin).
    destruct (hour_of (ProcessMonth.Time r')) as [h'|] eqn:Eh; [|destruct Hin].
    destruct Hin as [E | []]. injection E as -> ->. now exists r.
  - intros (r & Hr & Eh). exists (hour, r). split; [reflexivity|].
    apply in_flat_map. exists r. split; [assumption|]. rewrite Eh. now left.
Qed.

Lemma hourly_of_spec (rows : list ProcessMonth.reading) :
  ProcessMonth.hourly_of hour_of rows
  = map (fun hour => (hour, ProcessMonth.readings_of hour_of rows hour))
        (distinct_keys (map fst (ProcessMonth.keyed hour_of rows))).
Proof.
  unfold ProcessMonth.hourly_of. rewrite group_by_spec, map_map.
  apply map_ext. intro hour. now rewrite keyed_readings.
Qed.

Lemma process_hourly_spec (rows : list ProcessMonth.reading) :
  let hours :=
    sorted_keys (distinct_keys (map fst (ProcessMonth.keyed hour_of rows))) in
  ProcessMonth.process_hourly hour_of rows
  = map (fun hour =>
           ProcessMonth.entry_of hour
                                 (ProcessMonth.readings_of hour_of rows hour))
        hours.
Proof.
  cbv zeta. unfold ProcessMonth.process_hourly. rewrite hourly_of_spec.
  rewrite map_map. cbn [fst]. rewrite map_id.
  apply map_ext_in. intros hour Hin.
  unfold sorted_keys in Hin. apply sorted_In in Hin.
  unfold get. rewrite lookup_map_keys.
  now rewrite (proj2 (mem_In hour _) Hin).
Qed.

Lemma readings_of_nonempty (rows : list ProcessMonth.reading) (hour : string) :
  In hour (distinct_keys (map fst (ProcessMonth.keyed hour_of rows))) ->
  ProcessMonth.readings_of hour_of rows hour <> [].
Proof.
  intros Hin E. apply distinct_keys_In, keyed_keys in Hin.
  destruct Hin as (r & Hr & Eh).
  assert (H : In r (ProcessMonth.readings_of hour_of rows hour)).
  { apply filter_In. split; [assumption|]. rewrite Eh. apply String.eqb_refl. }
  rewrite E in H. destruct H.
Qed.

End MonthlyExport.

Lemma column_of_spec (values : list Q) :
  values <> [] ->
  let c := ProcessMonth.column_of values (List.length values) in
  ProcessMonth.Avg_W c = Py.round (Py.sum values / Py.len values) 1 /\
  ProcessMonth.Energy_kWh c == Py.round (Py.sum values / 12000) 3 /\
  (List.length values = 12%nat ->
   ProcessMonth.Energy_kWh c
   == Py.round (Py.sum values / Py.len values / 1000) 3).
Proof.
  intro Hne. cbv zeta. unfold ProcessMonth.column_of.
  cbn [ProcessMonth.Avg_W ProcessMonth.Energy_kWh].
  destruct (Nat.eqb_spec (List.length values) 0) as [E|_].
  { destruct values; [congruence | discriminate]. }
  pose proof (len_pos values Hne) as Hpos. unfold Py.len in *.
  set (n := inject_Z (Z.of_nat (List.length values))) in *.
  split; [reflexivity|]. split.
  - apply round_proper; [|reflexivity]. field. lra.
  - intro H12. apply round_proper; [|reflexivity].
    assert (En : n == 12) by (unfold n; rewrite H12; reflexivity).
    rewrite En. field.
Qed.

(** X25.  Every hourly entry of the export stands for one bucket that has
    at least one reading: its [Readings] is the number of readings of the
    bucket; its power columns are the five of [power_cols]; for each of
    them the average is the rounded mean of the readings and the energy is
    the sum of the readings, each held for 5 minutes ([sum / 12000] kWh,
    three decimals), which for a full hour of 12 readings is the mean
    power divided by 1000; and the minimum SOC is at most the maximum. *)
Theorem process_hourly_entries (hour_of : string -> option string)
        (rows : list ProcessMonth.reading) (e : ProcessMonth.entry) :
  In e (ProcessMonth.process_hourly hour_of rows) ->
  exists hour,
    let readings := ProcessMonth.readings_of hour_of rows hour in
    ProcessMonth.Hour e = (hour ++ ":00")%string /\
    readings <> [] /\
    ProcessMonth.Readings e = List.length readings /\
    map fst (ProcessMonth.powers e) = map snd ProcessMonth.power_cols /\
    (forall key c,
        In (key, c) (ProcessMonth.powers e) ->
        exists col,
          In (col, key) ProcessMonth.power_cols /\
          let values := map (ProcessMonth.cell col) readings in
          ProcessMonth.Avg_W c = Py.round (Py.sum values / Py.len values) 1 /\
          ProcessMonth.Energy_kWh c == Py.round (Py.sum values / 12000) 3 /\
          (List.length readings = 12%nat ->
           ProcessMonth.Energy_kWh c
           == Py.round (Py.sum values / Py.len values / 1000) 3)) /\
    (ProcessMonth.Min_SOC_Pct e <= ProcessMonth.Max_SOC_Pct e)%Z.
Proof.
  intro Hin. rewrite process_hourly_spec in Hin. cbv zeta in Hin.
  apply in_map_iff in Hin. destruct Hin as (hour & <- & Hhour).
  unfold sorted_keys in Hhour. apply sorted_In in Hhour.
  pose proof (readings_of_nonempty hour_of rows hour Hhour) as Hne.
  exists hour. cbv zeta.
  set (readings := ProcessMonth.readings_of hour_of rows hour) in *.
  unfold ProcessMonth.entry_of.
  cbn [ProcessMonth.Hour ProcessMonth.Readings ProcessMonth.powers
       ProcessMonth.Min_SOC_Pct ProcessMonth.Max_SOC_Pct].
  split; [reflexivity|]. split; [assumption|]. split; [reflexivity|].
  split; [reflexivity|]. split.
  - intros key c Hc. apply in_map_iff in Hc.
    destruct Hc as ([col key'] & E & Hcol). injection E as -> <-.
    exists col. split; [assumption|].
    assert (Hv : map (ProcessMonth.cell col) readings <> []).
    { intro E. apply map_eq_nil in E. contradiction. }
    pose proof (column_of_spec _ Hv) as H. cbv zeta in H.
    rewrite length_map in H. exact H.
  - destruct (min_of (map (ProcessMonth.cell "SOC(%)") readings)) as [lo|] eqn:Elo.
    + destruct (max_of (map (ProcessMonth.cell "SOC(%)") readings)) as [hi|] eqn:Ehi.
      * apply int_mono. exact (min_le_max _ _ _ Elo Ehi).
      * destruct (map (ProcessMonth.cell "SOC(%)") readings); discriminate.
    + destruct (map (ProcessMonth.cell "SOC(%)") readings); [|discriminate].
      reflexivity.
Qed.

(** The theorem at the entry of the hour 07 of three readings, one of
    them without a time. *)
Lemma process_hourly_entries_witness :
  exists e,
    In e (ProcessMonth.process_hourly ProcessMonth.sample_hour_of
                                      ProcessMonth.sample_readings) /\
    ProcessMonth.Readings e = 2%nat /\
    (ProcessMonth.Min_SOC_Pct e <= ProcessMonth.Max_SOC_Pct e)%Z.
Proof.
  assert (Hin : In (ProcessMonth.entry_of
                      "07" (ProcessMonth.readings_of ProcessMonth.sample_hour_of
                                                     ProcessMonth.sample_readings
                                                     "07"))
                   (ProcessMonth.process_hourly ProcessMonth.sample_hour_of
                                                ProcessMonth.sample_readings))
    by (left; reflexivity).
  eexists. split; [exact Hin|].
  destruct (process_hourly_entries _ _ _ Hin)
    as (hour & Hhour & _ & Hn & _ & _ & Hsoc).
  split; [reflexivity | exact Hsoc].
Defined.

(** X26.  The hourly entries of the export are one per bucket of the
    readings that are not skipped, in ascending order of the bucket and
    without repetition, and no reading is lost or counted twice: the
    [Readings] of the entries add up to the number of readings that are
    not skipped. *)
Theorem process_hourly_hours (hour_of : string -> option string)
        (rows : list ProcessMonth.reading) :
  exists hours,
    map ProcessMonth.Hour (ProcessMonth.process_hourly hour_of rows)
    = map (fun hour => (hour ++ ":00")%string) hours /\
    NoDup hours /\
    Sorted (fun a b => String.leb a b = true) hours /\
    (forall hour,
        In hour hours
        <-> exists r, In r rows /\ hour_of (ProcessMonth.Time r) = Some hour) /\
    list_sum (map ProcessMonth.Readings (ProcessMonth.process_hourly hour_of rows))
    = List.length (ProcessMonth.keyed hour_of rows).
Proof.
  set (ks := distinct_keys (map fst (ProcessMonth.keyed hour_of rows))).
  exists (sorted_keys ks). rewrite process_hourly_spec. cbv zeta. fold ks.
  rewrite !map_map. cbn [ProcessMonth.entry_of ProcessMonth.Hour
                          ProcessMonth.Readings].
  assert (Hperm : Permutation (sorted_keys ks) ks)
    by apply (sorted_perm String.leb).
  split; [reflexivity|]. split.
  { apply (Permutation_NoDup (Permutation_sym Hperm)), distinct_keys_NoDup. }
  split.
  { apply sorted_Sorted. intros a b. apply String.leb_total. }
  split.
  { intro hour. unfold sorted_keys. rewrite sorted_In. unfold ks.
    now rewrite distinct_keys_In, keyed_keys. }
  rewrite (Permutation_list_sum
             (Permutation_map
                (fun hour => List.length (ProcessMonth.readings_of hour_of rows hour))
                Hperm)).
  rewrite <- (Permutation_length
                (group_by_concat (ProcessMonth.keyed hour_of rows) fst)).
  rewrite length_concat, group_by_spec, !map_map. cbn [snd]. fold ks.
  f_equal. apply map_ext. intro hour.
  now rewrite <- keyed_readings, length_map.
Qed.
